(** * EXIF Reader node: a shallow embedding of [ExifReader.execute] and
    [formatFileSize], with the ECMAScript built-ins they call.

    JavaScript numbers are IEEE-754 binary64 values: they are modelled by
    Rocq's primitive [float], whose operations are the machine's.  The
    built-ins that ECMAScript specifies exactly (Number::toString,
    Number.prototype.toFixed, parseFloat, Math.floor, Math.round, Date's
    time arithmetic and toISOString) are written out over the exact value
    of a float; the ones it leaves to the implementation (Math.log,
    Math.pow, Date.prototype.toLocaleString) are fields of a [Runtime]. *)

From Stdlib Require Import ZArith List String Ascii Bool Lia.
From Stdlib Require Import Floats DecimalString.
From Stdlib Require Uint63.
From Stdlib Require DecimalN.
Import ListNotations.

Set Warnings "-register-all,-inexact-float".

Local Open Scope string_scope.
Local Open Scope Z_scope.

(** ** Decimal digits *)

Module Digits.

(** Decimal representation of a non-negative integer, no leading zeros
    ([0] prints as "0"). *)
Definition of_Z (z : Z) : string :=
  NilZero.string_of_uint (N.to_uint (Z.to_N z)).

Fixpoint repeat0 (n : nat) : string :=
  match n with
  | O => EmptyString
  | S n' => String "0" (repeat0 n')
  end.

(** [pad w z]: the decimal digits of [z], left-padded with zeros to at least
    [w] characters. *)
Definition pad (w : nat) (z : Z) : string :=
  let s := of_Z z in
  repeat0 (w - String.length s) ++ s.

Definition take (n : nat) (s : string) : string := String.substring 0 n s.

Definition drop (n : nat) (s : string) : string :=
  String.substring n (String.length s - n) s.

End Digits.

(** ** JavaScript numbers *)

Module Number.

Definition number := float.

(** The exact value of a finite non-zero float is [(-1)^s * m * 2^e]. *)
Inductive shape :=
| NaN
| Inf (neg : bool)
| Zero (neg : bool)
| Fin (neg : bool) (m : positive) (e : Z).

Definition shape_of (x : number) : shape :=
  match Prim2SF x with
  | S754_nan => NaN
  | S754_infinity s => Inf s
  | S754_zero s => Zero s
  | S754_finite s m e => Fin s m e
  end.

(** Nearest integer to [n / d] ([0 <= n], [0 < d]), ties to even. *)
Definition round_half_even (n d : Z) : Z :=
  let q := n / d in
  let r := n mod d in
  match (2 * r ?= d) with
  | Lt => q
  | Gt => q + 1
  | Eq => if Z.even q then q else q + 1
  end.

(** The float nearest to the positive rational [n / d] (round to nearest,
    ties to even; overflow gives infinity, underflow is gradual). *)
Definition of_pos_Q (n d : Z) : number :=
  let ln := Z.log2 n in
  let ld := Z.log2 d in
  let above := if ld <=? ln then d * 2 ^ (ln - ld) <=? n
               else d <=? n * 2 ^ (ld - ln) in
  let e0 := if above then ln - ld - 52 else ln - ld - 53 in
  let e := Z.max e0 (-1074) in
  let m := if 0 <=? e then round_half_even n (d * 2 ^ e)
           else round_half_even (n * 2 ^ (- e)) d in
  if 971 <? e then infinity
  else Z.ldexp (of_uint63 (Uint63.of_Z m)) e.

(** The float nearest to the rational [n / d], [0 < d]. *)
Definition of_Q (n d : Z) : number :=
  match n with
  | Z0 => zero
  | Zpos _ => of_pos_Q n d
  | Zneg _ => (- of_pos_Q (- n) d)%float
  end.

Definition of_Z (z : Z) : number := of_Q z 1.

(** ToBoolean on a number: false for +0, -0 and NaN. *)
Definition truthy (x : number) : bool :=
  negb (PrimFloat.is_zero x || PrimFloat.is_nan x).

(** Math.abs and unary minus are the IEEE operations. *)
Definition Math_abs (x : number) : number := PrimFloat.abs x.

(** Math.floor *)
Definition Math_floor (x : number) : number :=
  match shape_of x with
  | Fin s m e =>
      if 0 <=? e then x
      else
        let v := if s then Zneg m else Zpos m in
        of_Z (v / 2 ^ (- e))
  | _ => x
  end.

(** Math.round: the nearest integer, ties towards +infinity; a result of
    zero keeps the sign of the argument. *)
Definition Math_round (x : number) : number :=
  match shape_of x with
  | Fin s m e =>
      if 0 <=? e then x
      else
        let v := if s then Zneg m else Zpos m in
        let q := (2 * v + 2 ^ (- e)) / 2 ^ (1 - e) in
        if (q =? 0) && s then neg_zero else of_Z q
  | _ => x
  end.

(** *** Number::toString (radix 10)

    ECMAScript: for a positive finite [x], let [n], [k] and [s] be integers
    such that [k >= 1], [10^(k-1) <= s < 10^k], [s * 10^(n-k)] converts to
    [x], and [k] is as small as possible (the closest such [s] when there
    are several); then lay the [k] digits of [s] out by the size of [n]. *)

(** [a * 2^ea] compared with [s * 10^q]. *)
Definition cmp_bin_dec (a ea s q : Z) : comparison :=
  (Z.shiftl a (Z.max ea 0) * 10 ^ Z.max (- q) 0
     ?= Z.shiftl (s * 10 ^ Z.max q 0) (Z.max (- ea) 0)).

(** The [E] with [10^E <= m * 2^e < 10^(E+1)]. *)
Definition decimal_exponent (m : positive) (e : Z) : Z :=
  let est := ((Z.log2 (Zpos m) + e) * 1233) / 4096 in
  let below E := match cmp_bin_dec (Zpos m) e 1 E with Lt => true | _ => false end in
  let E1 := if below (est + 1) then est else est + 1 in
  if below E1 then E1 - 1 else E1.

(** Does the decimal [s * 10^q] convert to the float [m * 2^e]?  It does
    when it lies between the midpoints to the neighbouring floats, the
    midpoints included when [m] is even.  [above_low] is the test against
    the lower midpoint, [below_high] the one against the upper midpoint. *)
Definition above_low (m : positive) (e : Z) (s q : Z) : bool :=
  let delta := if (Zpos m =? 2 ^ 52) && (-1074 <? e) then 1 else 2 in
  match cmp_bin_dec (4 * Zpos m - delta) (e - 2) s q with
  | Lt => true
  | Eq => Z.even (Zpos m)
  | Gt => false
  end.

Definition below_high (m : positive) (e : Z) (s q : Z) : bool :=
  match cmp_bin_dec (4 * Zpos m + 2) (e - 2) s q with
  | Gt => true
  | Eq => Z.even (Zpos m)
  | Lt => false
  end.

(** The candidate with [k] digits, if one converts to [m * 2^e]: with
    [s_lo * 10^q <= m * 2^e < s_hi * 10^q], [s_lo] lies below the upper
    midpoint and [s_hi] above the lower one, which leaves one test each. *)
Definition candidate (m : positive) (e E k : Z) : option (Z * Z) :=
  let q := E - k + 1 in
  let s_lo := Z.shiftr (Z.shiftl (Zpos m) (Z.max e 0) * 10 ^ Z.max (- q) 0)
                (Z.max (- e) 0) / 10 ^ Z.max q 0 in
  let s_hi := s_lo + 1 in
  match above_low m e s_lo q, below_high m e s_hi q with
  | true, true =>
      match cmp_bin_dec (2 * Zpos m) e (2 * s_lo + 1) q with
      | Lt => Some (s_lo, q)
      | Gt => Some (s_hi, q)
      | Eq => Some (if Z.even s_lo then s_lo else s_hi, q)
      end
  | true, false => Some (s_lo, q)
  | false, true => Some (s_hi, q)
  | false, false => None
  end.

Fixpoint shortest (fuel : nat) (m : positive) (e E k : Z) : Z * Z :=
  match candidate m e E k with
  | Some r => r
  | None =>
      match fuel with
      | O => (Z.shiftr (Z.shiftl (Zpos m) (Z.max e 0) * 10 ^ Z.max (k - 1 - E) 0)
                (Z.max (- e) 0) / 10 ^ Z.max (E - k + 1) 0,
              E - k + 1)
      | S fuel' => shortest fuel' m e E (k + 1)
      end
  end.

Fixpoint strip_zeros (fuel : nat) (s q : Z) : Z * Z :=
  match fuel with
  | O => (s, q)
  | S fuel' => if (s mod 10 =? 0) && (0 <? s) then strip_zeros fuel' (s / 10) (q + 1) else (s, q)
  end.

Definition layout (ds : string) (n : Z) : string :=
  let k := Z.of_nat (String.length ds) in
  if (k <=? n) && (n <=? 21) then ds ++ Digits.repeat0 (Z.to_nat (n - k))
  else if (0 <? n) && (n <=? 21) then
    Digits.take (Z.to_nat n) ds ++ "." ++ Digits.drop (Z.to_nat n) ds
  else if (-6 <? n) && (n <=? 0) then
    "0." ++ Digits.repeat0 (Z.to_nat (- n)) ++ ds
  else
    let ex := n - 1 in
    let sign := if ex <? 0 then "-" else "+" in
    let mant := if k =? 1 then ds
                else Digits.take 1 ds ++ "." ++ Digits.drop 1 ds in
    mant ++ "e" ++ sign ++ Digits.of_Z (Z.abs ex).

Definition toString (x : number) : string :=
  match shape_of x with
  | NaN => "NaN"
  | Zero _ => "0"
  | Inf s => if s then "-Infinity" else "Infinity"
  | Fin s m e =>
      let E := decimal_exponent m e in
      let '(d, q) := shortest 16 m e E 1 in
      let '(d, q) := strip_zeros 20 d q in
      let ds := Digits.of_Z d in
      let n := q + Z.of_nat (String.length ds) in
      (if s then "-" else EmptyString) ++ layout ds n
  end.

(** *** Number.prototype.toFixed

    Not finite, or at least [10^21] in magnitude: Number::toString.
    Otherwise the integer [n] for which [n / 10^f] is closest to [|x|] (the
    larger one on a tie), written with [f] digits after the point. *)
Definition scaled_round (m : positive) (e : Z) (f : nat) : Z :=
  let p := 10 ^ Z.of_nat f in
  if 0 <=? e then Zpos m * 2 ^ e * p
  else (2 * Zpos m * p + 2 ^ (- e)) / 2 ^ (1 - e).

(** The digits of [n] with a point before the last [f] of them. *)
Definition fixed_digits (f : nat) (n : Z) : string :=
  let ds := Digits.pad (S f) n in
  let k := String.length ds in
  match f with
  | O => ds
  | _ => Digits.take (k - f) ds ++ "." ++ Digits.drop (k - f) ds
  end.

Definition toFixed (x : number) (f : nat) : string :=
  match shape_of x with
  | Fin s m e =>
      match cmp_bin_dec (Zpos m) e 1 21 with
      | Lt => (if s then "-" else EmptyString)
                ++ fixed_digits f (scaled_round m e f)
      | _ => toString x
      end
  | Zero _ => fixed_digits f 0
  | _ => toString x
  end.

(** *** parseFloat

    Leading white space is skipped, then the longest prefix that is a
    StrDecimalLiteral is converted; NaN when there is none. *)
Definition is_space (c : ascii) : bool :=
  let n := nat_of_ascii c in
  (Nat.eqb n 32 || (Nat.leb 9 n && Nat.leb n 13))%bool.

Fixpoint skip_space (s : string) : string :=
  match s with
  | String c r => if is_space c then skip_space r else s
  | EmptyString => s
  end.

Definition digit_of (c : ascii) : option Z :=
  let n := nat_of_ascii c in
  if (Nat.leb 48 n && Nat.leb n 57)%bool then Some (Z.of_nat (n - 48)) else None.

(** Reads decimal digits: the accumulated value, how many were read, and
    the rest of the string. *)
Fixpoint read_digits (s : string) (acc : Z) (cnt : Z) : Z * Z * string :=
  match s with
  | String c r =>
      match digit_of c with
      | Some d => read_digits r (10 * acc + d) (cnt + 1)
      | None => (acc, cnt, s)
      end
  | EmptyString => (acc, cnt, s)
  end.

Definition read_sign (s : string) : bool * string :=
  match s with
  | String "-" r => (true, r)
  | String "+" r => (false, r)
  | _ => (false, s)
  end.

(** The exponent part [e[+-]digits], [0] when there is none. *)
Definition read_exponent (s : string) : Z :=
  match s with
  | String c r =>
      if (Ascii.eqb c "e" || Ascii.eqb c "E")%bool then
        let '(neg, r1) := read_sign r in
        let '(v, cnt, _) := read_digits r1 0 0 in
        if cnt =? 0 then 0 else if neg then - v else v
      else 0
  | EmptyString => 0
  end.

Definition signed (neg : bool) (x : number) : number :=
  if neg then (- x)%float else x.

Definition parseFloat (str : string) : number :=
  let '(neg, s1) := read_sign (skip_space str) in
  if String.prefix "Infinity" s1 then signed neg infinity
  else
    let '(ip, icnt, s2) := read_digits s1 0 0 in
    let '(fp, fcnt, s3) :=
      match s2 with
      | String "." r =>
          let '(v, cnt, r') := read_digits r ip 0 in
          if (icnt =? 0) && (cnt =? 0) then (ip, 0, s2) else (v, cnt, r')
      | _ => (ip, 0, s2)
      end in
    if (icnt =? 0) && (fcnt =? 0) then nan
    else
      let ex := read_exponent s3 - fcnt in
      signed neg (if 0 <=? ex then of_Q (fp * 10 ^ ex) 1 else of_Q fp (10 ^ (- ex))).

End Number.

(** ** Dates: time values are milliseconds since the epoch, UTC *)

Module Date.

Definition msPerDay : Z := 86400000.

(** TimeClip: [None] stands for the NaN time value of an invalid date. *)
Definition TimeClip (t : Number.number) : option Z :=
  match Number.shape_of t with
  | Number.Zero _ => Some 0
  | Number.Fin s m e =>
      let a := if 0 <=? e then Zpos m * 2 ^ e else Zpos m / 2 ^ (- e) in
      match Number.cmp_bin_dec (Zpos m) e 8640000000000000 0 with
      | Gt => None
      | _ => Some (if s then - a else a)
      end
  | _ => None
  end.

Definition Day (t : Z) : Z := t / msPerDay.
Definition TimeWithinDay (t : Z) : Z := t mod msPerDay.

Definition DayFromYear (y : Z) : Z :=
  365 * (y - 1970) + (y - 1969) / 4 - (y - 1901) / 100 + (y - 1601) / 400.

Definition InLeapYear (y : Z) : bool :=
  ((y mod 4 =? 0) && negb (y mod 100 =? 0)) || (y mod 400 =? 0).

(** The largest [y] with [DayFromYear y <= Day t]. *)
Definition YearFromTime (t : Z) : Z :=
  let d := Day t in
  let y0 := 1970 + (d * 10000) / 3652425 in
  let y1 := if DayFromYear (y0 + 1) <=? d then y0 + 1 else y0 in
  if d <? DayFromYear y1 then y1 - 1 else y1.

Definition DayWithinYear (t : Z) : Z := Day t - DayFromYear (YearFromTime t).

(** Days before the first of each month, in a common year. *)
Definition month_starts : list Z :=
  [0; 31; 59; 90; 120; 151; 181; 212; 243; 273; 304; 334].

Definition month_start (leap : bool) (m : nat) : Z :=
  nth m month_starts 365 + (if leap && Nat.leb 2 m then 1 else 0).

(** MonthFromTime, 0 for January. *)
Definition MonthFromTime (t : Z) : nat :=
  let leap := InLeapYear (YearFromTime t) in
  let d := DayWithinYear t in
  List.length (filter (fun m => month_start leap m <=? d) (seq 1 11)).

(** DateFromTime, 1 to 31. *)
Definition DateFromTime (t : Z) : Z :=
  DayWithinYear t - month_start (InLeapYear (YearFromTime t)) (MonthFromTime t) + 1.

Definition HourFromTime (t : Z) : Z := (t / 3600000) mod 24.
Definition MinFromTime (t : Z) : Z := (t / 60000) mod 60.
Definition SecFromTime (t : Z) : Z := (t / 1000) mod 60.
Definition msFromTime (t : Z) : Z := t mod 1000.

(** Date.prototype.toISOString on a valid time value:
    YYYY-MM-DDTHH:mm:ss.sssZ, the year with a sign and six digits outside
    0..9999. *)
Definition iso_string (t : Z) : string :=
  let y := YearFromTime t in
  let year := if (0 <=? y) && (y <=? 9999) then Digits.pad 4 y
              else (if y <? 0 then "-" else "+") ++ Digits.pad 6 (Z.abs y) in
  year ++ "-" ++ Digits.pad 2 (Z.of_nat (MonthFromTime t) + 1)
       ++ "-" ++ Digits.pad 2 (DateFromTime t)
       ++ "T" ++ Digits.pad 2 (HourFromTime t)
       ++ ":" ++ Digits.pad 2 (MinFromTime t)
       ++ ":" ++ Digits.pad 2 (SecFromTime t)
       ++ "." ++ Digits.pad 3 (msFromTime t) ++ "Z".

End Date.

(** ** JavaScript values and objects *)

Module Js.

(** Plain data: what JSON-like items and the structured result hold.  An
    object is the list of its own properties in insertion order. *)
Inductive value :=
| VUndefined
| VNull
| VBool (b : bool)
| VNum (x : Number.number)
| VStr (s : string)
| VArr (a : list value)
| VObj (o : list (string * value)).

Definition object := list (string * value).

(** Own property lookup. *)
Fixpoint lookup (k : string) (o : object) : option value :=
  match o with
  | [] => None
  | (k', v) :: r => if String.eqb k k' then Some v else lookup k r
  end.

(** [o[k]]: undefined when there is no such property. *)
Definition get (k : string) (o : object) : value :=
  match lookup k o with
  | Some v => v
  | None => VUndefined
  end.

(** [o[k] = v]: an existing property keeps its place, a new one goes last. *)
Fixpoint set (k : string) (v : value) (o : object) : object :=
  match o with
  | [] => [(k, v)]
  | (k', v') :: r =>
      if String.eqb k k' then (k, v) :: r else (k', v') :: set k v r
  end.

(** [delete o[k]] *)
Fixpoint delete (k : string) (o : object) : object :=
  match o with
  | [] => []
  | (k', v') :: r =>
      if String.eqb k k' then delete k r else (k', v') :: delete k r
  end.

(** [Object.keys(o)] *)
Definition keys (o : object) : list string := map fst o.

(** [o[g][k] = v], [o[g]] being an object. *)
Definition set_in (g k : string) (v : value) (o : object) : object :=
  match get g o with
  | VObj inner => set g (VObj (set k v inner)) o
  | _ => o
  end.

Definition ToBoolean (v : value) : bool :=
  match v with
  | VUndefined | VNull => false
  | VBool b => b
  | VNum x => Number.truthy x
  | VStr s => negb (String.eqb s EmptyString)
  | VArr _ | VObj _ => true
  end.

(** [a || b] *)
Definition or (a b : value) : value := if ToBoolean a then a else b.

(** The number a numeric value holds (it is applied to numbers only: every
    use stands behind a truthiness test of a number-typed tag). *)
Definition number_of (v : value) : Number.number :=
  match v with
  | VNum x => x
  | _ => nan
  end.

(** [v === 'lit'] *)
Definition is_string (lit : string) (v : value) : bool :=
  match v with
  | VStr s => String.eqb s lit
  | _ => false
  end.

(** The integer a number is, when it is one (-0 is 0). *)
Definition integer_of (x : Number.number) : option Z :=
  match Number.shape_of x with
  | Number.Zero _ => Some 0
  | Number.Fin s m e =>
      if 0 <=? e then Some ((if s then Zneg m else Zpos m) * 2 ^ e)
      else if Zpos m mod 2 ^ (- e) =? 0
           then Some ((if s then Zneg m else Zpos m) / 2 ^ (- e))
           else None
  | _ => None
  end.

(** [a[x]] for an array of strings and a number [x]: the element when [x]
    is an integer index below the length, undefined otherwise. *)
Definition array_get (a : list string) (x : Number.number) : option string :=
  match integer_of x with
  | Some i => if 0 <=? i then nth_error a (Z.to_nat i) else None
  | None => None
  end.

(** ToString of a string-or-undefined array element. *)
Definition string_of_element (e : option string) : string :=
  match e with
  | Some s => s
  | None => "undefined"
  end.

End Js.

Import Js.

(** ** What the engine leaves to the implementation *)

(** Math.log and Math.pow are implementation-approximated in ECMAScript,
    and Date.prototype.toLocaleString depends on the host's locale and time
    zone: a [Runtime] supplies them ([toLocaleString] from the time value). *)
Record Runtime := {
  Math_log : Number.number -> Number.number;
  Math_pow : Number.number -> Number.number -> Number.number;
  toLocaleString : Z -> string
}.

(** ** Exceptions *)

Record JsError := {
  message : string;
  context : option object
}.

Definition Res (A : Type) : Type := (JsError + A)%type.

Definition ret {A} (a : A) : Res A := inr a.
Definition throw {A} (e : JsError) : Res A := inl e.
Definition bind {A B} (c : Res A) (k : A -> Res B) : Res B :=
  match c with
  | inl e => inl e
  | inr a => k a
  end.

Notation "x <- c ;; k" := (bind c (fun x => k))
  (at level 61, c at next level, right associativity).

(** An error thrown by the engine itself ([RangeError], ...): no context. *)
Definition EngineError (msg : string) : JsError :=
  {| message := msg; context := None |}.

(** ** The decoder's result (src/types/exif-parser.d.ts) *)

Record ImageSize := {
  width : Number.number;
  height : Number.number
}.

(** Every named tag is optional; [otherTags] are the entries the index
    signature admits besides them. *)
Record Tags := {
  Make : option string;
  Model : option string;
  Software : option string;
  LensModel : option string;
  LensMake : option string;
  FocalLength : option Number.number;
  ExposureTime : option Number.number;
  FNumber : option Number.number;
  ISO : option Number.number;
  ExposureMode : option Number.number;
  Flash : option Number.number;
  GPSLatitude : option Number.number;
  GPSLongitude : option Number.number;
  GPSAltitude : option Number.number;
  GPSLatitudeRef : option string;
  GPSLongitudeRef : option string;
  DateTime : option Number.number;
  DateTimeOriginal : option Number.number;
  DateTimeDigitized : option Number.number;
  otherTags : object
}.

(** [imageSize] and [tags] are optional; [otherProps] are the further own
    properties of the object the decoder returns. *)
Record ExifData := {
  imageSize : option ImageSize;
  tags : option Tags;
  otherProps : object
}.

(** A tag read as a value: undefined when it is not there. *)
Definition str (o : option string) : value :=
  match o with
  | Some s => VStr s
  | None => VUndefined
  end.

Definition num (o : option Number.number) : value :=
  match o with
  | Some x => VNum x
  | None => VUndefined
  end.

(** The decoded structure as the object it is. *)
Definition field {A} (k : string) (f : A -> value) (o : option A) : object :=
  match o with
  | Some a => [(k, f a)]
  | None => []
  end.

Definition value_of_ImageSize (i : ImageSize) : value :=
  VObj [("width", VNum (width i)); ("height", VNum (height i))].

Definition value_of_Tags (t : Tags) : value :=
  VObj (field "Make" VStr (Make t) ++ field "Model" VStr (Model t)
     ++ field "Software" VStr (Software t)
     ++ field "LensModel" VStr (LensModel t)
     ++ field "LensMake" VStr (LensMake t)
     ++ field "FocalLength" VNum (FocalLength t)
     ++ field "ExposureTime" VNum (ExposureTime t)
     ++ field "FNumber" VNum (FNumber t)
     ++ field "ISO" VNum (ISO t)
     ++ field "ExposureMode" VNum (ExposureMode t)
     ++ field "Flash" VNum (Flash t)
     ++ field "GPSLatitude" VNum (GPSLatitude t)
     ++ field "GPSLongitude" VNum (GPSLongitude t)
     ++ field "GPSAltitude" VNum (GPSAltitude t)
     ++ field "GPSLatitudeRef" VStr (GPSLatitudeRef t)
     ++ field "GPSLongitudeRef" VStr (GPSLongitudeRef t)
     ++ field "DateTime" VNum (DateTime t)
     ++ field "DateTimeOriginal" VNum (DateTimeOriginal t)
     ++ field "DateTimeDigitized" VNum (DateTimeDigitized t)
     ++ otherTags t).

Definition value_of_ExifData (d : ExifData) : value :=
  VObj (field "imageSize" value_of_ImageSize (imageSize d)
     ++ field "tags" value_of_Tags (tags d)
     ++ otherProps d).

(** ** formatFileSize *)

Definition sizes : list string := ["Bytes"; "KB"; "MB"; "GB"; "TB"].

Definition formatFileSize (rt : Runtime) (bytes : Number.number) : string :=
  if (bytes =? 0)%float then "0 Bytes"
  else
    let k := 1024%float in
    let i := Number.Math_floor (Math_log rt bytes / Math_log rt k)%float in
    Number.toString
      (Number.parseFloat (Number.toFixed (bytes / Math_pow rt k i)%float 2))
      ++ " " ++ string_of_element (array_get sizes i).

(** ** The structured record built in [execute] *)

Definition exposureModes : list string := ["Auto"; "Manual"; "Auto bracket"].

(** [o[g][k]] *)
Definition get_in (g k : string) (o : object) : value :=
  match get g o with
  | VObj inner => get k inner
  | _ => VUndefined
  end.

(** [if (tag) ...] on a string tag, a number tag, and
    [if (tag !== undefined) ...]. *)
Definition if_str (tag : option string) (f : string -> object -> object)
  (s : object) : object :=
  match tag with
  | Some v => if ToBoolean (VStr v) then f v s else s
  | None => s
  end.

Definition if_num (tag : option Number.number)
  (f : Number.number -> object -> object) (s : object) : object :=
  match tag with
  | Some x => if ToBoolean (VNum x) then f x s else s
  | None => s
  end.

Definition if_defined (tag : option Number.number)
  (f : Number.number -> object -> object) (s : object) : object :=
  match tag with
  | Some x => f x s
  | None => s
  end.

Definition structuredExif_init (rt : Runtime) (fileName : string)
  (fileSize : Number.number) (exifData : ExifData) : object :=
  [("fileInfo", VObj [("fileName", VStr fileName);
                      ("fileSizeBytes", VNum fileSize);
                      ("fileSizeFormatted", VStr (formatFileSize rt fileSize))]);
   ("imageSize", VNull);
   ("camera", VObj []);
   ("lens", VObj []);
   ("exposure", VObj []);
   ("gps", VNull);
   ("timestamp", VNull);
   ("raw", value_of_ExifData exifData)].

(** Image size information *)
Definition image_size_step (includeImageSize : bool) (exifData : ExifData)
  (s : object) : object :=
  match imageSize exifData with
  | Some sz =>
      if includeImageSize
      then set "imageSize" (VObj [("width", VNum (width sz));
                                  ("height", VNum (height sz))]) s
      else s
  | None => s
  end.

(** Camera details *)
Definition camera_step (t : Tags) (s : object) : object :=
  let s := if_str (Make t) (fun v => set_in "camera" "make" (VStr v)) s in
  let s := if_str (Model t) (fun v => set_in "camera" "model" (VStr v)) s in
  if_str (Software t) (fun v => set_in "camera" "software" (VStr v)) s.

(** Lens information *)
Definition lens_step (t : Tags) (s : object) : object :=
  let s := if_str (LensModel t) (fun v => set_in "lens" "model" (VStr v)) s in
  let s := if_str (LensMake t) (fun v => set_in "lens" "make" (VStr v)) s in
  if_num (FocalLength t)
    (fun x => set_in "lens" "focalLength" (VStr (Number.toString x ++ "mm"))) s.

(** Exposure settings *)
Definition shutterSpeed (exposure : Number.number) : string :=
  if (exposure <? 1)%float
  then "1/" ++ Number.toString (Number.Math_round (1 / exposure)%float)
  else Number.toString exposure ++ "s".

Definition mode (code : Number.number) : string :=
  match array_get exposureModes code with
  | Some m => if ToBoolean (VStr m) then m else "Unknown"
  | None => "Unknown"
  end.

Definition flash (code : Number.number) : string :=
  if (code =? 1)%float then "Fired" else "Did not fire".

Definition exposure_step (t : Tags) (s : object) : object :=
  let s := if_num (ExposureTime t)
             (fun x => set_in "exposure" "shutterSpeed" (VStr (shutterSpeed x))) s in
  let s := if_num (FNumber t)
             (fun x => set_in "exposure" "aperture" (VStr ("f/" ++ Number.toString x))) s in
  let s := if_num (ISO t) (fun x => set_in "exposure" "iso" (VNum x)) s in
  let s := if_defined (ExposureMode t)
             (fun x => set_in "exposure" "mode" (VStr (mode x))) s in
  if_defined (Flash t) (fun x => set_in "exposure" "flash" (VStr (flash x))) s.

(** GPS information *)
Definition decimal_step (coord ref dec negative : string) (s : object) : object :=
  if ToBoolean (get_in "gps" coord s) && ToBoolean (get_in "gps" ref s)
  then
    let a := Number.Math_abs (number_of (get_in "gps" coord s)) in
    set_in "gps" dec
      (VNum (if is_string negative (get_in "gps" ref s) then (- a)%float else a)) s
  else s.

Definition gps_step (includeGps : bool) (t : Tags) (s : object) : object :=
  if includeGps && ToBoolean (or (num (GPSLatitude t)) (num (GPSLongitude t)))
  then
    let s := set "gps"
               (VObj [("latitude", or (num (GPSLatitude t)) VNull);
                      ("longitude", or (num (GPSLongitude t)) VNull);
                      ("altitude", or (num (GPSAltitude t)) VNull);
                      ("latitudeRef", or (str (GPSLatitudeRef t)) VNull);
                      ("longitudeRef", or (str (GPSLongitudeRef t)) VNull)]) s in
    let s := decimal_step "latitude" "latitudeRef" "latitudeDecimal" "S" s in
    decimal_step "longitude" "longitudeRef" "longitudeDecimal" "W" s
  else s.

(** Timestamp information.  [new Date(dateTime * 1000)] clips the time
    value; [toISOString] throws a RangeError on an invalid date. *)
Definition timestamp_step (rt : Runtime) (convertTimestamps : bool) (t : Tags)
  (s : object) : Res object :=
  if ToBoolean (or (or (num (DateTime t)) (num (DateTimeOriginal t)))
                   (num (DateTimeDigitized t)))
  then
    let dateTime := or (or (num (DateTimeOriginal t)) (num (DateTime t)))
                       (num (DateTimeDigitized t)) in
    if convertTimestamps && ToBoolean dateTime
    then
      match Date.TimeClip (number_of dateTime * 1000)%float with
      | Some tv =>
          ret (set "timestamp"
                 (VObj [("original", dateTime);
                        ("iso", VStr (Date.iso_string tv));
                        ("formatted", VStr (toLocaleString rt tv))]) s)
      | None => throw (EngineError "Invalid time value")
      end
    else ret (set "timestamp" dateTime s)
  else ret s.

Definition tags_step (rt : Runtime) (includeGps convertTimestamps : bool)
  (t : Tags) (s : object) : Res object :=
  let s := camera_step t s in
  let s := lens_step t s in
  let s := exposure_step t s in
  let s := gps_step includeGps t s in
  timestamp_step rt convertTimestamps t s.

(** Clean up empty objects *)
Definition is_empty_object (v : value) : bool :=
  match v with
  | VObj [] => true
  | _ => false
  end.

Definition cleanup (s : object) : object :=
  fold_left
    (fun acc key => if is_empty_object (get key acc) then delete key acc else acc)
    (keys s) s.

(** Lines 183-283 of [execute]: the structured record for one decoded
    image. *)
Definition structuredExif (rt : Runtime) (fileName : string)
  (fileSize : Number.number) (exifData : ExifData)
  (includeGps includeImageSize convertTimestamps : bool) : Res object :=
  let s := structuredExif_init rt fileName fileSize exifData in
  let s := image_size_step includeImageSize exifData s in
  s <- match tags exifData with
       | Some t => tags_step rt includeGps convertTimestamps t s
       | None => ret s
       end;;
  ret (cleanup s).

(** ** The host: n8n's items, parameters and helpers, and the decoder *)

Definition Buffer := list Byte.byte.

Record IBinaryData := {
  data : string;
  mimeType : string;
  fileName : option string
}.

Record INodeExecutionData := {
  json : object;
  binary : option (list (string * IBinaryData));
  pairedItem : option nat
}.

(** [this] of [execute], and what [execute] imports: the decoder, and
    n8n-workflow's NodeOperationError.  Parameters are read per item and
    typed by the node description; every call may throw.

    The class NodeOperationError is not part of the repository.  Its
    constructor takes a message (or an error, whose message it takes) and
    [{ itemIndex }].  What it makes of the message is left to
    [NodeOperationError_message]: it replaces a message that names a
    common Node error code (ECONNREFUSED, ENOENT, ...) by a description of
    that code.  What it records in the context besides [itemIndex]
    (runIndex, ...) is left to [NodeOperationError_context]. *)
Record Host := {
  getInputData : list INodeExecutionData;
  getNodeParameter_string : string -> nat -> Res string;
  getNodeParameter_boolean : string -> nat -> Res bool;
  getBinaryDataBuffer : nat -> string -> Res Buffer;
  httpRequest : string -> Res Buffer;
  continueOnFail : bool;
  ExifParser_parse : Buffer -> Res ExifData;
  NodeOperationError_message : string -> string;
  NodeOperationError_context : object
}.

(** [new NodeOperationError(node, message, { itemIndex })] *)
Definition NodeOperationError (h : Host) (msg : string) (itemIndex : nat)
  : JsError :=
  {| message := NodeOperationError_message h msg;
     context := Some (set "itemIndex" (VNum (Number.of_Z (Z.of_nat itemIndex)))
                        (NodeOperationError_context h)) |}.

(** The property names every plain object inherits from its prototype:
    under each of them a property access finds a function or an object,
    never undefined. *)
Definition inherited_names : list string :=
  ["constructor"; "hasOwnProperty"; "isPrototypeOf"; "propertyIsEnumerable";
   "toLocaleString"; "toString"; "valueOf"; "__proto__";
   "__defineGetter__"; "__defineSetter__"; "__lookupGetter__";
   "__lookupSetter__"].

(** What a property access on [item.binary] finds: an entry of its own, or
    what the object inherits, a value that is truthy and has neither
    [fileName] nor [data]. *)
Inductive BinaryEntry :=
| own_entry (b : IBinaryData)
| inherited_value.

(** An association list read by key. *)
Fixpoint assoc {A} (k : string) (l : list (string * A)) : option A :=
  match l with
  | [] => None
  | (k', a) :: r => if String.eqb k k' then Some a else assoc k r
  end.

(** [item.binary?.[property]]: undefined when the item has no binary data,
    or has no entry under [property] and inherits none. *)
Definition binary_of (item : INodeExecutionData) (property : string)
  : option BinaryEntry :=
  match binary item with
  | Some b =>
      match assoc property b with
      | Some e => Some (own_entry e)
      | None =>
          if existsb (String.eqb property) inherited_names
          then Some inherited_value
          else None
      end
  | None => None
  end.

(** [url.split('/').pop()]: what follows the last slash. *)
Fixpoint last_segment (s : string) (acc : string) : string :=
  match s with
  | EmptyString => acc
  | String c r =>
      if Ascii.eqb c "/" then last_segment r EmptyString
      else last_segment r (acc ++ String c EmptyString)
  end.

Definition or_string (a b : string) : string :=
  if ToBoolean (VStr a) then a else b.

Definition quote : string := String (ascii_of_nat 34) EmptyString.

(** The body of the [try] block for the item at [itemIndex]. *)
Definition process_item (rt : Runtime) (h : Host) (item : INodeExecutionData)
  (itemIndex : nat) : Res INodeExecutionData :=
  inputSource <- getNodeParameter_string h "inputSource" itemIndex;;
  outputProperty <- getNodeParameter_string h "outputProperty" itemIndex;;
  includeGps <- getNodeParameter_boolean h "includeGps" itemIndex;;
  includeImageSize <- getNodeParameter_boolean h "includeImageSize" itemIndex;;
  convertTimestamps <- getNodeParameter_boolean h "convertTimestamps" itemIndex;;
  imageBuffer <-
    (if String.eqb inputSource "binaryData" then
       binaryProperty <- getNodeParameter_string h "binaryProperty" itemIndex;;
       match binary_of item binaryProperty with
       | None =>
           throw (NodeOperationError h
                    ("No binary data found in property " ++ quote
                       ++ binaryProperty ++ quote) itemIndex)
       | Some _ => getBinaryDataBuffer h itemIndex binaryProperty
       end
     else
       imageUrl <- getNodeParameter_string h "imageUrl" itemIndex;;
       if ToBoolean (VStr imageUrl) then httpRequest h imageUrl
       else throw (NodeOperationError h
                     "Image URL is required when using URL input source"
                     itemIndex));;
  exifData <- ExifParser_parse h imageBuffer;;
  let fileSize := Number.of_Z (Z.of_nat (List.length imageBuffer)) in
  name <-
    (if String.eqb inputSource "binaryData" then
       binaryProperty <- getNodeParameter_string h "binaryProperty" itemIndex;;
       ret (match binary_of item binaryProperty with
            | Some (own_entry b) =>
                or_string (match fileName b with Some n => n | None => EmptyString end)
                  (or_string (data b) "unknown")
            | Some inherited_value => "unknown"
            | None => "unknown"
            end)
     else
       imageUrl <- getNodeParameter_string h "imageUrl" itemIndex;;
       ret (or_string (last_segment imageUrl EmptyString) "downloaded_image"));;
  structured <- structuredExif rt name fileSize exifData
                  includeGps includeImageSize convertTimestamps;;
  ret {| json := set outputProperty (VObj structured) (json item);
         binary := None;
         pairedItem := None |}.

(** The [catch] block: what is pushed in continue-on-fail mode, and what is
    thrown otherwise. *)
Definition error_item (item : INodeExecutionData) (itemIndex : nat)
  (error : JsError) : INodeExecutionData :=
  {| json := set "error" (VStr (message error)) (json item);
     binary := binary item;
     pairedItem := Some itemIndex |}.

Definition rethrow (h : Host) (itemIndex : nat) (error : JsError) : JsError :=
  match context error with
  | Some ctx =>
      {| message := message error;
         context := Some (set "itemIndex"
                            (VNum (Number.of_Z (Z.of_nat itemIndex))) ctx) |}
  | None => NodeOperationError h (message error) itemIndex
  end.

(** The loop over the items, from [itemIndex] on, with the items returned
    so far. *)
Fixpoint execute_from (rt : Runtime) (h : Host)
  (items : list INodeExecutionData) (itemIndex : nat)
  (returnData : list INodeExecutionData) : Res (list INodeExecutionData) :=
  match items with
  | [] => ret returnData
  | item :: rest =>
      match process_item rt h item itemIndex with
      | inr outputData =>
          execute_from rt h rest (S itemIndex) (returnData ++ [outputData])
      | inl error =>
          if continueOnFail h
          then execute_from rt h rest (S itemIndex)
                 (returnData ++ [error_item item itemIndex error])
          else throw (rethrow h itemIndex error)
      end
  end.

Definition execute (rt : Runtime) (h : Host)
  : Res (list (list INodeExecutionData)) :=
  returnData <- execute_from rt h (getInputData h) 0 [];;
  ret [returnData].

(** ** The node description (lines 37-110): the parameters it declares *)

Module Description.

Inductive parameter_type :=
| type_options (values : list string)
| type_string
| type_boolean.

(** [displayOptions] is [Some l] when the parameter is shown only for the
    input sources of [l]. *)
Record property := {
  name : string;
  type : parameter_type;
  default : value;
  displayOptions : option (list string)
}.

Definition properties : list property :=
  [{| name := "inputSource";
      type := type_options ["binaryData"; "url"];
      default := VStr "binaryData";
      displayOptions := None |};
   {| name := "binaryProperty";
      type := type_string;
      default := VStr "data";
      displayOptions := Some ["binaryData"] |};
   {| name := "imageUrl";
      type := type_string;
      default := VStr EmptyString;
      displayOptions := Some ["url"] |};
   {| name := "outputProperty";
      type := type_string;
      default := VStr "exif";
      displayOptions := None |};
   {| name := "includeGps";
      type := type_boolean;
      default := VBool true;
      displayOptions := None |};
   {| name := "includeImageSize";
      type := type_boolean;
      default := VBool true;
      displayOptions := None |};
   {| name := "convertTimestamps";
      type := type_boolean;
      default := VBool true;
      displayOptions := None |}].

Definition find_property (n : string) : option property :=
  find (fun p => String.eqb (name p) n) properties.

Definition holds_text (t : parameter_type) : bool :=
  match t with
  | type_options _ | type_string => true
  | type_boolean => false
  end.

End Description.

(** ** A reference runtime

    One implementation of the three implementation-defined functions, used
    to run the model on concrete inputs: the natural logarithm and the
    power function computed in fixed point with [prec] fractional bits and
    rounded to the nearest float (an engine's own logarithm may differ from
    it in the last bit), and the en-US rendering of a UTC date.  With them,
    one rendering of what the NodeOperationError constructor makes of a
    message. *)

Module Reference.

Definition prec : Z := 160.
Definition one : Z := 2 ^ prec.

(** [sum_{j < n} z^(2j+1) / (2j+1)], the argument and the result scaled by
    [2^prec]; [pw] is the current odd power of [z] and [d] its index. *)
Fixpoint atanh_series (n : nat) (z2 pw d acc : Z) : Z :=
  match n with
  | O => acc
  | S n' => atanh_series n' z2 (pw * z2 / one) (d + 2) (acc + pw / d)
  end.

Definition atanh (z : Z) : Z := atanh_series 60 (z * z / one) z 1 0.

(** [ln 2 = 2 atanh (1/3)] *)
Definition ln2 : Z := Eval vm_compute in 2 * atanh (one / 3).

(** [ln (m * 2^e)], scaled: with [m = t * 2^l] and [1 <= t < 2],
    [ln t = 2 atanh ((t - 1) / (t + 1))]. *)
Definition ln_fixed (m : positive) (e : Z) : Z :=
  let l := Z.log2 (Zpos m) in
  let z := (Zpos m - 2 ^ l) * one / (Zpos m + 2 ^ l) in
  (e + l) * ln2 + 2 * atanh z.

Definition log (x : Number.number) : Number.number :=
  match Number.shape_of x with
  | Number.NaN => nan
  | Number.Zero _ => neg_infinity
  | Number.Inf s => if s then nan else infinity
  | Number.Fin s m e => if s then nan else Number.of_Q (ln_fixed m e) one
  end.

(** [sum_{j < n} f^j / j!], scaled. *)
Fixpoint exp_series (n : nat) (f term j acc : Z) : Z :=
  match n with
  | O => acc
  | S n' => exp_series n' f (term * f / one / j) (j + 1) (acc + term)
  end.

(** [exp (r / 2^prec)] as a float: [r = k ln 2 + f] with [0 <= f < ln 2]. *)
Definition exp_fixed (r : Z) : Number.number :=
  let k := r / ln2 in
  let f := r mod ln2 in
  let y := exp_series 70 f one 1 0 in
  if 1100 <? k then infinity
  else if k <? -1200 then zero
  else Number.of_Q (y * 2 ^ Z.max k 0) (one * 2 ^ Z.max (- k) 0).

Definition is_odd_integer (x : Number.number) : bool :=
  match integer_of x with
  | Some n => Z.odd n
  | None => false
  end.

(** Number::exponentiate: its exact cases, an exactly rounded rational
    power for a small integral exponent, and [exp (y ln |b|)] otherwise. *)
Definition pow (b y : Number.number) : Number.number :=
  match Number.shape_of y, Number.shape_of b with
  | Number.NaN, _ => nan
  | Number.Zero _, _ => 1%float
  | _, Number.NaN => nan
  | Number.Inf sy, Number.Fin _ m e =>
      match Number.cmp_bin_dec (Zpos m) e 1 0 with
      | Gt => if sy then zero else infinity
      | Eq => nan
      | Lt => if sy then infinity else zero
      end
  | Number.Inf sy, Number.Inf _ => if sy then zero else infinity
  | Number.Inf sy, Number.Zero _ => if sy then infinity else zero
  | Number.Fin sy _ _, Number.Inf sb =>
      let r := if sy then zero else infinity in
      if sb && is_odd_integer y then (- r)%float else r
  | Number.Fin sy _ _, Number.Zero sb =>
      let r := if sy then infinity else zero in
      if sb && is_odd_integer y then (- r)%float else r
  | Number.Fin sy my ey, Number.Fin sb m e =>
      let neg := sb && is_odd_integer y in
      let small := match integer_of y with
                   | Some n => if Z.abs n <=? 64 then Some n else None
                   | None => None
                   end in
      match small with
      | Some n =>
          let num := Zpos m ^ Z.abs n * 2 ^ (Z.max e 0 * Z.abs n) in
          let den := 2 ^ (Z.max (- e) 0 * Z.abs n) in
          Number.signed neg (if 0 <=? n then Number.of_Q num den
                             else Number.of_Q den num)
      | None =>
          if sb && negb (match integer_of y with Some _ => true | None => false end)
          then nan
          else
            let l := ln_fixed m e in
            let r := if 0 <=? ey then l * Zpos my * 2 ^ ey
                     else l * Zpos my / 2 ^ (- ey) in
            Number.signed neg (exp_fixed (if sy then - r else r))
      end
  end.

(** [toLocaleString] for en-US in UTC: M/D/YYYY, h:mm:ss AM.  A year
    before 1 is printed as the year of its era: 1 for the year 0, 2 for
    the year -1. *)
Definition locale_string (t : Z) : string :=
  let h := Date.HourFromTime t in
  let h12 := if h mod 12 =? 0 then 12 else h mod 12 in
  let y := Date.YearFromTime t in
  Digits.of_Z (Z.of_nat (Date.MonthFromTime t) + 1) ++ "/"
    ++ Digits.of_Z (Date.DateFromTime t) ++ "/"
    ++ Digits.of_Z (if y <=? 0 then 1 - y else y) ++ ", "
    ++ Digits.of_Z h12 ++ ":" ++ Digits.pad 2 (Date.MinFromTime t) ++ ":"
    ++ Digits.pad 2 (Date.SecFromTime t) ++ (if h <? 12 then " AM" else " PM").

Definition runtime : Runtime :=
  {| Math_log := log; Math_pow := pow; toLocaleString := locale_string |}.

(** The Node error codes a message may name, each with the description
    that replaces the message. *)
Definition common_errors : list (string * string) :=
  [("ECONNREFUSED",
    "The service refused the connection - perhaps it is offline");
   ("ECONNRESET",
    "The connection to the server was closed unexpectedly, perhaps it is offline. You can retry the request immediately or wait and retry later.");
   ("ENOTFOUND",
    "The connection cannot be established, this usually occurs due to an incorrect host (domain) value");
   ("ETIMEDOUT",
    "The connection timed out, consider setting the 'Retry on Fail' option in the node settings");
   ("ERRADDRINUSE",
    "The port is already occupied by some other application, if possible change the port or kill the application that is using it");
   ("EADDRNOTAVAIL",
    "The address is not available, ensure that you have the right IP address");
   ("ECONNABORTED",
    "The connection was aborted, perhaps the server is offline");
   ("EHOSTUNREACH",
    "The host is unreachable, perhaps the server is offline");
   ("EAI_AGAIN",
    "The DNS server returned an error, perhaps the server is offline");
   ("ENOENT", "The file or directory does not exist");
   ("EISDIR", "The file path was expected but the given path is a directory");
   ("ENOTDIR", "The directory path was expected but the given path is a file");
   ("EACCES",
    "Forbidden by access permissions, make sure you have the right permissions");
   ("EEXIST", "The file or directory already exists");
   ("EPERM",
    "Operation not permitted, make sure you have the right permissions");
   ("GETADDRINFO", "The server closed the connection unexpectedly")].

Definition upper (c : ascii) : ascii :=
  let n := nat_of_ascii c in
  if (Nat.leb 97 n && Nat.leb n 122)%bool then ascii_of_nat (n - 32) else c.

Fixpoint toUpperCase (s : string) : string :=
  match s with
  | EmptyString => EmptyString
  | String c r => String (upper c) (toUpperCase r)
  end.

(** [s.includes(t)] *)
Definition includes (s t : string) : bool :=
  match String.index 0 t s with
  | Some _ => true
  | None => false
  end.

(** The description of the first code the message names, in either case;
    the message itself when it names none. *)
Definition error_message (msg : string) : string :=
  match find (fun p => includes (toUpperCase msg) (fst p)) common_errors with
  | Some p => snd p
  | None => msg
  end.

End Reference.

(** ** The structured record, group by group

    [structuredExif] assigns into one object step by step.  Each group it
    fills is given here as a function of the tags alone; the lemmas below
    show that the steps compute exactly these. *)

Definition frame (fi img : value) (cam lens expo : object)
  (gps ts raw : value) : object :=
  [("fileInfo", fi); ("imageSize", img); ("camera", VObj cam);
   ("lens", VObj lens); ("exposure", VObj expo); ("gps", gps);
   ("timestamp", ts); ("raw", raw)].

Definition fileInfo_value (rt : Runtime) (name : string)
  (fileSize : Number.number) : value :=
  VObj [("fileName", VStr name);
        ("fileSizeBytes", VNum fileSize);
        ("fileSizeFormatted", VStr (formatFileSize rt fileSize))].

Definition imageSize_value (includeImageSize : bool) (d : ExifData) : value :=
  match imageSize d with
  | Some sz =>
      if includeImageSize
      then VObj [("width", VNum (width sz)); ("height", VNum (height sz))]
      else VNull
  | None => VNull
  end.

Definition camera_fields (t : Tags) (c : object) : object :=
  let c := if_str (Make t) (fun v => set "make" (VStr v)) c in
  let c := if_str (Model t) (fun v => set "model" (VStr v)) c in
  if_str (Software t) (fun v => set "software" (VStr v)) c.

Definition lens_fields (t : Tags) (c : object) : object :=
  let c := if_str (LensModel t) (fun v => set "model" (VStr v)) c in
  let c := if_str (LensMake t) (fun v => set "make" (VStr v)) c in
  if_num (FocalLength t)
    (fun x => set "focalLength" (VStr (Number.toString x ++ "mm"))) c.

Definition exposure_fields (t : Tags) (c : object) : object :=
  let c := if_num (ExposureTime t)
             (fun x => set "shutterSpeed" (VStr (shutterSpeed x))) c in
  let c := if_num (FNumber t)
             (fun x => set "aperture" (VStr ("f/" ++ Number.toString x))) c in
  let c := if_num (ISO t) (fun x => set "iso" (VNum x)) c in
  let c := if_defined (ExposureMode t) (fun x => set "mode" (VStr (mode x))) c in
  if_defined (Flash t) (fun x => set "flash" (VStr (flash x))) c.

Definition gps_base (t : Tags) : object :=
  [("latitude", or (num (GPSLatitude t)) VNull);
   ("longitude", or (num (GPSLongitude t)) VNull);
   ("altitude", or (num (GPSAltitude t)) VNull);
   ("latitudeRef", or (str (GPSLatitudeRef t)) VNull);
   ("longitudeRef", or (str (GPSLongitudeRef t)) VNull)].

Definition decimal_value (negative : string) (coord ref : value) : value :=
  let a := Number.Math_abs (number_of coord) in
  VNum (if is_string negative ref then (- a)%float else a).

Definition gps_decimal (coord ref dec negative : string) (g : object) : object :=
  if ToBoolean (get coord g) && ToBoolean (get ref g)
  then set dec (decimal_value negative (get coord g) (get ref g)) g
  else g.

Definition gps_fields (t : Tags) : object :=
  gps_decimal "longitude" "longitudeRef" "longitudeDecimal" "W"
    (gps_decimal "latitude" "latitudeRef" "latitudeDecimal" "S" (gps_base t)).

Definition gps_emitted (includeGps : bool) (t : Tags) : bool :=
  includeGps && ToBoolean (or (num (GPSLatitude t)) (num (GPSLongitude t))).

Definition gps_value (includeGps : bool) (t : Tags) : value :=
  if gps_emitted includeGps t then VObj (gps_fields t) else VNull.

Definition dateTime_of (t : Tags) : value :=
  or (or (num (DateTimeOriginal t)) (num (DateTime t)))
     (num (DateTimeDigitized t)).

Definition timestamp_found (t : Tags) : bool :=
  ToBoolean (or (or (num (DateTime t)) (num (DateTimeOriginal t)))
                (num (DateTimeDigitized t))).

Definition timestamp_value (rt : Runtime) (convertTimestamps : bool)
  (t : Tags) : Res value :=
  if timestamp_found t then
    if convertTimestamps && ToBoolean (dateTime_of t) then
      match Date.TimeClip (number_of (dateTime_of t) * 1000)%float with
      | Some tv =>
          ret (VObj [("original", dateTime_of t);
                     ("iso", VStr (Date.iso_string tv));
                     ("formatted", VStr (toLocaleString rt tv))])
      | None => throw (EngineError "Invalid time value")
      end
    else ret (dateTime_of t)
  else ret VNull.

(** What the cleanup pass leaves of a property. *)
Definition kept (v : option value) : option value :=
  match v with
  | Some x => if is_empty_object x then None else Some x
  | None => None
  end.

(** The groups for a decoded structure, with or without tags. *)
Definition camera_of (d : ExifData) : object :=
  match tags d with
  | Some t => camera_fields t []
  | None => []
  end.

Definition lens_of (d : ExifData) : object :=
  match tags d with
  | Some t => lens_fields t []
  | None => []
  end.

Definition exposure_of (d : ExifData) : object :=
  match tags d with
  | Some t => exposure_fields t []
  | None => []
  end.

Definition gps_of (includeGps : bool) (d : ExifData) : value :=
  match tags d with
  | Some t => gps_value includeGps t
  | None => VNull
  end.

Definition timestamp_of (rt : Runtime) (convertTimestamps : bool)
  (d : ExifData) : Res value :=
  match tags d with
  | Some t => timestamp_value rt convertTimestamps t
  | None => ret VNull
  end.

(** ** Vocabulary of the properties *)

(** A tag dictionary with none of the named keys. *)
Definition unrecognized (extra : object) : Tags :=
  {| Make := None; Model := None; Software := None; LensModel := None;
     LensMake := None; FocalLength := None; ExposureTime := None;
     FNumber := None; ISO := None; ExposureMode := None; Flash := None;
     GPSLatitude := None; GPSLongitude := None; GPSAltitude := None;
     GPSLatitudeRef := None; GPSLongitudeRef := None; DateTime := None;
     DateTimeOriginal := None; DateTimeDigitized := None;
     otherTags := extra |}.

Definition no_recognized_keys (t : Tags) : Prop :=
  t = unrecognized (otherTags t).

Definition no_recognized (d : ExifData) : Prop :=
  match tags d with
  | Some t => no_recognized_keys t
  | None => True
  end.

(** A tag of the decoded structure: undefined when there are no tags. *)
Definition tag {A} (f : Tags -> option A) (d : ExifData) : option A :=
  match tags d with
  | Some t => f t
  | None => None
  end.

(** A number tag counts as present when it is defined, not zero and not
    NaN; a string tag when it is defined and not empty. *)
Definition present_num (o : option Number.number) : bool :=
  match o with
  | Some x => Number.truthy x
  | None => false
  end.

Definition present_str (o : option string) : bool :=
  match o with
  | Some r => negb (String.eqb r EmptyString)
  | None => false
  end.

(** A present tag copied as it is, null otherwise. *)
Definition copied_num (o : option Number.number) : value :=
  match o with
  | Some x => if present_num o then VNum x else VNull
  | None => VNull
  end.

Definition copied_str (o : option string) : value :=
  match o with
  | Some r => if present_str o then VStr r else VNull
  | None => VNull
  end.

(** The first present, and the first defined, of a list of number tags. *)
Fixpoint first_present (l : list (option Number.number))
  : option Number.number :=
  match l with
  | [] => None
  | o :: r => if present_num o then o else first_present r
  end.

Fixpoint first_defined (l : list (option Number.number))
  : option Number.number :=
  match l with
  | [] => None
  | Some x :: _ => Some x
  | None :: r => first_defined r
  end.

(** The timestamp tags in priority order. *)
Definition timestamp_tags (d : ExifData) : list (option Number.number) :=
  [tag DateTimeOriginal d; tag DateTime d; tag DateTimeDigitized d].

(** The item returned for [item] when failures are tolerated: its output,
    or the item with the error attached. *)
Definition returned (rt : Runtime) (h : Host) (item : INodeExecutionData)
  (itemIndex : nat) : INodeExecutionData :=
  match process_item rt h item itemIndex with
  | inr outputData => outputData
  | inl error => error_item item itemIndex error
  end.

Fixpoint returned_from (rt : Runtime) (h : Host)
  (items : list INodeExecutionData) (itemIndex : nat)
  : list INodeExecutionData :=
  match items with
  | [] => []
  | item :: rest =>
      returned rt h item itemIndex :: returned_from rt h rest (S itemIndex)
  end.

(** Every item of [items], the first of which has index [itemIndex], is
    processed without an exception. *)
Definition all_succeed (rt : Runtime) (h : Host)
  (items : list INodeExecutionData) (itemIndex : nat) : Prop :=
  forall k item, nth_error items k = Some item ->
                 exists out, process_item rt h item (itemIndex + k) = inr out.

(** [p] holds of the [count] integers from [n] on. *)
Fixpoint all_from (count : nat) (n : Z) (p : Z -> bool) : bool :=
  match count with
  | O => true
  | S c => p n && all_from c (n + 1) p
  end.

(** A whole number of bytes is not zero and, divided by 1 and put through
    [toFixed(2)], parsing and printing, comes out as its decimal digits. *)
Definition prints_whole (b : Z) : bool :=
  let x := Number.of_Z b in
  negb (x =? 0)%float
  && String.eqb
       (Number.toString (Number.parseFloat (Number.toFixed (x / 1)%float 2)))
       (Digits.of_Z b).

(** The exposure-mode table, by IEEE equality on the code. *)
Definition mode_table (code : Number.number) : string :=
  if (code =? 0)%float then "Auto"
  else if (code =? 1)%float then "Manual"
  else if (code =? 2)%float then "Auto bracket"
  else "Unknown".

(** ** Vocabulary of the further properties *)

(** A string of decimal digits, and the number it writes after the digits
    that gave [acc]. *)
Fixpoint all_digits (s : string) : bool :=
  match s with
  | EmptyString => true
  | String c r =>
      match Number.digit_of c with
      | Some _ => all_digits r
      | None => false
      end
  end.

Fixpoint digits_value (s : string) (acc : Z) : Z :=
  match s with
  | EmptyString => acc
  | String c r =>
      match Number.digit_of c with
      | Some d => digits_value r (10 * acc + d)
      | None => acc
      end
  end.

(** The groups of the structured record, in the order they are created. *)
Definition group_order : list string :=
  ["fileInfo"; "imageSize"; "camera"; "lens"; "exposure"; "gps";
   "timestamp"; "raw"].

(** [k in o] for own properties. *)
Definition has (k : string) (o : object) : bool :=
  match lookup k o with
  | Some _ => true
  | None => false
  end.

(** What a present tag becomes in its group: a property holding [f] of the
    tag; an absent tag gives no property. *)
Definition shown_str (o : option string) : option value :=
  match o with
  | Some r => if present_str o then Some (VStr r) else None
  | None => None
  end.

Definition shown_num (f : Number.number -> value) (o : option Number.number)
  : option value :=
  match o with
  | Some x => if present_num o then Some (f x) else None
  | None => None
  end.

(** The same decoded structure with other unrecognized tags and other
    further properties. *)
Definition with_others (d : ExifData) (moreTags moreProps : object) : ExifData :=
  {| imageSize := imageSize d;
     tags := match tags d with
             | Some t =>
                 Some {| Make := Make t; Model := Model t; Software := Software t;
                         LensModel := LensModel t; LensMake := LensMake t;
                         FocalLength := FocalLength t;
                         ExposureTime := ExposureTime t; FNumber := FNumber t;
                         ISO := ISO t; ExposureMode := ExposureMode t;
                         Flash := Flash t; GPSLatitude := GPSLatitude t;
                         GPSLongitude := GPSLongitude t;
                         GPSAltitude := GPSAltitude t;
                         GPSLatitudeRef := GPSLatitudeRef t;
                         GPSLongitudeRef := GPSLongitudeRef t;
                         DateTime := DateTime t;
                         DateTimeOriginal := DateTimeOriginal t;
                         DateTimeDigitized := DateTimeDigitized t;
                         otherTags := moreTags |}
             | None => None
             end;
     otherProps := moreProps |}.

(** The entries the cleanup pass keeps. *)
Definition nonempty (kv : string * value) : bool :=
  negb (is_empty_object (snd kv)).

(** The five parameters every item reads first. *)
Definition settings_read (h : Host) (itemIndex : nat)
  (inputSource outputProperty : string)
  (includeGps includeImageSize convertTimestamps : bool) : Prop :=
  getNodeParameter_string h "inputSource" itemIndex = inr inputSource
  /\ getNodeParameter_string h "outputProperty" itemIndex = inr outputProperty
  /\ getNodeParameter_boolean h "includeGps" itemIndex = inr includeGps
  /\ getNodeParameter_boolean h "includeImageSize" itemIndex
     = inr includeImageSize
  /\ getNodeParameter_boolean h "convertTimestamps" itemIndex
     = inr convertTimestamps.

(** The first non-empty string of a list, [fallback] when there is none. *)
Fixpoint first_nonempty (l : list string) (fallback : string) : string :=
  match l with
  | [] => fallback
  | a :: r => if String.eqb a EmptyString then first_nonempty r fallback else a
  end.

(** The file name taken from what was found under the binary property:
    the entry's file name, else its data, else unknown. *)
Definition entry_name (e : BinaryEntry) : string :=
  match e with
  | own_entry b =>
      first_nonempty
        (match fileName b with
         | Some n => [n; data b]
         | None => [data b]
         end) "unknown"
  | inherited_value => "unknown"
  end.

(** No character of [s] is a slash. *)
Fixpoint no_slash (s : string) : bool :=
  match s with
  | EmptyString => true
  | String c r => negb (Ascii.eqb c "/") && no_slash r
  end.

(** What remains of [process_item] once the image is in a buffer and the
    file name is known. *)
Definition finish (rt : Runtime) (h : Host) (item : INodeExecutionData)
  (outputProperty : string)
  (includeGps includeImageSize convertTimestamps : bool)
  (imageBuffer : Buffer) (name : string) : Res INodeExecutionData :=
  exifData <- ExifParser_parse h imageBuffer;;
  let fileSize := Number.of_Z (Z.of_nat (List.length imageBuffer)) in
  structured <- structuredExif rt name fileSize exifData
                  includeGps includeImageSize convertTimestamps;;
  ret {| json := set outputProperty (VObj structured) (json item);
         binary := None;
         pairedItem := None |}.

(** The same host with another [httpRequest]. *)
Definition with_httpRequest (h : Host) (request : string -> Res Buffer) : Host :=
  {| getInputData := getInputData h;
     getNodeParameter_string := getNodeParameter_string h;
     getNodeParameter_boolean := getNodeParameter_boolean h;
     getBinaryDataBuffer := getBinaryDataBuffer h;
     httpRequest := request;
     continueOnFail := continueOnFail h;
     ExifParser_parse := ExifParser_parse h;
     NodeOperationError_message := NodeOperationError_message h;
     NodeOperationError_context := NodeOperationError_context h |}.

(** Whether the description displays [p] for the item: its [displayOptions]
    list the input source the item has. *)
Definition displayed (h : Host) (itemIndex : nat) (p : Description.property)
  : bool :=
  match Description.displayOptions p with
  | None => true
  | Some sources =>
      match getNodeParameter_string h "inputSource" itemIndex with
      | inr src => existsb (String.eqb src) sources
      | inl _ => false
      end
  end.

(** A parameter may be read as text (as a boolean) when the description
    declares it with such a type and displays it for the item. *)
Definition readable (h : Host) (text : bool) (n : string) (itemIndex : nat)
  : bool :=
  match Description.find_property n with
  | Some p =>
      Bool.eqb (Description.holds_text (Description.type p)) text
      && displayed h itemIndex p
  | None => false
  end.

(** The host that refuses every read of a parameter the description does
    not declare, declares with another type, or does not display. *)
Definition declared_only (h : Host) : Host :=
  {| getInputData := getInputData h;
     getNodeParameter_string := fun n itemIndex =>
       if readable h true n itemIndex
       then getNodeParameter_string h n itemIndex
       else throw (EngineError "Could not get parameter");
     getNodeParameter_boolean := fun n itemIndex =>
       if readable h false n itemIndex
       then getNodeParameter_boolean h n itemIndex
       else throw (EngineError "Could not get parameter");
     getBinaryDataBuffer := getBinaryDataBuffer h;
     httpRequest := httpRequest h;
     continueOnFail := continueOnFail h;
     ExifParser_parse := ExifParser_parse h;
     NodeOperationError_message := NodeOperationError_message h;
     NodeOperationError_context := NodeOperationError_context h |}.

(** ** Sample inputs *)

Definition sample_binary : IBinaryData :=
  {| data := "/9j/4AAQSkZJRg=="; mimeType := "image/jpeg";
     fileName := Some "photo.jpg" |}.

Definition sample_item : INodeExecutionData :=
  {| json := [("id", VNum 7%float)];
     binary := Some [("data", sample_binary)];
     pairedItem := None |}.

Definition sample_buffer : Buffer :=
  [Byte.xff; Byte.xd8; Byte.xff; Byte.xe1].

(** A host that reads the binary property "data" of every item, writes
    under "exif", has every flag set to [flags], and whose decoder returns
    [d] for every buffer. *)
Definition sample_host (items : list INodeExecutionData) (d : Res ExifData)
  (flags continue : bool) : Host :=
  {| getInputData := items;
     getNodeParameter_string := fun name _ =>
       ret (if String.eqb name "inputSource" then "binaryData"
            else if String.eqb name "outputProperty" then "exif"
            else if String.eqb name "binaryProperty" then "data"
            else EmptyString);
     getNodeParameter_boolean := fun _ _ => ret flags;
     getBinaryDataBuffer := fun _ _ => ret sample_buffer;
     httpRequest := fun _ => throw (EngineError "no network");
     continueOnFail := continue;
     ExifParser_parse := fun _ => d;
     NodeOperationError_message := Reference.error_message;
     NodeOperationError_context := [("runIndex", VUndefined)] |}.

(** An item whose binary data sits under another property: reading "data"
    fails for it. *)
Definition thumb_item : INodeExecutionData :=
  {| json := [("id", VNum 8%float)];
     binary := Some [("thumb", sample_binary)];
     pairedItem := None |}.

(** Decoded structures: one with an image size and an unrecognized tag
    only, and the empty object. *)
Definition bare_exif : ExifData :=
  {| imageSize := Some {| width := 4000%float; height := 3000%float |};
     tags := Some (unrecognized [("Orientation", VNum 1%float)]);
     otherProps := [] |}.

Definition empty_exif : ExifData :=
  {| imageSize := None; tags := None; otherProps := [] |}.

(** Tag dictionaries with a few keys set. *)
Definition exposure_tags (time code : option Number.number) : Tags :=
  {| Make := None; Model := None; Software := None; LensModel := None;
     LensMake := None; FocalLength := None; ExposureTime := time;
     FNumber := None; ISO := None; ExposureMode := code; Flash := None;
     GPSLatitude := None; GPSLongitude := None; GPSAltitude := None;
     GPSLatitudeRef := None; GPSLongitudeRef := None; DateTime := None;
     DateTimeOriginal := None; DateTimeDigitized := None;
     otherTags := [] |}.

Definition gps_tags (lat lon alt : option Number.number)
  (latRef lonRef : option string) : Tags :=
  {| Make := None; Model := None; Software := None; LensModel := None;
     LensMake := None; FocalLength := None; ExposureTime := None;
     FNumber := None; ISO := None; ExposureMode := None; Flash := None;
     GPSLatitude := lat; GPSLongitude := lon; GPSAltitude := alt;
     GPSLatitudeRef := latRef; GPSLongitudeRef := lonRef; DateTime := None;
     DateTimeOriginal := None; DateTimeDigitized := None;
     otherTags := [] |}.

Definition date_tags (original plain digitized : option Number.number) : Tags :=
  {| Make := None; Model := None; Software := None; LensModel := None;
     LensMake := None; FocalLength := None; ExposureTime := None;
     FNumber := None; ISO := None; ExposureMode := None; Flash := None;
     GPSLatitude := None; GPSLongitude := None; GPSAltitude := None;
     GPSLatitudeRef := None; GPSLongitudeRef := None; DateTime := plain;
     DateTimeOriginal := original; DateTimeDigitized := digitized;
     otherTags := [] |}.

Definition exif_of (t : Tags) : ExifData :=
  {| imageSize := None; tags := Some t; otherProps := [] |}.

(** A host that downloads the image of every item from [url], writes under
    "exif", has every flag set, and whose decoder returns [d]. *)
Definition url_host (items : list INodeExecutionData) (url : string)
  (response : Res Buffer) (d : Res ExifData) : Host :=
  {| getInputData := items;
     getNodeParameter_string := fun name _ =>
       ret (if String.eqb name "inputSource" then "url"
            else if String.eqb name "outputProperty" then "exif"
            else if String.eqb name "imageUrl" then url
            else EmptyString);
     getNodeParameter_boolean := fun _ _ => ret true;
     getBinaryDataBuffer := fun _ _ => throw (EngineError "no binary data");
     httpRequest := fun _ => response;
     continueOnFail := false;
     ExifParser_parse := fun _ => d;
     NodeOperationError_message := Reference.error_message;
     NodeOperationError_context := [("runIndex", VUndefined)] |}.

(** Tags of a camera and its lens; the software tag is empty and the flash
    code 9 has the fired bit set together with another one. *)
Definition gear_tags : Tags :=
  {| Make := Some "Canon"; Model := Some "EOS R5"; Software := Some EmptyString;
     LensModel := Some "RF24-70mm F2.8"; LensMake := None;
     FocalLength := Some 50%float; ExposureTime := None;
     FNumber := Some 2.8%float; ISO := Some 100%float; ExposureMode := None;
     Flash := Some 9%float;
     GPSLatitude := None; GPSLongitude := None; GPSAltitude := None;
     GPSLatitudeRef := None; GPSLongitudeRef := None; DateTime := None;
     DateTimeOriginal := None; DateTimeDigitized := None;
     otherTags := [] |}.

(** The host of [sample_host] reading the binary property [property],
    failures not tolerated. *)
Definition property_host (property : string) (items : list INodeExecutionData)
  (d : Res ExifData) : Host :=
  {| getInputData := items;
     getNodeParameter_string := fun name _ =>
       ret (if String.eqb name "inputSource" then "binaryData"
            else if String.eqb name "outputProperty" then "exif"
            else if String.eqb name "binaryProperty" then property
            else EmptyString);
     getNodeParameter_boolean := fun _ _ => ret true;
     getBinaryDataBuffer := fun _ _ => ret sample_buffer;
     httpRequest := fun _ => throw (EngineError "no network");
     continueOnFail := false;
     ExifParser_parse := fun _ => d;
     NodeOperationError_message := Reference.error_message;
     NodeOperationError_context := [("runIndex", VUndefined)] |}.

(** An item without binary data. *)
Definition plain_item : INodeExecutionData :=
  {| json := [("id", VNum 7%float)]; binary := None; pairedItem := None |}.

(** * Properties *)

(** ** Objects: lookup after assignment and deletion *)

Lemma lookup_set_same (k : string) (v : value) (o : object) :
  lookup k (set k v o) = Some v.
Proof.
  induction o as [|[k' v'] r IH]; cbn.
  - now rewrite String.eqb_refl.
  - destruct (String.eqb k k') eqn:E; cbn.
    + now rewrite String.eqb_refl.
    + now rewrite E.
Qed.

Lemma lookup_set_other (k k' : string) (v : value) (o : object) :
  k <> k' -> lookup k (set k' v o) = lookup k o.
Proof.
  intros Hne. apply String.eqb_neq in Hne.
  induction o as [|[k0 v0] r IH]; cbn.
  - now rewrite Hne.
  - destruct (String.eqb k' k0) eqn:E; cbn.
    + apply String.eqb_eq in E. subst k0. now rewrite Hne.
    + now rewrite IH.
Qed.

Lemma lookup_delete_same (k : string) (o : object) :
  lookup k (delete k o) = None.
Proof.
  induction o as [|[k' v'] r IH]; cbn; auto.
  destruct (String.eqb k k') eqn:E; cbn; auto. now rewrite E.
Qed.

Lemma lookup_delete_other (k k' : string) (o : object) :
  k <> k' -> lookup k (delete k' o) = lookup k o.
Proof.
  intros Hne. apply String.eqb_neq in Hne.
  induction o as [|[k0 v0] r IH]; cbn; auto.
  destruct (String.eqb k' k0) eqn:E; cbn.
  - apply String.eqb_eq in E. subst k0. now rewrite Hne.
  - now rewrite IH.
Qed.

Lemma lookup_in_keys (k : string) (o : object) (v : value) :
  lookup k o = Some v -> In k (keys o).
Proof.
  induction o as [|[k' v'] r IH]; cbn; [discriminate|].
  destruct (String.eqb k k') eqn:E; auto.
  apply String.eqb_eq in E. auto.
Qed.

(** One round of the cleanup pass over the keys [ks]. *)
Lemma lookup_cleanup_fold (k : string) (ks : list string) (acc : object) :
  lookup k
    (fold_left
       (fun acc key => if is_empty_object (get key acc) then delete key acc else acc)
       ks acc)
  = match lookup k acc with
    | Some v =>
        if is_empty_object v && existsb (String.eqb k) ks then None else Some v
    | None => None
    end.
Proof.
  revert acc. induction ks as [|key ks IH]; intro acc; cbn.
  - destruct (lookup k acc) as [v|]; auto. now rewrite andb_false_r.
  - rewrite IH. clear IH.
    destruct (String.eqb k key) eqn:E.
    + apply String.eqb_eq in E. subst key. unfold get.
      destruct (lookup k acc) as [v|] eqn:L; cbn.
      * destruct (is_empty_object v) eqn:Ev.
        -- now rewrite lookup_delete_same.
        -- rewrite L. now rewrite Ev.
      * now rewrite L.
    + apply String.eqb_neq in E.
      destruct (is_empty_object (get key acc)); auto.
      now rewrite lookup_delete_other.
Qed.

Lemma lookup_cleanup (k : string) (s : object) :
  lookup k (cleanup s) = kept (lookup k s).
Proof.
  unfold cleanup, kept. rewrite lookup_cleanup_fold.
  destruct (lookup k s) as [v|] eqn:L; auto.
  destruct (is_empty_object v); auto. cbn.
  apply lookup_in_keys in L.
  assert (H : existsb (String.eqb k) (keys s) = true).
  { apply existsb_exists. exists k. split; auto. apply String.eqb_refl. }
  now rewrite H.
Qed.

(** ** The steps of [structuredExif] on a frame *)

Section Frame.

Variables (fi img : value) (cam lens expo : object) (gps ts raw : value).

Lemma set_in_camera (k : string) (v : value) :
  set_in "camera" k v (frame fi img cam lens expo gps ts raw)
  = frame fi img (set k v cam) lens expo gps ts raw.
Proof. reflexivity. Qed.

Lemma set_in_lens (k : string) (v : value) :
  set_in "lens" k v (frame fi img cam lens expo gps ts raw)
  = frame fi img cam (set k v lens) expo gps ts raw.
Proof. reflexivity. Qed.

Lemma set_in_exposure (k : string) (v : value) :
  set_in "exposure" k v (frame fi img cam lens expo gps ts raw)
  = frame fi img cam lens (set k v expo) gps ts raw.
Proof. reflexivity. Qed.

Lemma if_str_camera (tag : option string) (k : string) (f : string -> value) :
  if_str tag (fun v => set_in "camera" k (f v))
    (frame fi img cam lens expo gps ts raw)
  = frame fi img (if_str tag (fun v => set k (f v)) cam) lens expo gps ts raw.
Proof.
  destruct tag as [v|]; cbn [if_str]; auto.
  destruct (ToBoolean (VStr v)); auto.
Qed.

Lemma if_str_lens (tag : option string) (k : string) (f : string -> value) :
  if_str tag (fun v => set_in "lens" k (f v))
    (frame fi img cam lens expo gps ts raw)
  = frame fi img cam (if_str tag (fun v => set k (f v)) lens) expo gps ts raw.
Proof.
  destruct tag as [v|]; cbn [if_str]; auto.
  destruct (ToBoolean (VStr v)); auto.
Qed.

Lemma if_num_lens (tag : option Number.number) (k : string)
  (f : Number.number -> value) :
  if_num tag (fun x => set_in "lens" k (f x))
    (frame fi img cam lens expo gps ts raw)
  = frame fi img cam (if_num tag (fun x => set k (f x)) lens) expo gps ts raw.
Proof.
  destruct tag as [x|]; cbn [if_num]; auto.
  destruct (ToBoolean (VNum x)); auto.
Qed.

Lemma if_num_exposure (tag : option Number.number) (k : string)
  (f : Number.number -> value) :
  if_num tag (fun x => set_in "exposure" k (f x))
    (frame fi img cam lens expo gps ts raw)
  = frame fi img cam lens (if_num tag (fun x => set k (f x)) expo) gps ts raw.
Proof.
  destruct tag as [x|]; cbn [if_num]; auto.
  destruct (ToBoolean (VNum x)); auto.
Qed.

Lemma if_defined_exposure (tag : option Number.number) (k : string)
  (f : Number.number -> value) :
  if_defined tag (fun x => set_in "exposure" k (f x))
    (frame fi img cam lens expo gps ts raw)
  = frame fi img cam lens (if_defined tag (fun x => set k (f x)) expo) gps ts raw.
Proof. destruct tag as [x|]; cbn [if_defined]; auto. Qed.

Lemma decimal_step_frame (coord ref dec negative : string) (g : object) :
  decimal_step coord ref dec negative
    (frame fi img cam lens expo (VObj g) ts raw)
  = frame fi img cam lens expo (VObj (gps_decimal coord ref dec negative g)) ts raw.
Proof.
  unfold decimal_step, gps_decimal, decimal_value.
  change (get_in "gps" coord (frame fi img cam lens expo (VObj g) ts raw))
    with (get coord g).
  change (get_in "gps" ref (frame fi img cam lens expo (VObj g) ts raw))
    with (get ref g).
  destruct (ToBoolean (get coord g) && ToBoolean (get ref g)); reflexivity.
Qed.

End Frame.

Lemma camera_step_frame t fi img cam lens expo gps ts raw :
  camera_step t (frame fi img cam lens expo gps ts raw)
  = frame fi img (camera_fields t cam) lens expo gps ts raw.
Proof.
  unfold camera_step, camera_fields. now rewrite !if_str_camera.
Qed.

Lemma lens_step_frame t fi img cam lens expo gps ts raw :
  lens_step t (frame fi img cam lens expo gps ts raw)
  = frame fi img cam (lens_fields t lens) expo gps ts raw.
Proof.
  unfold lens_step, lens_fields. now rewrite !if_str_lens, if_num_lens.
Qed.

Lemma exposure_step_frame t fi img cam lens expo gps ts raw :
  exposure_step t (frame fi img cam lens expo gps ts raw)
  = frame fi img cam lens (exposure_fields t expo) gps ts raw.
Proof.
  unfold exposure_step, exposure_fields.
  now rewrite !if_num_exposure, !if_defined_exposure.
Qed.

Lemma gps_step_frame includeGps t fi img cam lens expo ts raw :
  gps_step includeGps t (frame fi img cam lens expo VNull ts raw)
  = frame fi img cam lens expo (gps_value includeGps t) ts raw.
Proof.
  unfold gps_step, gps_value, gps_emitted.
  destruct (includeGps && ToBoolean (or (num (GPSLatitude t)) (num (GPSLongitude t))));
    auto.
  change (set "gps" (VObj ?g) (frame fi img cam lens expo VNull ts raw))
    with (frame fi img cam lens expo (VObj g) ts raw).
  now rewrite !decimal_step_frame.
Qed.

Lemma timestamp_step_frame rt convertTimestamps t fi img cam lens expo gps raw :
  timestamp_step rt convertTimestamps t (frame fi img cam lens expo gps VNull raw)
  = (ts <- timestamp_value rt convertTimestamps t;;
     ret (frame fi img cam lens expo gps ts raw)).
Proof.
  unfold timestamp_step, timestamp_value, timestamp_found.
  fold (dateTime_of t).
  destruct (ToBoolean (or (or (num (DateTime t)) (num (DateTimeOriginal t)))
                          (num (DateTimeDigitized t)))); auto.
  destruct (convertTimestamps && ToBoolean (dateTime_of t)); auto.
  destruct (Date.TimeClip (number_of (dateTime_of t) * 1000)%float); auto.
Qed.

(** [structuredExif] in closed form. *)
Lemma structuredExif_frame rt name fileSize d includeGps includeImageSize
  convertTimestamps :
  structuredExif rt name fileSize d includeGps includeImageSize convertTimestamps
  = match tags d with
    | Some t =>
        ts <- timestamp_value rt convertTimestamps t;;
        ret (cleanup
               (frame (fileInfo_value rt name fileSize)
                  (imageSize_value includeImageSize d)
                  (camera_fields t []) (lens_fields t []) (exposure_fields t [])
                  (gps_value includeGps t) ts (value_of_ExifData d)))
    | None =>
        ret (cleanup
               (frame (fileInfo_value rt name fileSize)
                  (imageSize_value includeImageSize d)
                  [] [] [] VNull VNull (value_of_ExifData d)))
    end.
Proof.
  unfold structuredExif.
  assert (E : image_size_step includeImageSize d
                (structuredExif_init rt name fileSize d)
              = frame (fileInfo_value rt name fileSize)
                  (imageSize_value includeImageSize d)
                  [] [] [] VNull VNull (value_of_ExifData d)).
  { unfold image_size_step, imageSize_value.
    destruct (imageSize d); [destruct includeImageSize|]; reflexivity. }
  rewrite E. clear E.
  destruct (tags d) as [t|]; [|reflexivity].
  unfold tags_step.
  rewrite camera_step_frame, lens_step_frame, exposure_step_frame,
    gps_step_frame, timestamp_step_frame.
  destruct (timestamp_value rt convertTimestamps t); reflexivity.
Qed.

Lemma structuredExif_closed rt name fileSize d includeGps includeImageSize
  convertTimestamps :
  structuredExif rt name fileSize d includeGps includeImageSize convertTimestamps
  = (ts <- timestamp_of rt convertTimestamps d;;
     ret (cleanup
            (frame (fileInfo_value rt name fileSize)
               (imageSize_value includeImageSize d)
               (camera_of d) (lens_of d) (exposure_of d)
               (gps_of includeGps d) ts (value_of_ExifData d)))).
Proof.
  rewrite structuredExif_frame.
  unfold timestamp_of, camera_of, lens_of, exposure_of, gps_of.
  destruct (tags d); reflexivity.
Qed.

(** The properties of a structured record, read off its frame. *)
Lemma structuredExif_lookup rt name fileSize d includeGps includeImageSize
  convertTimestamps s :
  structuredExif rt name fileSize d includeGps includeImageSize convertTimestamps
  = inr s ->
  exists ts,
    timestamp_of rt convertTimestamps d = inr ts
    /\ lookup "fileInfo" s = Some (fileInfo_value rt name fileSize)
    /\ lookup "imageSize" s = Some (imageSize_value includeImageSize d)
    /\ lookup "camera" s = kept (Some (VObj (camera_of d)))
    /\ lookup "lens" s = kept (Some (VObj (lens_of d)))
    /\ lookup "exposure" s = kept (Some (VObj (exposure_of d)))
    /\ lookup "gps" s = kept (Some (gps_of includeGps d))
    /\ lookup "timestamp" s = kept (Some ts)
    /\ lookup "raw" s = kept (Some (value_of_ExifData d)).
Proof.
  rewrite structuredExif_closed.
  destruct (timestamp_of rt convertTimestamps d) as [e|ts]; cbn [bind ret];
    [discriminate|].
  intros H. injection H as <-. exists ts.
  rewrite !lookup_cleanup.
  repeat split.
  unfold imageSize_value. destruct (imageSize d); [destruct includeImageSize|];
    reflexivity.
Qed.

(** ** One item *)

(** A successful [process_item] read its parameters, got a buffer, decoded
    it, built the structured record and returned the merged item. *)
Lemma process_item_inv rt h item itemIndex out :
  process_item rt h item itemIndex = inr out ->
  exists key includeGps includeImageSize convertTimestamps buffer d name s,
    getNodeParameter_string h "outputProperty" itemIndex = inr key
    /\ getNodeParameter_boolean h "includeGps" itemIndex = inr includeGps
    /\ getNodeParameter_boolean h "includeImageSize" itemIndex = inr includeImageSize
    /\ getNodeParameter_boolean h "convertTimestamps" itemIndex = inr convertTimestamps
    /\ ExifParser_parse h buffer = inr d
    /\ structuredExif rt name (Number.of_Z (Z.of_nat (List.length buffer))) d
         includeGps includeImageSize convertTimestamps = inr s
    /\ out = {| json := set key (VObj s) (json item);
                binary := None;
                pairedItem := None |}.
Proof.
  unfold process_item.
  destruct (getNodeParameter_string h "inputSource" itemIndex) as [?|src];
    cbn [bind]; [discriminate|].
  destruct (getNodeParameter_string h "outputProperty" itemIndex) as [?|key];
    cbn [bind]; [discriminate|].
  destruct (getNodeParameter_boolean h "includeGps" itemIndex) as [?|ig];
    cbn [bind]; [discriminate|].
  destruct (getNodeParameter_boolean h "includeImageSize" itemIndex) as [?|iis];
    cbn [bind]; [discriminate|].
  destruct (getNodeParameter_boolean h "convertTimestamps" itemIndex) as [?|ct];
    cbn [bind]; [discriminate|].
  match goal with
  | |- bind ?c _ = _ -> _ => destruct c as [?|buffer]; cbn [bind]; [discriminate|]
  end.
  destruct (ExifParser_parse h buffer) as [?|d] eqn:Ed; cbn [bind]; [discriminate|].
  match goal with
  | |- bind ?c _ = _ -> _ => destruct c as [?|name]; cbn [bind]; [discriminate|]
  end.
  match goal with
  | |- bind ?c _ = _ -> _ => destruct c as [?|s] eqn:Es; cbn [bind]; [discriminate|]
  end.
  intros H. injection H as <-.
  exists key, ig, iis, ct, buffer, d, name, s. auto 10.
Qed.

Lemma kept_nonempty (v : value) : v <> VObj [] -> kept (Some v) = Some v.
Proof.
  intros Hne. destruct v as [| | | | | |o]; try reflexivity.
  destruct o; [congruence|reflexivity].
Qed.

(** ** C1: the groups of the output record *)

(** C1 (as amended).  For every item that is processed successfully, the
    record stored under the output key contains [fileInfo], and [raw]
    whenever the decoded structure is not an empty object; when the tag
    dictionary has no recognized key, [camera], [lens] and [exposure] are
    absent, [gps] and [timestamp] are null, and [imageSize] is null unless
    image sizes are included and the decoder reported one, in which case it
    holds that width and height. *)
Theorem output_record_groups rt h item itemIndex out :
  process_item rt h item itemIndex = inr out ->
  exists key includeImageSize buffer d name s,
    getNodeParameter_string h "outputProperty" itemIndex = inr key
    /\ getNodeParameter_boolean h "includeImageSize" itemIndex = inr includeImageSize
    /\ ExifParser_parse h buffer = inr d
    /\ lookup key (json out) = Some (VObj s)
    /\ lookup "fileInfo" s
       = Some (fileInfo_value rt name (Number.of_Z (Z.of_nat (List.length buffer))))
    /\ (value_of_ExifData d <> VObj [] ->
        lookup "raw" s = Some (value_of_ExifData d))
    /\ (no_recognized d ->
        lookup "camera" s = None /\ lookup "lens" s = None
        /\ lookup "exposure" s = None
        /\ lookup "gps" s = Some VNull /\ lookup "timestamp" s = Some VNull
        /\ lookup "imageSize" s
           = Some (match imageSize d with
                   | Some sz =>
                       if includeImageSize
                       then VObj [("width", VNum (width sz));
                                  ("height", VNum (height sz))]
                       else VNull
                   | None => VNull
                   end)).
Proof.
  intros H.
  destruct (process_item_inv _ _ _ _ _ H)
    as (key & ig & iis & ct & buffer & d & name & s & Hk & _ & Hi & _ & Hd & Hs & ->).
  exists key, iis, buffer, d, name, s.
  destruct (structuredExif_lookup _ _ _ _ _ _ _ _ Hs)
    as (ts & Hts & Hfi & Himg & Hcam & Hlens & Hexp & Hgps & Htime & Hraw).
  split; [exact Hk|]. split; [exact Hi|]. split; [exact Hd|].
  split; [cbn [json]; apply lookup_set_same|].
  split; [exact Hfi|].
  split; [intros Hne; rewrite Hraw; now apply kept_nonempty|].
  intros Hno. unfold no_recognized in Hno.
  unfold camera_of, lens_of, exposure_of, gps_of, timestamp_of in *.
  rewrite Hcam, Hlens, Hexp, Hgps, Htime, Himg. clear - Hno Hts.
  destruct (tags d) as [t|].
  - rewrite Hno in *. cbn in Hts. injection Hts as <-.
    destruct ig; repeat split.
  - cbn in Hts. injection Hts as <-. repeat split.
Qed.

Lemma output_record_groups_witness :
  exists out s,
    process_item Reference.runtime
      (sample_host [sample_item] (ret bare_exif) true false) sample_item 0
    = inr out
    /\ no_recognized bare_exif
    /\ lookup "exif" (json out) = Some (VObj s)
    /\ lookup "camera" s = None /\ lookup "lens" s = None
    /\ lookup "exposure" s = None
    /\ lookup "gps" s = Some VNull /\ lookup "timestamp" s = Some VNull.
Proof.
  destruct (process_item Reference.runtime
              (sample_host [sample_item] (ret bare_exif) true false)
              sample_item 0) as [e|out] eqn:E; [vm_compute in E; discriminate|].
  destruct (output_record_groups _ _ _ _ _ E)
    as (key & iis & buffer & d & name & s & Hk & Hi & Hd & Hl & Hfi & Hraw & Hno).
  cbn in Hk, Hd. injection Hk as <-. injection Hd as <-.
  exists out, s. split; [reflexivity|]. split; [reflexivity|].
  split; [exact Hl|].
  destruct (Hno eq_refl) as (H1 & H2 & H3 & H4 & H5 & _). auto.
Defined.

(** With no recognized key in the tags, [imageSize] is the reported size,
    not null, when image sizes are included; and [raw] is removed with the
    other empty objects when the decoder returns an empty object. *)
Lemma output_record_groups_counterexample :
  (exists out s,
      process_item Reference.runtime
        (sample_host [sample_item] (ret bare_exif) true false) sample_item 0
      = inr out
      /\ no_recognized bare_exif
      /\ lookup "exif" (json out) = Some (VObj s)
      /\ lookup "imageSize" s
         = Some (VObj [("width", VNum 4000%float); ("height", VNum 3000%float)])
      /\ lookup "imageSize" s <> Some VNull)
  /\ (exists out s,
         process_item Reference.runtime
           (sample_host [sample_item] (ret empty_exif) true false) sample_item 0
         = inr out
         /\ lookup "exif" (json out) = Some (VObj s)
         /\ lookup "raw" s = None).
Proof.
  split.
  - eexists. eexists. split; [vm_compute; reflexivity|].
    split; [reflexivity|]. split; [reflexivity|].
    split; [reflexivity|]. discriminate.
  - eexists. eexists. split; [vm_compute; reflexivity|].
    split; reflexivity.
Qed.

(** ** Numbers: IEEE equality and integer values *)

Lemma digits2_pos_log2 (m : positive) :
  Zpos (digits2_pos m) = Z.log2 (Zpos m) + 1.
Proof.
  assert (H : digits2_pos m = Pos.size m) by (induction m; cbn; congruence).
  rewrite H. destruct m; cbn; lia.
Qed.

(** A valid finite float has a 53-bit mantissa or the least exponent. *)
Lemma valid_finite (x : float) s m e :
  Prim2SF x = S754_finite s m e ->
  Z.max (Z.log2 (Zpos m) + 1 + e - 53) (-1074) = e /\ e <= 971.
Proof.
  intros E. pose proof (Prim2SF_valid x) as V. rewrite E in V.
  cbn [valid_binary] in V. unfold bounded, canonical_mantissa, fexp in V.
  apply andb_prop in V. destruct V as [V1 V2].
  apply Z.eqb_eq in V1. apply Z.leb_le in V2.
  rewrite digits2_pos_log2 in V1.
  change (SpecFloat.emin prec emax) with (-1074) in V1.
  change prec with 53 in V1. change (emax - prec) with 971 in V2.
  split; [exact V1|exact V2].
Qed.

Lemma finite_eqb (x : float) s m e (y : float) m' e' :
  Prim2SF x = S754_finite s m e ->
  Prim2SF y = S754_finite false m' e' ->
  (x =? y)%float = true <-> (s = false /\ m = m' /\ e = e').
Proof.
  intros Ex Ey. rewrite FloatAxioms.eqb_spec, Ex, Ey. unfold SFeqb, SFcompare.
  destruct s.
  - split; [discriminate|]. intros (? & _). discriminate.
  - destruct (Z.compare_spec e e') as [He|He|He].
    + subst e'. rewrite Pos.compare_cont_spec. cbn [Pos.switch_Eq].
      destruct (Pos.compare_spec m m') as [Hm|Hm|Hm].
      * subst. tauto.
      * split; [discriminate|]. intros (_ & ? & _). lia.
      * split; [discriminate|]. intros (_ & ? & _). lia.
    + split; [discriminate|]. intros (_ & _ & ?). lia.
    + split; [discriminate|]. intros (_ & _ & ?). lia.
Qed.

(** The integer value of a finite float whose value is [2^j]. *)
Lemma integer_of_pow2 (x : float) (j : Z) :
  0 <= j <= 51 ->
  integer_of x = Some (2 ^ j)
  <-> Prim2SF x = S754_finite false 4503599627370496 (j - 52).
Proof.
  intros Hj. unfold integer_of, Number.shape_of. split.
  - destruct (Prim2SF x) as [s|s| |s m e] eqn:E; try discriminate.
    + intros H. injection H as H. assert (0 < 2 ^ j) by (apply Z.pow_pos_nonneg; lia). lia.
    + destruct (valid_finite x s m e E) as [Hc He].
      destruct (Z.leb_spec 0 e) as [H0|H0].
      * intros H. injection H as H.
        assert (Hl : Z.log2 (Zpos m) = 52) by lia.
        pose proof (Z.log2_spec (Zpos m) ltac:(lia)) as [Hlo _]. rewrite Hl in Hlo.
        pose proof (Z.pow_le_mono_r 2 0 e ltac:(lia) H0) as Hpe. change (2 ^ 0) with 1 in Hpe.
        assert (2 ^ j < 2 ^ 52) by (apply Z.pow_lt_mono_r; lia).
        destruct s; nia.
      * destruct (Z.eqb_spec (Zpos m mod 2 ^ (- e)) 0) as [Hm|Hm]; [|discriminate].
        intros H. injection H as H.
        assert (Hp : 0 < 2 ^ (- e)) by (apply Z.pow_pos_nonneg; lia).
        assert (0 < 2 ^ j) by (apply Z.pow_pos_nonneg; lia).
        destruct s.
        -- exfalso. assert (Z.neg m / 2 ^ (- e) < 0); [|lia].
           apply Z.div_lt_upper_bound; lia.
        -- pose proof (Z.div_mod (Zpos m) (2 ^ (- e)) ltac:(lia)) as Hd.
           rewrite Hm, H in Hd.
           assert (Hmv : Zpos m = 2 ^ (j - e)).
           { replace (j - e) with (- e + j) by lia.
             rewrite Z.pow_add_r by lia. lia. }
           assert (Hl : Z.log2 (Zpos m) = j - e).
           { rewrite Hmv. apply Z.log2_pow2. lia. }
           rewrite Hl in Hc.
           assert (e = j - 52) by lia. subst e.
           replace (j - (j - 52)) with 52 in Hmv by lia.
           change (2 ^ 52) with 4503599627370496 in Hmv.
           injection Hmv as ->. reflexivity.
  - intros ->.
    destruct (Z.leb_spec 0 (j - 52)) as [H0|H0]; [lia|].
    replace (- (j - 52)) with (52 - j) by lia.
    assert (Hp : 4503599627370496 = 2 ^ j * 2 ^ (52 - j)).
    { rewrite <- Z.pow_add_r by lia. replace (j + (52 - j)) with 52 by lia. reflexivity. }
    assert (0 < 2 ^ (52 - j)) by (apply Z.pow_pos_nonneg; lia).
    rewrite Hp, Z.mod_mul, Z.eqb_refl, Z.div_mul by lia. reflexivity.
Qed.

Lemma eqb_finite_iff (x y : float) m' e' :
  Prim2SF y = S754_finite false m' e' ->
  (x =? y)%float = true <-> Prim2SF x = S754_finite false m' e'.
Proof.
  intros Ey.
  destruct (Prim2SF x) as [s|s| |s m e] eqn:E.
  - rewrite FloatAxioms.eqb_spec, E, Ey. split; discriminate.
  - rewrite FloatAxioms.eqb_spec, E, Ey. split; [destruct s|]; discriminate.
  - rewrite FloatAxioms.eqb_spec, E, Ey. split; discriminate.
  - rewrite (finite_eqb x s m e y m' e' E Ey). split.
    + intros (-> & -> & ->). reflexivity.
    + intros H. injection H as -> -> ->. auto.
Qed.

Lemma eqb_zero_iff (x : float) :
  (x =? 0)%float = true <-> integer_of x = Some 0.
Proof.
  rewrite FloatAxioms.eqb_spec. unfold integer_of, Number.shape_of.
  change (Prim2SF 0) with (S754_zero false).
  destruct (Prim2SF x) as [s|s| |s m e] eqn:E.
  - split; auto.
  - split; [destruct s|]; discriminate.
  - split; discriminate.
  - split; [destruct s; discriminate|].
    destruct (valid_finite x s m e E) as [Hc He].
    destruct (Z.leb_spec 0 e) as [H0|H0].
    + intros H. injection H as H.
      assert (0 < 2 ^ e) by (apply Z.pow_pos_nonneg; lia). destruct s; nia.
    + destruct (Z.eqb_spec (Zpos m mod 2 ^ (- e)) 0) as [Hm|Hm]; [|discriminate].
      intros H. injection H as H.
      assert (Hp : 0 < 2 ^ (- e)) by (apply Z.pow_pos_nonneg; lia).
      destruct s.
      * pose proof (Z.div_mod (Zneg m) (2 ^ (- e)) ltac:(lia)) as Hd.
        rewrite H in Hd.
        pose proof (Z.mod_pos_bound (Zneg m) (2 ^ (- e)) Hp).
        assert (Hmm : Zneg m mod 2 ^ (- e) = 0).
        { rewrite <- Pos2Z.opp_pos. apply Z.mod_opp_l_z; lia. }
        lia.
      * pose proof (Z.div_mod (Zpos m) (2 ^ (- e)) ltac:(lia)) as Hd. lia.
Qed.

Lemma mode_lookup (code : float) : mode code = mode_table code.
Proof.
  unfold mode, mode_table, array_get.
  pose proof (eqb_zero_iff code) as H0.
  pose proof (eqb_finite_iff code 1 4503599627370496 (0 - 52) eq_refl) as H1.
  pose proof (eqb_finite_iff code 2 4503599627370496 (1 - 52) eq_refl) as H2.
  rewrite <- (integer_of_pow2 code 0) in H1 by lia.
  rewrite <- (integer_of_pow2 code 1) in H2 by lia.
  change (2 ^ 0) with 1 in H1. change (2 ^ 1) with 2 in H2.
  destruct (integer_of code) as [i|].
  - destruct (Z.eq_dec i 0) as [->|N0].
    { replace (code =? 0)%float with true by (symmetry; now apply H0). reflexivity. }
    destruct (code =? 0)%float; [destruct H0 as [H0 _]; specialize (H0 eq_refl); congruence|].
    destruct (Z.eq_dec i 1) as [->|N1].
    { replace (code =? 1)%float with true by (symmetry; now apply H1). reflexivity. }
    destruct (code =? 1)%float; [destruct H1 as [H1 _]; specialize (H1 eq_refl); congruence|].
    destruct (Z.eq_dec i 2) as [->|N2].
    { replace (code =? 2)%float with true by (symmetry; now apply H2). reflexivity. }
    destruct (code =? 2)%float; [destruct H2 as [H2 _]; specialize (H2 eq_refl); congruence|].
    destruct (Z.leb_spec 0 i); [|reflexivity].
    assert (Hn : nth_error exposureModes (Z.to_nat i) = None).
    { apply nth_error_None. cbn. lia. }
    now rewrite Hn.
  - destruct (code =? 0)%float; [destruct H0 as [H0 _]; specialize (H0 eq_refl); discriminate|].
    destruct (code =? 1)%float; [destruct H1 as [H1 _]; specialize (H1 eq_refl); discriminate|].
    destruct (code =? 2)%float; [destruct H2 as [H2 _]; specialize (H2 eq_refl); discriminate|].
    reflexivity.
Qed.

(** A finite non-zero float divided by itself is 1. *)
Lemma div_self (x : float) s m e :
  Number.shape_of x = Number.Fin s m e -> (x / x)%float = 1%float.
Proof.
  intros Hs.
  assert (E : Prim2SF x = S754_finite s m e).
  { unfold Number.shape_of in Hs.
    destruct (Prim2SF x); try discriminate. now injection Hs as -> -> ->. }
  apply Prim2SF_inj. rewrite div_spec, E.
  unfold SF64div, SFdiv, SFdiv_core_binary.
  rewrite !Z.sub_diag.
  change (Z.min (fexp prec emax 0) 0) with (-53).
  change (0 - -53) with 53.
  cbv iota beta.
  assert (Hd : Z.div_eucl (Z.shiftl (Zpos m) 53) (Zpos m) = (2 ^ 53, 0)).
  { rewrite Z.shiftl_mul_pow2 by lia.
    pose proof (Z.div_eucl_eq (Zpos m * 2 ^ 53) (Zpos m) ltac:(lia)) as H.
    pose proof (Z.mod_pos_bound (Zpos m * 2 ^ 53) (Zpos m) ltac:(lia)) as Hb.
    unfold Z.modulo in Hb.
    destruct (Z.div_eucl (Zpos m * 2 ^ 53) (Zpos m)) as [q r].
    cbn [snd] in Hb.
    set (P := 2 ^ 53) in *.
    assert (Hq : q = P).
    { destruct (Z.lt_trichotomy q P) as [Hlt|[Heq|Hgt]]; [|exact Heq|].
      - assert (Zpos m * (q + 1) <= Zpos m * P) by (apply Z.mul_le_mono_nonneg_l; lia).
        lia.
      - assert (Zpos m * (P + 1) <= Zpos m * q) by (apply Z.mul_le_mono_nonneg_l; lia).
        lia. }
    subst q. assert (r = 0) by lia. subst r. reflexivity. }
  rewrite Hd.
  assert (Hn : new_location (Zpos m) 0 = loc_Exact).
  { unfold new_location. destruct (Z.even (Zpos m)); reflexivity. }
  rewrite Hn. destruct s; vm_compute; reflexivity.
Qed.

(** ** Conditional assignments into a group *)

Lemma lookup_if_str_other k k' (tag : option string) (f : string -> value) c :
  k <> k' -> lookup k (if_str tag (fun v => set k' (f v)) c) = lookup k c.
Proof.
  intros Hne. destruct tag as [v|]; cbn [if_str]; auto.
  destruct (ToBoolean (VStr v)); auto using lookup_set_other.
Qed.

Lemma lookup_if_num_other k k' (tag : option Number.number)
  (f : Number.number -> value) c :
  k <> k' -> lookup k (if_num tag (fun x => set k' (f x)) c) = lookup k c.
Proof.
  intros Hne. destruct tag as [x|]; cbn [if_num]; auto.
  destruct (ToBoolean (VNum x)); auto using lookup_set_other.
Qed.

Lemma lookup_if_defined_other k k' (tag : option Number.number)
  (f : Number.number -> value) c :
  k <> k' -> lookup k (if_defined tag (fun x => set k' (f x)) c) = lookup k c.
Proof.
  intros Hne. destruct tag as [x|]; cbn [if_defined]; auto using lookup_set_other.
Qed.

Lemma lookup_if_num_same k (tag : option Number.number)
  (f : Number.number -> value) c :
  lookup k (if_num tag (fun x => set k (f x)) c)
  = match tag with
    | Some x => if Number.truthy x then Some (f x) else lookup k c
    | None => lookup k c
    end.
Proof.
  destruct tag as [x|]; cbn [if_num ToBoolean]; auto.
  destruct (Number.truthy x); auto using lookup_set_same.
Qed.

Lemma lookup_if_defined_same k (tag : option Number.number)
  (f : Number.number -> value) c :
  lookup k (if_defined tag (fun x => set k (f x)) c)
  = match tag with
    | Some x => Some (f x)
    | None => lookup k c
    end.
Proof. destruct tag as [x|]; cbn [if_defined]; auto using lookup_set_same. Qed.

Lemma kept_object (k : string) (o : object) (v : value) :
  lookup k o = Some v -> kept (Some (VObj o)) = Some (VObj o).
Proof. destruct o; [discriminate|reflexivity]. Qed.

(** The exposure group holds the shutter speed of a truthy exposure time
    and the mode of a defined exposure mode. *)
Lemma exposure_shutterSpeed (t : Tags) :
  lookup "shutterSpeed" (exposure_fields t [])
  = match ExposureTime t with
    | Some x => if Number.truthy x then Some (VStr (shutterSpeed x)) else None
    | None => None
    end.
Proof.
  unfold exposure_fields.
  rewrite !lookup_if_defined_other, !lookup_if_num_other by discriminate.
  now rewrite lookup_if_num_same.
Qed.

Lemma exposure_mode (t : Tags) :
  lookup "mode" (exposure_fields t [])
  = match ExposureMode t with
    | Some x => Some (VStr (mode x))
    | None => None
    end.
Proof.
  unfold exposure_fields.
  rewrite lookup_if_defined_other by discriminate.
  rewrite lookup_if_defined_same.
  destruct (ExposureMode t); auto.
  now rewrite !lookup_if_num_other by discriminate.
Qed.

(** ** C2: the exposure mode *)

(** C2.  For every tag dictionary in which ExposureMode is defined, the
    exposure group is present and its [mode] is "Auto" for the code 0,
    "Manual" for 1, "Auto bracket" for 2 and "Unknown" for every other
    code; a code of 0 is defined, so it gives "Auto". *)
Theorem exposure_mode_lookup rt name fileSize d t code includeGps
  includeImageSize convertTimestamps s :
  tags d = Some t ->
  ExposureMode t = Some code ->
  structuredExif rt name fileSize d includeGps includeImageSize convertTimestamps
  = inr s ->
  exists expo,
    lookup "exposure" s = Some (VObj expo)
    /\ lookup "mode" expo = Some (VStr (mode_table code))
    /\ ((code =? 0)%float = true -> lookup "mode" expo = Some (VStr "Auto")).
Proof.
  intros Ht Hc Hs.
  destruct (structuredExif_lookup _ _ _ _ _ _ _ _ Hs)
    as (ts & _ & _ & _ & _ & _ & Hexp & _).
  unfold exposure_of in Hexp. rewrite Ht in Hexp.
  pose proof (exposure_mode t) as Hm. rewrite Hc, mode_lookup in Hm.
  exists (exposure_fields t []).
  rewrite Hexp, (kept_object _ _ _ Hm).
  repeat split; auto.
  intros H0. rewrite Hm. unfold mode_table. now rewrite H0.
Qed.

Lemma exposure_mode_lookup_witness :
  exists s expo,
    structuredExif Reference.runtime "photo.jpg" 4%float
      (exif_of (exposure_tags None (Some 0%float))) true true true = inr s
    /\ lookup "exposure" s = Some (VObj expo)
    /\ lookup "mode" expo = Some (VStr "Auto").
Proof.
  destruct (structuredExif Reference.runtime "photo.jpg" 4%float
              (exif_of (exposure_tags None (Some 0%float))) true true true)
    as [e|s] eqn:E; [vm_compute in E; discriminate|].
  exists s.
  destruct (exposure_mode_lookup _ _ _
              (exif_of (exposure_tags None (Some 0%float)))
              (exposure_tags None (Some 0%float))
              0%float _ _ _ _ eq_refl eq_refl E) as (expo & H1 & H2 & _).
  exists expo. auto.
Defined.

(** ** C3: the shutter speed *)

(** C3 (as amended).  For every tag dictionary whose exposure-time tag is
    truthy (neither 0 nor NaN), the exposure group is present and its
    [shutterSpeed] is "1/" followed by [Math.round(1 / value)] when the
    value is below 1, and the value followed by "s" otherwise. *)
Theorem shutter_speed_format rt name fileSize d t exposure includeGps
  includeImageSize convertTimestamps s :
  tags d = Some t ->
  ExposureTime t = Some exposure ->
  Number.truthy exposure = true ->
  structuredExif rt name fileSize d includeGps includeImageSize convertTimestamps
  = inr s ->
  exists expo,
    lookup "exposure" s = Some (VObj expo)
    /\ lookup "shutterSpeed" expo
       = Some (VStr (if (exposure <? 1)%float
                     then "1/" ++ Number.toString
                                    (Number.Math_round (1 / exposure)%float)
                     else Number.toString exposure ++ "s")).
Proof.
  intros Ht Hx Htr Hs.
  destruct (structuredExif_lookup _ _ _ _ _ _ _ _ Hs)
    as (ts & _ & _ & _ & _ & _ & Hexp & _).
  unfold exposure_of in Hexp. rewrite Ht in Hexp.
  pose proof (exposure_shutterSpeed t) as Hm. rewrite Hx, Htr in Hm.
  exists (exposure_fields t []).
  rewrite Hexp, (kept_object _ _ _ Hm). auto.
Qed.

Lemma shutter_speed_format_witness :
  (exists s expo,
      structuredExif Reference.runtime "photo.jpg" 4%float
        (exif_of (exposure_tags (Some 0.005%float) None)) true true true = inr s
      /\ lookup "exposure" s = Some (VObj expo)
      /\ lookup "shutterSpeed" expo = Some (VStr "1/200"))
  /\ (exists s expo,
         structuredExif Reference.runtime "photo.jpg" 4%float
           (exif_of (exposure_tags (Some 2%float) None)) true true true = inr s
         /\ lookup "exposure" s = Some (VObj expo)
         /\ lookup "shutterSpeed" expo = Some (VStr "2s")).
Proof.
  split.
  - destruct (structuredExif Reference.runtime "photo.jpg" 4%float
                (exif_of (exposure_tags (Some 0.005%float) None)) true true true)
      as [e|s] eqn:E; [vm_compute in E; discriminate|].
    exists s.
    destruct (shutter_speed_format _ _ _
                (exif_of (exposure_tags (Some 0.005%float) None))
                (exposure_tags (Some 0.005%float) None)
                0.005%float _ _ _ _ eq_refl eq_refl eq_refl E)
      as (expo & H1 & H2).
    exists expo. split; [reflexivity|]. split; [exact H1|].
    rewrite H2. vm_compute. reflexivity.
  - destruct (structuredExif Reference.runtime "photo.jpg" 4%float
                (exif_of (exposure_tags (Some 2%float) None)) true true true)
      as [e|s] eqn:E; [vm_compute in E; discriminate|].
    exists s.
    destruct (shutter_speed_format _ _ _
                (exif_of (exposure_tags (Some 2%float) None))
                (exposure_tags (Some 2%float) None)
                2%float _ _ _ _ eq_refl eq_refl eq_refl E)
      as (expo & H1 & H2).
    exists expo. split; [reflexivity|]. split; [exact H1|].
    rewrite H2. vm_compute. reflexivity.
Defined.

(** An exposure time of 0 is an exposure-time tag, and 0 is below 1, yet
    no shutter speed is computed: the exposure group is absent. *)
Lemma shutter_speed_counterexample :
  exists s,
    ExposureTime (exposure_tags (Some 0%float) None) = Some 0%float
    /\ (0 <? 1)%float = true
    /\ structuredExif Reference.runtime "photo.jpg" 4%float
         (exif_of (exposure_tags (Some 0%float) None)) true true true = inr s
    /\ lookup "exposure" s = None.
Proof.
  eexists. split; [reflexivity|]. split; [reflexivity|].
  split; [vm_compute; reflexivity|]. reflexivity.
Qed.

(** ** The GPS group *)

Lemma or_null_num (o : option Number.number) :
  or (num o) VNull = copied_num o
  /\ ToBoolean (or (num o) VNull) = present_num o.
Proof.
  destruct o as [x|]; cbn; auto.
  unfold or. cbn. destruct (Number.truthy x) eqn:E; cbn; rewrite ?E; auto.
Qed.

Lemma or_null_str (o : option string) :
  or (str o) VNull = copied_str o
  /\ ToBoolean (or (str o) VNull) = present_str o.
Proof.
  destruct o as [r|]; cbn; auto.
  unfold or. cbn. destruct (String.eqb r EmptyString) eqn:E; cbn; rewrite ?E; auto.
Qed.

(** The fields of an emitted GPS group. *)
Lemma gps_fields_spec (t : Tags) :
  let g := gps_fields t in
  get "latitude" g = copied_num (GPSLatitude t)
  /\ get "longitude" g = copied_num (GPSLongitude t)
  /\ get "altitude" g = copied_num (GPSAltitude t)
  /\ get "latitudeRef" g = copied_str (GPSLatitudeRef t)
  /\ get "longitudeRef" g = copied_str (GPSLongitudeRef t)
  /\ lookup "latitudeDecimal" g
     = (if present_num (GPSLatitude t) && present_str (GPSLatitudeRef t)
        then Some (decimal_value "S" (copied_num (GPSLatitude t))
                     (copied_str (GPSLatitudeRef t)))
        else None)
  /\ lookup "longitudeDecimal" g
     = (if present_num (GPSLongitude t) && present_str (GPSLongitudeRef t)
        then Some (decimal_value "W" (copied_num (GPSLongitude t))
                     (copied_str (GPSLongitudeRef t)))
        else None).
Proof.
  unfold gps_fields, gps_decimal, gps_base.
  destruct (or_null_num (GPSLatitude t)) as [-> Hla].
  destruct (or_null_num (GPSLongitude t)) as [-> Hlo].
  destruct (or_null_num (GPSAltitude t)) as [-> _].
  destruct (or_null_str (GPSLatitudeRef t)) as [-> Hlar].
  destruct (or_null_str (GPSLongitudeRef t)) as [-> Hlor].
  rewrite <- Hla, <- Hlo, <- Hlar, <- Hlor. clear Hla Hlo Hlar Hlor.
  cbv zeta.
  generalize (copied_num (GPSLatitude t)) (copied_num (GPSLongitude t))
    (copied_num (GPSAltitude t)) (copied_str (GPSLatitudeRef t))
    (copied_str (GPSLongitudeRef t)).
  intros la lo al lar lor.
  change (get "latitude" [("latitude", la); ("longitude", lo); ("altitude", al);
                          ("latitudeRef", lar); ("longitudeRef", lor)]) with la.
  change (get "latitudeRef" [("latitude", la); ("longitude", lo); ("altitude", al);
                             ("latitudeRef", lar); ("longitudeRef", lor)]) with lar.
  destruct (ToBoolean la && ToBoolean lar);
    cbn [set lookup get String.eqb Ascii.eqb Bool.eqb];
    destruct (ToBoolean lo && ToBoolean lor); repeat split.
Qed.

Lemma copied_num_cases (o : option Number.number) :
  (present_num o = false /\ copied_num o = VNull)
  \/ (exists x, o = Some x /\ present_num o = true /\ copied_num o = VNum x).
Proof.
  destruct o as [x|]; cbn; auto.
  destruct (Number.truthy x); eauto.
Qed.

Lemma copied_str_cases (o : option string) :
  (present_str o = false /\ copied_str o = VNull)
  \/ (exists r, o = Some r /\ present_str o = true /\ copied_str o = VStr r).
Proof.
  destruct o as [r|]; cbn; auto.
  destruct (negb (String.eqb r EmptyString)); eauto.
Qed.

Lemma gps_fields_kept (t : Tags) :
  kept (Some (VObj (gps_fields t))) = Some (VObj (gps_fields t)).
Proof.
  destruct (gps_fields_spec t) as (H & _).
  destruct (gps_fields t) as [|p r] eqn:E; [|reflexivity].
  cbn in H. symmetry in H.
  destruct (copied_num_cases (GPSLatitude t)) as [(_ & Hc)|(x & _ & _ & Hc)];
    congruence.
Qed.

(** What [structuredExif] stores under [gps]. *)
Lemma structuredExif_gps rt name fileSize d includeGps includeImageSize
  convertTimestamps s :
  structuredExif rt name fileSize d includeGps includeImageSize convertTimestamps
  = inr s ->
  lookup "gps" s = Some (gps_of includeGps d).
Proof.
  intros Hs.
  destruct (structuredExif_lookup _ _ _ _ _ _ _ _ Hs)
    as (ts & _ & _ & _ & _ & _ & _ & Hgps & _).
  rewrite Hgps. unfold gps_of, gps_value.
  destruct (tags d) as [t|]; [|reflexivity].
  destruct (gps_emitted includeGps t); [apply gps_fields_kept|reflexivity].
Qed.

Lemma gps_emitted_inv includeGps d g :
  gps_of includeGps d = VObj g ->
  exists t, tags d = Some t /\ gps_emitted includeGps t = true /\ g = gps_fields t.
Proof.
  unfold gps_of, gps_value. destruct (tags d) as [t|]; [|discriminate].
  destruct (gps_emitted includeGps t) eqn:E; [|discriminate].
  intros H. injection H as <-. exists t. auto.
Qed.

(** ** C4: decimal degrees *)

(** C4.  Whenever the GPS group is emitted, [latitudeDecimal] is there
    exactly when [latitude] and [latitudeRef] are both non-null (a
    latitude of 0 and an empty reference are stored as null); it is then
    minus the absolute value of the latitude when the reference is "S" and
    the absolute value otherwise.  [longitudeDecimal] is the same with
    [longitude], [longitudeRef] and "W". *)
Theorem gps_decimal_degrees rt name fileSize d includeGps includeImageSize
  convertTimestamps s g :
  structuredExif rt name fileSize d includeGps includeImageSize convertTimestamps
  = inr s ->
  lookup "gps" s = Some (VObj g) ->
  ((exists v, lookup "latitudeDecimal" g = Some v)
   <-> get "latitude" g <> VNull /\ get "latitudeRef" g <> VNull)
  /\ (forall lat ref,
         get "latitude" g = VNum lat -> get "latitudeRef" g = VStr ref ->
         Number.truthy lat = true
         /\ lookup "latitudeDecimal" g
            = Some (VNum (if String.eqb ref "S"
                          then (- Number.Math_abs lat)%float
                          else Number.Math_abs lat)))
  /\ ((exists v, lookup "longitudeDecimal" g = Some v)
      <-> get "longitude" g <> VNull /\ get "longitudeRef" g <> VNull)
  /\ (forall lon ref,
         get "longitude" g = VNum lon -> get "longitudeRef" g = VStr ref ->
         Number.truthy lon = true
         /\ lookup "longitudeDecimal" g
            = Some (VNum (if String.eqb ref "W"
                          then (- Number.Math_abs lon)%float
                          else Number.Math_abs lon))).
Proof.
  intros Hs Hg. rewrite (structuredExif_gps _ _ _ _ _ _ _ _ Hs) in Hg.
  injection Hg as Hg. destruct (gps_emitted_inv _ _ _ Hg) as (t & _ & _ & ->).
  clear Hs Hg.
  destruct (gps_fields_spec t) as (Hla & Hlo & _ & Hlar & Hlor & Hlad & Hlod).
  rewrite Hla, Hlo, Hlar, Hlor, Hlad, Hlod. clear.
  split; [|split; [|split]].
  - destruct (copied_num_cases (GPSLatitude t)) as [(-> & ->)|(x & _ & -> & ->)];
      destruct (copied_str_cases (GPSLatitudeRef t)) as [(-> & ->)|(r & _ & -> & ->)];
      cbn; split; try (intros [v H]; discriminate); try (intros [H1 H2]; congruence);
      eauto; split; discriminate.
  - intros lat ref H1 H2.
    destruct (copied_num_cases (GPSLatitude t)) as [(_ & E)|(x & Ex & Ep & E)];
      rewrite E in H1; [discriminate|]. injection H1 as ->.
    destruct (copied_str_cases (GPSLatitudeRef t)) as [(_ & F)|(r & _ & Fp & F)];
      rewrite F in H2; [discriminate|]. injection H2 as ->.
    rewrite Ep, Fp, E, F. rewrite Ex in Ep. auto.
  - destruct (copied_num_cases (GPSLongitude t)) as [(-> & ->)|(x & _ & -> & ->)];
      destruct (copied_str_cases (GPSLongitudeRef t)) as [(-> & ->)|(r & _ & -> & ->)];
      cbn; split; try (intros [v H]; discriminate); try (intros [H1 H2]; congruence);
      eauto; split; discriminate.
  - intros lon ref H1 H2.
    destruct (copied_num_cases (GPSLongitude t)) as [(_ & E)|(x & Ex & Ep & E)];
      rewrite E in H1; [discriminate|]. injection H1 as ->.
    destruct (copied_str_cases (GPSLongitudeRef t)) as [(_ & F)|(r & _ & Fp & F)];
      rewrite F in H2; [discriminate|]. injection H2 as ->.
    rewrite Ep, Fp, E, F. rewrite Ex in Ep. auto.
Qed.

Lemma gps_decimal_degrees_witness :
  (exists s g,
      structuredExif Reference.runtime "photo.jpg" 4%float
        (exif_of (gps_tags (Some 40.7%float) None None (Some "S") None))
        true true true = inr s
      /\ lookup "gps" s = Some (VObj g)
      /\ lookup "latitudeDecimal" g = Some (VNum (-40.7)%float)
      /\ ~ (exists v, lookup "longitudeDecimal" g = Some v))
  /\ (exists s g,
         structuredExif Reference.runtime "photo.jpg" 4%float
           (exif_of (gps_tags (Some 40.7%float) None None (Some "N") None))
           true true true = inr s
         /\ lookup "gps" s = Some (VObj g)
         /\ lookup "latitudeDecimal" g = Some (VNum 40.7%float)).
Proof.
  split.
  - destruct (structuredExif Reference.runtime "photo.jpg" 4%float
                (exif_of (gps_tags (Some 40.7%float) None None (Some "S") None))
                true true true) as [e|s] eqn:E; [vm_compute in E; discriminate|].
    pose proof (structuredExif_gps _ _ _ _ _ _ _ _ E) as Hg.
    cbv [gps_of exif_of tags gps_value] in Hg.
    change (gps_emitted true (gps_tags (Some 40.7%float) None None (Some "S") None))
      with true in Hg.
    exists s, (gps_fields (gps_tags (Some 40.7%float) None None (Some "S") None)).
    destruct (gps_decimal_degrees _ _ _ _ _ _ _ _ _ E Hg) as (_ & Hlat & Hlon & _).
    split; [reflexivity|]. split; [exact Hg|]. split.
    + exact (proj2 (Hlat 40.7%float "S" eq_refl eq_refl)).
    + intros Hv. apply Hlon in Hv. destruct Hv as [Hv _]. now apply Hv.
  - destruct (structuredExif Reference.runtime "photo.jpg" 4%float
                (exif_of (gps_tags (Some 40.7%float) None None (Some "N") None))
                true true true) as [e|s] eqn:E; [vm_compute in E; discriminate|].
    pose proof (structuredExif_gps _ _ _ _ _ _ _ _ E) as Hg.
    cbv [gps_of exif_of tags gps_value] in Hg.
    change (gps_emitted true (gps_tags (Some 40.7%float) None None (Some "N") None))
      with true in Hg.
    exists s, (gps_fields (gps_tags (Some 40.7%float) None None (Some "N") None)).
    destruct (gps_decimal_degrees _ _ _ _ _ _ _ _ _ E Hg) as (_ & Hlat & _).
    split; [reflexivity|]. split; [exact Hg|].
    exact (proj2 (Hlat 40.7%float "N" eq_refl eq_refl)).
Defined.

(** ** C5: when the GPS group is emitted *)

(** C5.  The gps group is an object exactly when GPS data is included and
    the latitude or the longitude tag is present, a value of 0 (or NaN)
    counting as absent; it is null otherwise.  An emitted group holds the
    latitude, longitude, altitude and the two references as they are, null
    for each one that is missing. *)
Theorem gps_group_presence rt name fileSize d includeGps includeImageSize
  convertTimestamps s :
  structuredExif rt name fileSize d includeGps includeImageSize convertTimestamps
  = inr s ->
  ((exists g, lookup "gps" s = Some (VObj g))
   <-> includeGps = true
       /\ (present_num (tag GPSLatitude d) = true
           \/ present_num (tag GPSLongitude d) = true))
  /\ (lookup "gps" s = Some VNull \/ exists g, lookup "gps" s = Some (VObj g))
  /\ (forall g, lookup "gps" s = Some (VObj g) ->
        get "latitude" g = copied_num (tag GPSLatitude d)
        /\ get "longitude" g = copied_num (tag GPSLongitude d)
        /\ get "altitude" g = copied_num (tag GPSAltitude d)
        /\ get "latitudeRef" g = copied_str (tag GPSLatitudeRef d)
        /\ get "longitudeRef" g = copied_str (tag GPSLongitudeRef d)).
Proof.
  intros Hs. rewrite (structuredExif_gps _ _ _ _ _ _ _ _ Hs). clear Hs.
  unfold gps_of, gps_value, gps_emitted, tag.
  destruct (tags d) as [t|].
  - destruct (or_null_num (GPSLatitude t)) as [_ Hla].
    destruct (or_null_num (GPSLongitude t)) as [_ Hlo].
    assert (Hor : ToBoolean (or (num (GPSLatitude t)) (num (GPSLongitude t)))
                  = present_num (GPSLatitude t) || present_num (GPSLongitude t)).
    { clear. unfold or.
      destruct (GPSLatitude t) as [x|], (GPSLongitude t) as [y|]; cbn;
        try destruct (Number.truthy x) eqn:Ex; cbn; rewrite ?Ex; auto. }
    rewrite Hor. clear Hor Hla Hlo.
    destruct includeGps, (present_num (GPSLatitude t)),
      (present_num (GPSLongitude t)); cbn [andb orb];
      (split; [split; [intros [g Hg]; try discriminate; auto
                      |intros [H1 [H2|H2]]; try discriminate; eauto]|]);
      (split; [eauto|]);
      intros g Hg; try discriminate; injection Hg as <-;
      destruct (gps_fields_spec t) as (H1 & H2 & H3 & H4 & H5 & _); auto.
  - split; [split; [intros [g Hg]; discriminate
                   |intros [_ [H|H]]; discriminate]|].
    split; [auto|]. intros g Hg. discriminate.
Qed.

Lemma gps_group_presence_witness :
  exists s g,
    structuredExif Reference.runtime "photo.jpg" 4%float
      (exif_of (gps_tags (Some 40.7%float) (Some 0%float) (Some 0%float)
                  (Some "S") None))
      true true true = inr s
    /\ lookup "gps" s = Some (VObj g)
    /\ get "latitude" g = VNum 40.7%float
    /\ get "longitude" g = VNull
    /\ get "altitude" g = VNull
    /\ get "latitudeRef" g = VStr "S"
    /\ get "longitudeRef" g = VNull.
Proof.
  destruct (structuredExif Reference.runtime "photo.jpg" 4%float
              (exif_of (gps_tags (Some 40.7%float) (Some 0%float) (Some 0%float)
                          (Some "S") None))
              true true true) as [e|s] eqn:E; [vm_compute in E; discriminate|].
  destruct (gps_group_presence _ _ _ _ _ _ _ _ E) as (Hiff & _ & Hcopy).
  destruct (proj2 Hiff (conj eq_refl (or_introl eq_refl))) as [g Hg].
  exists s, g. split; [reflexivity|]. split; [exact Hg|].
  exact (Hcopy g Hg).
Defined.

(** ** C6: the timestamp *)

Lemma dateTime_first_present (t : Tags) :
  match first_present [DateTimeOriginal t; DateTime t; DateTimeDigitized t] with
  | Some x =>
      timestamp_found t = true /\ dateTime_of t = VNum x
      /\ ToBoolean (dateTime_of t) = true
  | None => timestamp_found t = false
  end.
Proof.
  unfold timestamp_found, dateTime_of, or, first_present, present_num.
  destruct (DateTimeOriginal t) as [a|], (DateTime t) as [b|],
    (DateTimeDigitized t) as [c|]; cbn;
    try destruct (Number.truthy a) eqn:Ea; cbn; rewrite ?Ea;
    try destruct (Number.truthy b) eqn:Eb; cbn; rewrite ?Ea, ?Eb;
    try destruct (Number.truthy c) eqn:Ec; cbn; rewrite ?Ea, ?Eb, ?Ec; auto.
Qed.

(** C6 (as amended).  The timestamp is derived from the first present
    (defined, non-zero, not NaN) tag in the order DateTimeOriginal,
    DateTime, DateTimeDigitized.  For an item that is processed: with
    conversion on and such a value found, the value times 1000 is a valid
    time value in milliseconds and the field is {original, iso,
    formatted}, [iso] being the UTC ISO-8601 string of that time; with
    conversion off the field is the value itself; with no such tag the
    field is null. *)
Theorem timestamp_derivation rt name fileSize d includeGps includeImageSize
  convertTimestamps s :
  structuredExif rt name fileSize d includeGps includeImageSize convertTimestamps
  = inr s ->
  match first_present (timestamp_tags d) with
  | None => lookup "timestamp" s = Some VNull
  | Some x =>
      if convertTimestamps
      then exists tv,
          Date.TimeClip (x * 1000)%float = Some tv
          /\ lookup "timestamp" s
             = Some (VObj [("original", VNum x);
                           ("iso", VStr (Date.iso_string tv));
                           ("formatted", VStr (toLocaleString rt tv))])
      else lookup "timestamp" s = Some (VNum x)
  end.
Proof.
  intros Hs.
  destruct (structuredExif_lookup _ _ _ _ _ _ _ _ Hs)
    as (ts & Hts & _ & _ & _ & _ & _ & _ & Htime & _).
  rewrite Htime. clear Hs Htime.
  unfold timestamp_tags, tag, timestamp_of in *.
  destruct (tags d) as [t|]; [|injection Hts as <-; reflexivity].
  unfold timestamp_value in Hts.
  pose proof (dateTime_first_present t) as H.
  destruct (first_present [DateTimeOriginal t; DateTime t; DateTimeDigitized t])
    as [x|].
  - destruct H as (Hf & Hd & Hb). rewrite Hf, Hb, Hd in Hts.
    destruct convertTimestamps; cbn [andb number_of] in Hts.
    + destruct (Date.TimeClip (x * 1000)%float) as [tv|]; [|discriminate].
      injection Hts as <-. exists tv. auto.
    + injection Hts as <-. reflexivity.
  - rewrite H in Hts. injection Hts as <-. reflexivity.
Qed.

Lemma timestamp_derivation_witness :
  exists s iso formatted,
    structuredExif Reference.runtime "photo.jpg" 4%float
      (exif_of (date_tags (Some 1609459200%float) None None))
      true true true = inr s
    /\ lookup "timestamp" s
       = Some (VObj [("original", VNum 1609459200%float);
                     ("iso", VStr iso);
                     ("formatted", VStr formatted)])
    /\ iso = "2021-01-01T00:00:00.000Z"
    /\ String.prefix "2021-01-01T00:00:00" iso = true.
Proof.
  destruct (structuredExif Reference.runtime "photo.jpg" 4%float
              (exif_of (date_tags (Some 1609459200%float) None None))
              true true true) as [e|s] eqn:E; [vm_compute in E; discriminate|].
  destruct (timestamp_derivation _ _ _ _ _ _ _ _ E) as (tv & Hc & Hl).
  vm_compute in Hc. injection Hc as <-.
  exists s. eexists. eexists. split; [reflexivity|]. split; [exact Hl|].
  split; vm_compute; reflexivity.
Defined.

(** DateTimeOriginal = 0 is the first defined tag, yet the timestamp is
    taken from DateTime. *)
Lemma timestamp_counterexample :
  exists s,
    first_defined
      (timestamp_tags
         (exif_of (date_tags (Some 0%float) (Some 1609459200%float) None)))
    = Some 0%float
    /\ structuredExif Reference.runtime "photo.jpg" 4%float
         (exif_of (date_tags (Some 0%float) (Some 1609459200%float) None))
         true true true = inr s
    /\ lookup "timestamp" s
       = Some (VObj [("original", VNum 1609459200%float);
                     ("iso", VStr "2021-01-01T00:00:00.000Z");
                     ("formatted", VStr "1/1/2021, 12:00:00 AM")]).
Proof.
  eexists. split; [reflexivity|]. split; [vm_compute; reflexivity|]. reflexivity.
Qed.

(** ** C7: formatFileSize *)

Lemma array_get_sizes (i : nat) (unit : string) :
  nth_error sizes i = Some unit ->
  array_get sizes (Number.of_Z (Z.of_nat i)) = Some unit.
Proof.
  do 5 (destruct i as [|i]; [intros H; injection H as <-; reflexivity|]).
  destruct i; discriminate.
Qed.

Lemma all_from_spec (count : nat) (n : Z) (p : Z -> bool) :
  all_from count n p = true ->
  forall b, n <= b < n + Z.of_nat count -> p b = true.
Proof.
  revert n. induction count as [|c IH]; intros n H b Hb; [lia|].
  cbn [all_from] in H. apply andb_prop in H. destruct H as [Hn Hr].
  destruct (Z.eq_dec b n) as [->|Hne]; [exact Hn|].
  apply (IH (n + 1) Hr). lia.
Qed.

Lemma prints_whole_below_1024 (b : Z) :
  1 <= b <= 1023 -> prints_whole b = true.
Proof.
  intros Hb. apply (all_from_spec 1023 1); [vm_compute; reflexivity|lia].
Qed.

(** [toFixed(2)] prints the integer nearest to a hundred times the
    magnitude, the larger one on a tie. *)
Lemma scaled_round_nearest (m : positive) (e : Z) :
  let n := Number.scaled_round m e 2 in
  (2 * n - 1) * 2 ^ Z.max (- e) 0 <= 200 * Zpos m * 2 ^ Z.max e 0
  /\ 200 * Zpos m * 2 ^ Z.max e 0 < (2 * n + 1) * 2 ^ Z.max (- e) 0.
Proof.
  unfold Number.scaled_round. change (10 ^ Z.of_nat 2) with 100.
  destruct (Z.leb_spec 0 e) as [H|H].
  - rewrite (Z.max_r (- e) 0), (Z.max_l e 0) by lia.
    change (2 ^ 0) with 1. nia.
  - rewrite (Z.max_l (- e) 0), (Z.max_r e 0) by lia.
    change (2 ^ 0) with 1.
    replace (1 - e) with (Z.succ (- e)) by lia.
    rewrite Z.pow_succ_r by lia.
    assert (Hp : 0 < 2 ^ (- e)) by (apply Z.pow_pos_nonneg; lia).
    set (P := 2 ^ (- e)) in *.
    pose proof (Z.div_mod (2 * Zpos m * 100 + P) (2 * P) ltac:(lia)) as Hd.
    pose proof (Z.mod_pos_bound (2 * Zpos m * 100 + P) (2 * P) ltac:(lia)) as Hb.
    nia.
Qed.

(** C7 (as amended).  formatFileSize(0) is "0 Bytes".  For a non-zero byte
    count whose magnitude index [i = floor(log(bytes) / log(1024))] is 0,
    1, 2, 3 or 4, the result is the byte count divided by [1024^i], put
    through [toFixed(2)], parsed back and printed, then a space and the
    [i]-th of Bytes, KB, MB, GB, TB; for 1 to 1023 bytes with index 0 that
    is the byte count in decimal followed by " Bytes".  [toFixed(2)] of a
    positive value below [10^21] prints the integer nearest to a hundred
    times the value with a point before its last two digits, and parsing
    and printing drops the trailing zeros ("1.50" gives "1.5", "1.00"
    gives "1").  On a
    runtime whose power gives [1024^1 = 1024], formatFileSize(1024) is
    "1 KB" when the logarithm of 1024 is finite and not zero, and
    formatFileSize(1536) is "1.5 KB" when the logarithms give the index 1
    at 1536. *)
Theorem formatFileSize_units (rt : Runtime) :
  formatFileSize rt 0%float = "0 Bytes"
  /\ (forall bytes i unit,
         (bytes =? 0)%float = false ->
         Number.Math_floor (Math_log rt bytes / Math_log rt 1024)%float
         = Number.of_Z (Z.of_nat i) ->
         nth_error sizes i = Some unit ->
         formatFileSize rt bytes
         = Number.toString
             (Number.parseFloat
                (Number.toFixed
                   (bytes / Math_pow rt 1024 (Number.of_Z (Z.of_nat i)))%float 2))
             ++ " " ++ unit)
  /\ (forall b,
         1 <= b <= 1023 ->
         Number.Math_floor (Math_log rt (Number.of_Z b) / Math_log rt 1024)%float
         = 0%float ->
         Math_pow rt 1024%float 0%float = 1%float ->
         formatFileSize rt (Number.of_Z b) = Digits.of_Z b ++ " Bytes")
  /\ (forall x m e,
         Number.shape_of x = Number.Fin false m e ->
         Number.cmp_bin_dec (Zpos m) e 1 21 = Lt ->
         exists n,
           Number.toFixed x 2 = Number.fixed_digits 2 n
           /\ (2 * n - 1) * 2 ^ Z.max (- e) 0 <= 200 * Zpos m * 2 ^ Z.max e 0
           /\ 200 * Zpos m * 2 ^ Z.max e 0 < (2 * n + 1) * 2 ^ Z.max (- e) 0)
  /\ Number.toString (Number.parseFloat "1.50") = "1.5"
  /\ Number.toString (Number.parseFloat "1.00") = "1"
  /\ (forall s m e,
         Number.shape_of (Math_log rt 1024%float) = Number.Fin s m e ->
         Math_pow rt 1024%float 1%float = 1024%float ->
         formatFileSize rt 1024%float = "1 KB")
  /\ (Number.Math_floor (Math_log rt 1536 / Math_log rt 1024)%float = 1%float ->
      Math_pow rt 1024%float 1%float = 1024%float ->
      formatFileSize rt 1536%float = "1.5 KB").
Proof.
  assert (G : forall bytes i unit,
             (bytes =? 0)%float = false ->
             Number.Math_floor (Math_log rt bytes / Math_log rt 1024)%float
             = Number.of_Z (Z.of_nat i) ->
             nth_error sizes i = Some unit ->
             formatFileSize rt bytes
             = Number.toString
                 (Number.parseFloat
                    (Number.toFixed
                       (bytes / Math_pow rt 1024 (Number.of_Z (Z.of_nat i)))%float 2))
                 ++ " " ++ unit).
  { intros bytes i unit Hz Hi Hu. unfold formatFileSize.
    rewrite Hz, Hi, (array_get_sizes _ _ Hu). reflexivity. }
  split; [reflexivity|]. split; [exact G|].
  split; [|split; [|split; [|split; [|split]]]].
  - intros b Hb Hl Hp.
    pose proof (prints_whole_below_1024 b Hb) as Hw. unfold prints_whole in Hw.
    apply andb_prop in Hw. destruct Hw as [Hz Hw].
    apply negb_true_iff in Hz. apply String.eqb_eq in Hw.
    rewrite (G (Number.of_Z b) 0%nat "Bytes" Hz Hl eq_refl).
    change (Number.of_Z (Z.of_nat 0)) with 0%float. now rewrite Hp, Hw.
  - intros x m e Hx Hlt. exists (Number.scaled_round m e 2).
    split; [|apply scaled_round_nearest].
    unfold Number.toFixed. now rewrite Hx, Hlt.
  - vm_compute. reflexivity.
  - vm_compute. reflexivity.
  - intros s m e Hs Hp.
    assert (Hl : Number.Math_floor (Math_log rt 1024 / Math_log rt 1024)%float
                 = 1%float) by (rewrite (div_self _ _ _ _ Hs); reflexivity).
    rewrite (G 1024%float 1%nat "KB" eq_refl Hl eq_refl).
    change (Number.of_Z (Z.of_nat 1)) with 1%float. rewrite Hp.
    vm_compute. reflexivity.
  - intros Hl Hp.
    rewrite (G 1536%float 1%nat "KB" eq_refl Hl eq_refl).
    change (Number.of_Z (Z.of_nat 1)) with 1%float. rewrite Hp.
    vm_compute. reflexivity.
Qed.

Lemma formatFileSize_units_witness :
  formatFileSize Reference.runtime 1024%float = "1 KB"
  /\ formatFileSize Reference.runtime 1536%float = "1.5 KB"
  /\ formatFileSize Reference.runtime 123456789%float = "117.74 MB".
Proof.
  destruct (formatFileSize_units Reference.runtime)
    as (_ & G & _ & _ & _ & _ & Hk & Hh).
  split; [eapply Hk; vm_compute; reflexivity|].
  split; [apply Hh; vm_compute; reflexivity|].
  rewrite (G 123456789%float 2%nat "MB");
    [vm_compute; reflexivity|reflexivity|vm_compute; reflexivity|reflexivity].
Defined.

(** A byte count of [1024^5]: the index is 5, past the five units. *)
Lemma formatFileSize_counterexample :
  (0 <? 1125899906842624)%float = true
  /\ formatFileSize Reference.runtime 1125899906842624%float = "1 undefined"
  /\ ~ In "undefined" sizes.
Proof.
  split; [reflexivity|]. split; [vm_compute; reflexivity|].
  cbn. intros [H|[H|[H|[H|[H|[]]]]]]; discriminate.
Qed.

(** ** The loop over the items *)

Lemma execute_from_continue rt h items itemIndex returnData :
  continueOnFail h = true ->
  execute_from rt h items itemIndex returnData
  = inr (returnData ++ returned_from rt h items itemIndex)%list.
Proof.
  intros Hc. revert itemIndex returnData.
  induction items as [|item rest IH]; intros itemIndex returnData; cbn.
  - now rewrite app_nil_r.
  - unfold returned. rewrite Hc.
    destruct (process_item rt h item itemIndex) as [e|out];
      rewrite IH, <- app_assoc; reflexivity.
Qed.

Lemma all_succeed_tail rt h item rest itemIndex :
  all_succeed rt h (item :: rest) itemIndex ->
  (exists out, process_item rt h item itemIndex = inr out)
  /\ all_succeed rt h rest (S itemIndex).
Proof.
  intros H. split.
  - destruct (H O item eq_refl) as [out Ho]. rewrite Nat.add_0_r in Ho. eauto.
  - intros k it Hk. destruct (H (S k) it Hk) as [out Ho].
    rewrite Nat.add_succ_r in Ho. eauto.
Qed.

(** Without continue-on-fail, the first failing item ends the loop. *)
Lemma execute_from_abort rt h pre item post itemIndex returnData e :
  continueOnFail h = false ->
  all_succeed rt h pre itemIndex ->
  process_item rt h item (itemIndex + List.length pre) = inl e ->
  execute_from rt h (pre ++ item :: post) itemIndex returnData
  = inl (rethrow h (itemIndex + List.length pre) e).
Proof.
  intros Hc. revert itemIndex returnData.
  induction pre as [|p pre IH]; intros itemIndex returnData Hall He; cbn in *.
  - rewrite Nat.add_0_r in *. now rewrite He, Hc.
  - apply all_succeed_tail in Hall. destruct Hall as [[out Ho] Hall].
    rewrite Ho. rewrite Nat.add_succ_r in *.
    now apply IH.
Qed.

(** A loop that returns has returned, for every item, its output or its
    error item; without continue-on-fail no item failed. *)
Lemma execute_from_inr rt h items itemIndex returnData outs :
  execute_from rt h items itemIndex returnData = inr outs ->
  outs = (returnData ++ returned_from rt h items itemIndex)%list
  /\ (continueOnFail h = false -> all_succeed rt h items itemIndex).
Proof.
  revert itemIndex returnData.
  induction items as [|item rest IH]; intros itemIndex returnData; cbn.
  - intros H. injection H as <-. rewrite app_nil_r. split; auto.
    intros _ k it Hk. destruct k; discriminate.
  - unfold returned.
    destruct (process_item rt h item itemIndex) as [e|out] eqn:E.
    + destruct (continueOnFail h); [|discriminate].
      intros H. apply IH in H. destruct H as [-> _].
      rewrite <- app_assoc. split; [reflexivity|discriminate].
    + intros H. apply IH in H. destruct H as [-> Hall].
      rewrite <- app_assoc. split; [reflexivity|].
      intros Hc k it Hk. destruct k as [|k]; cbn in Hk.
      * injection Hk as <-. rewrite Nat.add_0_r. eauto.
      * rewrite Nat.add_succ_r. apply (Hall Hc k it Hk).
Qed.

Lemma nth_error_returned_from rt h items itemIndex k item :
  nth_error items k = Some item ->
  nth_error (returned_from rt h items itemIndex) k
  = Some (returned rt h item (itemIndex + k)).
Proof.
  revert itemIndex k.
  induction items as [|it rest IH]; intros itemIndex k Hk;
    destruct k as [|k]; cbn in *; try discriminate.
  - injection Hk as <-. now rewrite Nat.add_0_r.
  - rewrite Nat.add_succ_r. now apply IH.
Qed.

Lemma returned_from_app rt h pre post itemIndex :
  returned_from rt h (pre ++ post) itemIndex
  = (returned_from rt h pre itemIndex
       ++ returned_from rt h post (itemIndex + List.length pre))%list.
Proof.
  revert itemIndex. induction pre as [|p pre IH]; intros itemIndex; cbn.
  - now rewrite Nat.add_0_r.
  - now rewrite IH, Nat.add_succ_r.
Qed.

Lemma returned_from_length rt h items itemIndex :
  List.length (returned_from rt h items itemIndex) = List.length items.
Proof.
  revert itemIndex. induction items as [|it rest IH]; intros; cbn; auto.
Qed.

(** ** C8: a failing item *)

(** C8.  When the item at position [length pre] fails with [e]: in
    continue-on-fail mode the loop goes on and returns, at that position,
    the item's json with [error] set to the message and the item's binary
    data, nothing else added; otherwise, the earlier items having
    succeeded, [execute] throws, nothing is returned, and the error
    carries the item's index: it is the error itself, with its message,
    when it has a context, and otherwise the NodeOperationError made of
    its message. *)
Theorem failed_item_policy rt h pre item post e :
  getInputData h = (pre ++ item :: post)%list ->
  process_item rt h item (List.length pre) = inl e ->
  (continueOnFail h = true ->
   execute rt h
   = inr [(returned_from rt h pre 0
             ++ error_item item (List.length pre) e
             :: returned_from rt h post (S (List.length pre)))%list]
   /\ lookup "error" (json (error_item item (List.length pre) e))
      = Some (VStr (message e))
   /\ (forall k, k <> "error" ->
                 lookup k (json (error_item item (List.length pre) e))
                 = lookup k (json item))
   /\ binary (error_item item (List.length pre) e) = binary item)
  /\ (continueOnFail h = false ->
      all_succeed rt h pre 0 ->
      execute rt h = inl (rethrow h (List.length pre) e)
      /\ (forall ctx0, context e = Some ctx0 ->
                       message (rethrow h (List.length pre) e) = message e)
      /\ (context e = None ->
          rethrow h (List.length pre) e
          = NodeOperationError h (message e) (List.length pre))
      /\ exists ctx,
          context (rethrow h (List.length pre) e) = Some ctx
          /\ lookup "itemIndex" ctx
             = Some (VNum (Number.of_Z (Z.of_nat (List.length pre))))).
Proof.
  intros Hin He. split.
  - intros Hc. split; [|split; [|split]].
    + unfold execute. rewrite Hin, (execute_from_continue _ _ _ _ _ Hc).
      cbn [bind ret app]. rewrite returned_from_app. cbn [returned_from].
      change (0 + List.length pre)%nat with (List.length pre).
      unfold returned at 1. now rewrite He.
    + cbn. apply lookup_set_same.
    + intros k Hk. cbn. now apply lookup_set_other.
    + reflexivity.
  - intros Hc Hall. split; [|split; [|split]].
    + unfold execute. rewrite Hin.
      now rewrite (execute_from_abort _ _ _ _ _ 0 [] e Hc Hall He).
    + intros ctx0 Hctx. unfold rethrow. now rewrite Hctx.
    + intros Hctx. unfold rethrow. now rewrite Hctx.
    + unfold rethrow, NodeOperationError.
      destruct (context e) as [ctx|]; cbn [context];
        (eexists; split; [reflexivity|apply lookup_set_same]).
Qed.

Lemma failed_item_policy_witness :
  (exists o0 o2 e,
      execute Reference.runtime
        (sample_host [sample_item; thumb_item; sample_item] (ret bare_exif)
           true true)
      = inr [[o0; error_item thumb_item 1 e; o2]]
      /\ message e = "No binary data found in property " ++ quote ++ "data" ++ quote
      /\ lookup "error" (json (error_item thumb_item 1 e)) = Some (VStr (message e))
      /\ lookup "exif" (json (error_item thumb_item 1 e)) = None
      /\ binary (error_item thumb_item 1 e) = Some [("thumb", sample_binary)])
  /\ (exists err ctx,
         execute Reference.runtime
           (sample_host [sample_item; thumb_item; sample_item] (ret bare_exif)
              true false)
         = inl err
         /\ message err
            = "No binary data found in property " ++ quote ++ "data" ++ quote
         /\ context err = Some ctx
         /\ lookup "itemIndex" ctx = Some (VNum 1%float))
  /\ (exists err ctx,
         execute Reference.runtime
           (url_host [plain_item] "http://127.0.0.1/a.jpg"
              (throw (EngineError "connect ECONNREFUSED 127.0.0.1:80"))
              (ret bare_exif))
         = inl err
         /\ message err
            = "The service refused the connection - perhaps it is offline"
         /\ context err = Some ctx
         /\ lookup "itemIndex" ctx = Some (VNum 0%float)).
Proof.
  pose (e := NodeOperationError
               (sample_host [sample_item; thumb_item; sample_item]
                  (ret bare_exif) true true)
               ("No binary data found in property " ++ quote ++ "data" ++ quote) 1).
  split; [|split].
  - destruct (failed_item_policy Reference.runtime
                (sample_host [sample_item; thumb_item; sample_item]
                   (ret bare_exif) true true)
                [sample_item] thumb_item [sample_item] e eq_refl eq_refl)
      as [Hcont _].
    destruct (Hcont eq_refl) as (Hex & Herr & Hother & Hbin).
    eexists. eexists. exists e.
    split; [rewrite Hex; vm_compute; reflexivity|].
    split; [vm_compute; reflexivity|]. split; [exact Herr|].
    split; [rewrite Hother by discriminate; reflexivity|exact Hbin].
  - destruct (failed_item_policy Reference.runtime
                (sample_host [sample_item; thumb_item; sample_item]
                   (ret bare_exif) true false)
                [sample_item] thumb_item [sample_item] e eq_refl eq_refl)
      as [_ Habort].
    assert (Hall : all_succeed Reference.runtime
                     (sample_host [sample_item; thumb_item; sample_item]
                        (ret bare_exif) true false) [sample_item] 0).
    { intros k it Hk. destruct k as [|k]; [|destruct k; discriminate].
      injection Hk as <-. eexists. vm_compute. reflexivity. }
    destruct (Habort eq_refl Hall) as (Hex & Hmsg & _ & ctx & Hctx & Hidx).
    eexists. exists ctx.
    split; [exact Hex|].
    split; [rewrite (Hmsg _ eq_refl); vm_compute; reflexivity|].
    split; [exact Hctx|exact Hidx].
  - destruct (failed_item_policy Reference.runtime
                (url_host [plain_item] "http://127.0.0.1/a.jpg"
                   (throw (EngineError "connect ECONNREFUSED 127.0.0.1:80"))
                   (ret bare_exif))
                [] plain_item []
                (EngineError "connect ECONNREFUSED 127.0.0.1:80")
                eq_refl eq_refl)
      as [_ Habort].
    assert (Hall : all_succeed Reference.runtime
                     (url_host [plain_item] "http://127.0.0.1/a.jpg"
                        (throw (EngineError "connect ECONNREFUSED 127.0.0.1:80"))
                        (ret bare_exif)) [] 0).
    { intros k it Hk. destruct k; discriminate. }
    destruct (Habort eq_refl Hall) as (Hex & _ & Hnew & ctx & Hctx & Hidx).
    eexists. exists ctx.
    split; [exact Hex|].
    split; [rewrite (Hnew eq_refl); vm_compute; reflexivity|].
    split; [exact Hctx|exact Hidx].
Defined.

(** ** C9: the merge under the output key *)

(** C9.  For every successfully processed item, the json of the output
    item is the json of the input item with the structured record
    assigned to the configured output key: that key holds the record and
    every other field is as in the input. *)
Theorem output_item_merge rt h item itemIndex out :
  process_item rt h item itemIndex = inr out ->
  exists key s,
    getNodeParameter_string h "outputProperty" itemIndex = inr key
    /\ (exists name fileSize d includeGps includeImageSize convertTimestamps,
           structuredExif rt name fileSize d includeGps includeImageSize
             convertTimestamps = inr s)
    /\ json out = set key (VObj s) (json item)
    /\ lookup key (json out) = Some (VObj s)
    /\ (forall k, k <> key -> lookup k (json out) = lookup k (json item)).
Proof.
  intros H.
  destruct (process_item_inv _ _ _ _ _ H)
    as (key & ig & iis & ct & buffer & d & name & s & Hk & _ & _ & _ & _ & Hs & ->).
  exists key, s. cbn [json].
  split; [exact Hk|]. split; [eauto 10|]. split; [reflexivity|].
  split; [apply lookup_set_same|].
  intros k Hne. now apply lookup_set_other.
Qed.

Lemma output_item_merge_witness :
  exists out s,
    process_item Reference.runtime
      (sample_host [sample_item] (ret bare_exif) true false) sample_item 0
    = inr out
    /\ lookup "exif" (json out) = Some (VObj s)
    /\ lookup "id" (json out) = Some (VNum 7%float).
Proof.
  destruct (process_item Reference.runtime
              (sample_host [sample_item] (ret bare_exif) true false)
              sample_item 0) as [e|out] eqn:E; [vm_compute in E; discriminate|].
  destruct (output_item_merge _ _ _ _ _ E) as (key & s & Hk & _ & _ & Hl & Hother).
  cbn in Hk. injection Hk as <-.
  exists out, s. split; [reflexivity|]. split; [exact Hl|].
  rewrite Hother by discriminate. reflexivity.
Defined.

(** ** C10: binary data *)

(** C10.  A successfully processed item is returned without binary data,
    whatever the input item carried; in what [execute] returns, the item
    at each position has no binary data when the input item was processed
    successfully, and otherwise (which takes continue-on-fail mode) it has
    the binary data of the input item. *)
Theorem binary_only_on_error rt h :
  (forall item itemIndex out,
      process_item rt h item itemIndex = inr out -> binary out = None)
  /\ (forall outs k item,
         execute rt h = inr [outs] ->
         nth_error (getInputData h) k = Some item ->
         exists out,
           nth_error outs k = Some out
           /\ match process_item rt h item k with
              | inr _ => binary out = None
              | inl _ => continueOnFail h = true /\ binary out = binary item
              end).
Proof.
  assert (G : forall item itemIndex out,
             process_item rt h item itemIndex = inr out -> binary out = None).
  { intros item itemIndex out H.
    destruct (process_item_inv _ _ _ _ _ H)
      as (key & ig & iis & ct & buffer & d & name & s & _ & _ & _ & _ & _ & _ & ->).
    reflexivity. }
  split; [exact G|].
  intros outs k item Hex Hk. unfold execute in Hex.
  destruct (execute_from rt h (getInputData h) 0 []) as [e|outs'] eqn:E;
    [discriminate|].
  cbn in Hex. injection Hex as <-.
  destruct (execute_from_inr _ _ _ _ _ _ E) as [-> Hall].
  cbn [app]. rewrite (nth_error_returned_from _ _ _ _ _ _ Hk).
  cbn [Nat.add]. eexists. split; [reflexivity|].
  unfold returned.
  destruct (process_item rt h item k) as [e|out] eqn:Ep.
  - split; [|reflexivity].
    destruct (continueOnFail h); [reflexivity|].
    destruct (Hall eq_refl k item Hk) as [out Ho].
    cbn [Nat.add] in Ho. congruence.
  - now apply (G item k).
Qed.

Lemma binary_only_on_error_witness :
  exists o0 e1 o2,
    execute Reference.runtime
      (sample_host [sample_item; thumb_item; sample_item] (ret bare_exif)
         true true)
    = inr [[o0; e1; o2]]
    /\ binary sample_item = Some [("data", sample_binary)]
    /\ binary o0 = None
    /\ binary e1 = Some [("thumb", sample_binary)]
    /\ binary o2 = None.
Proof.
  destruct (execute Reference.runtime
              (sample_host [sample_item; thumb_item; sample_item]
                 (ret bare_exif) true true)) as [e|outs] eqn:E;
    [vm_compute in E; discriminate|].
  destruct outs as [|outs [|]]; try (vm_compute in E; discriminate).
  destruct (binary_only_on_error Reference.runtime
              (sample_host [sample_item; thumb_item; sample_item]
                 (ret bare_exif) true true)) as [_ H].
  destruct (H outs 0%nat sample_item E eq_refl) as (o0 & H0 & B0).
  destruct (H outs 1%nat thumb_item E eq_refl) as (e1 & H1 & B1).
  destruct (H outs 2%nat sample_item E eq_refl) as (o2 & H2 & B2).
  destruct outs as [|a [|b [|c [|]]]]; try (vm_compute in E; discriminate).
  cbn in H0, H1, H2. injection H0 as ->. injection H1 as ->. injection H2 as ->.
  exists o0, e1, o2. split; [reflexivity|]. split; [reflexivity|].
  split; [exact B0|]. split; [exact (proj2 B1)|exact B2].
Defined.

(** * Further properties of the structured record *)

(** ** The cleanup pass as a filter, and the order of the keys *)

Lemma lookup_app_fresh (k : string) (a b : object) :
  ~ In k (keys a) -> lookup k (a ++ b)%list = lookup k b.
Proof.
  induction a as [|[k' v'] r IH]; cbn; auto.
  intros Hn. cbn in Hn. destruct (String.eqb k k') eqn:E.
  - apply String.eqb_eq in E. subst k'. tauto.
  - apply IH. tauto.
Qed.

Lemma delete_fresh (k : string) (o : object) :
  ~ In k (keys o) -> delete k o = o.
Proof.
  induction o as [|[k' v'] r IH]; cbn; auto.
  intros Hn. cbn in Hn. destruct (String.eqb k k') eqn:E.
  - apply String.eqb_eq in E. subst k'. tauto.
  - f_equal. apply IH. tauto.
Qed.

Lemma delete_app_fresh (k : string) (a b : object) :
  ~ In k (keys a) -> delete k (a ++ b)%list = (a ++ delete k b)%list.
Proof.
  induction a as [|[k' v'] r IH]; cbn; auto.
  intros Hn. cbn in Hn. destruct (String.eqb k k') eqn:E.
  - apply String.eqb_eq in E. subst k'. tauto.
  - f_equal. apply IH. tauto.
Qed.

Lemma keys_app (a b : object) : keys (a ++ b)%list = (keys a ++ keys b)%list.
Proof. apply map_app. Qed.

(** The cleanup pass, on an object without repeated keys, is a filter. *)
Lemma cleanup_fold_filter (todo done : object) :
  NoDup (keys (done ++ todo)%list) ->
  fold_left
    (fun acc key => if is_empty_object (get key acc) then delete key acc else acc)
    (keys todo) (done ++ todo)%list
  = (done ++ filter nonempty todo)%list.
Proof.
  revert done. induction todo as [|[k v] r IH]; intros done Hnd; cbn.
  - reflexivity.
  - rewrite keys_app in Hnd. cbn in Hnd.
    assert (Hk : ~ In k (keys done) /\ ~ In k (keys r)).
    { apply NoDup_remove_2 in Hnd. rewrite in_app_iff in Hnd. tauto. }
    destruct Hk as [Hd Hr].
    assert (Hg : get k (done ++ (k, v) :: r)%list = v).
    { unfold get. rewrite lookup_app_fresh by exact Hd. cbn.
      now rewrite String.eqb_refl. }
    rewrite Hg. unfold nonempty at 1. cbn [snd].
    destruct (is_empty_object v); cbn [negb].
    + rewrite delete_app_fresh by exact Hd. cbn. rewrite String.eqb_refl.
      rewrite delete_fresh by exact Hr. apply IH.
      rewrite keys_app. now apply NoDup_remove_1 in Hnd.
    + change (done ++ (k, v) :: r)%list with (done ++ [(k, v)] ++ r)%list.
      rewrite app_assoc. rewrite IH.
      * now rewrite <- app_assoc.
      * rewrite <- app_assoc. now rewrite keys_app.
Qed.

Lemma cleanup_filter (o : object) :
  NoDup (keys o) -> cleanup o = filter nonempty o.
Proof. intros H. exact (cleanup_fold_filter o [] H). Qed.

Lemma lookup_filter_nonempty (k : string) (o : object) :
  NoDup (keys o) -> lookup k (filter nonempty o) = kept (lookup k o).
Proof.
  intros H. rewrite <- cleanup_filter by exact H. apply lookup_cleanup.
Qed.

Lemma lookup_fresh (k : string) (o : object) :
  ~ In k (keys o) -> lookup k o = None.
Proof.
  induction o as [|[k' v'] r IH]; cbn; auto.
  intros Hn. cbn in Hn. destruct (String.eqb k k') eqn:E.
  - apply String.eqb_eq in E. subst k'. tauto.
  - apply IH. tauto.
Qed.

Lemma keys_filter_nonempty (o : object) :
  NoDup (keys o) ->
  keys (filter nonempty o)
  = filter (fun k => has k (filter nonempty o)) (keys o).
Proof.
  induction o as [|[k v] r IH]; intros Hnd; [reflexivity|].
  cbn in Hnd. pose proof (NoDup_cons_iff k (keys r)) as [Hc _].
  destruct (Hc Hnd) as [Hk Hr]. clear Hc.
  change (keys ((k, v) :: r)) with (k :: keys r).
  remember (filter nonempty ((k, v) :: r)) as F eqn:EF.
  assert (Hrest : forall x, In x (keys r) ->
            has x F = has x (filter nonempty r)).
  { intros x Hx. subst F. unfold has. cbn [filter].
    destruct (nonempty (k, v)); auto.
    cbn [lookup]. destruct (String.eqb x k) eqn:E; auto.
    apply String.eqb_eq in E. subst x. tauto. }
  cbn [filter]. rewrite (filter_ext_in _ _ _ Hrest), <- (IH Hr).
  assert (Hk' : has k F = nonempty (k, v)).
  { subst F. unfold has. cbn [filter]. destruct (nonempty (k, v)).
    - cbn [lookup]. now rewrite String.eqb_refl.
    - rewrite lookup_filter_nonempty by exact Hr.
      now rewrite (lookup_fresh k r Hk). }
  rewrite Hk'. subst F. cbn [filter]. destruct (nonempty (k, v)); reflexivity.
Qed.

Lemma NoDup_keys_filter (f : string * value -> bool) (o : object) :
  NoDup (keys o) -> NoDup (keys (filter f o)).
Proof.
  induction o as [|[k v] r IH]; intros Hnd; [constructor|].
  cbn in Hnd. apply NoDup_cons_iff in Hnd. destruct Hnd as [Hk Hr].
  cbn [filter]. destruct (f (k, v)); [|auto].
  cbn. constructor; [|auto].
  intros Hin. apply Hk. unfold keys in *. apply in_map_iff in Hin.
  destruct Hin as [[k' v'] [E Hin]]. cbn in E. subst k'.
  apply filter_In in Hin. apply in_map_iff. exists (k, v'). tauto.
Qed.

Lemma frame_keys fi img cam lens expo gps ts raw :
  keys (frame fi img cam lens expo gps ts raw) = group_order.
Proof. reflexivity. Qed.

Lemma NoDup_group_order : NoDup group_order.
Proof.
  unfold group_order.
  repeat (constructor; [cbn; intuition discriminate|]). constructor.
Qed.

(** The structured record is its frame without the empty objects. *)
Lemma structuredExif_filter rt name fileSize d includeGps includeImageSize
  convertTimestamps s :
  structuredExif rt name fileSize d includeGps includeImageSize convertTimestamps
  = inr s ->
  exists ts,
    timestamp_of rt convertTimestamps d = inr ts
    /\ s = filter nonempty
             (frame (fileInfo_value rt name fileSize)
                (imageSize_value includeImageSize d)
                (camera_of d) (lens_of d) (exposure_of d)
                (gps_of includeGps d) ts (value_of_ExifData d)).
Proof.
  rewrite structuredExif_closed.
  destruct (timestamp_of rt convertTimestamps d) as [e|ts]; cbn [bind ret];
    [discriminate|].
  intros H. injection H as <-. exists ts. split; [reflexivity|].
  apply cleanup_filter. rewrite frame_keys. apply NoDup_group_order.
Qed.

(** X1.  The keys of a structured record are distinct, are among
    fileInfo, imageSize, camera, lens, exposure, gps, timestamp and raw,
    and come in that order. *)
Theorem record_key_order rt name fileSize d includeGps includeImageSize
  convertTimestamps s :
  structuredExif rt name fileSize d includeGps includeImageSize convertTimestamps
  = inr s ->
  keys s = filter (fun k => has k s) group_order
  /\ NoDup (keys s)
  /\ (forall k, has k s = true -> In k group_order).
Proof.
  intros Hs. destruct (structuredExif_filter _ _ _ _ _ _ _ _ Hs) as (ts & _ & ->).
  pose proof NoDup_group_order as Hnd.
  split; [|split].
  - rewrite keys_filter_nonempty by (rewrite frame_keys; exact Hnd).
    now rewrite frame_keys.
  - apply NoDup_keys_filter. rewrite frame_keys. exact Hnd.
  - intros k Hk. unfold has in Hk.
    destruct (lookup k (filter nonempty _)) as [v|] eqn:L; [|discriminate].
    apply lookup_in_keys in L.
    rewrite keys_filter_nonempty in L by (rewrite frame_keys; exact Hnd).
    apply filter_In in L. rewrite frame_keys in L. tauto.
Qed.

Lemma record_key_order_witness :
  exists s,
    structuredExif Reference.runtime "photo.jpg" 4%float bare_exif true true true
    = inr s
    /\ keys s = ["fileInfo"; "imageSize"; "gps"; "timestamp"; "raw"].
Proof.
  destruct (structuredExif Reference.runtime "photo.jpg" 4%float bare_exif
              true true true) as [e|s] eqn:E; [vm_compute in E; discriminate|].
  destruct (record_key_order _ _ _ _ _ _ _ _ E) as (Hk & _ & _).
  exists s. split; [reflexivity|]. rewrite Hk.
  vm_compute in E. injection E as <-. reflexivity.
Defined.

(** ** cleanup *)

(** X2.  The cleanup pass removes exactly the properties whose
    value is an empty plain object and leaves every other property (null,
    an empty array, a non-empty object) with its value; so no property of
    a structured record is an empty object. *)
Theorem cleanup_drops_empty_objects :
  (forall (o : object) (k : string),
      lookup k (cleanup o)
      = match lookup k o with
        | Some (VObj []) => None
        | other => other
        end)
  /\ (forall rt name fileSize d includeGps includeImageSize convertTimestamps s
        k v,
         structuredExif rt name fileSize d includeGps includeImageSize
           convertTimestamps = inr s ->
         lookup k s = Some v -> v <> VObj []).
Proof.
  split.
  - intros o k. rewrite lookup_cleanup. unfold kept.
    destruct (lookup k o) as [[| | | | | |[|p r]]|]; reflexivity.
  - intros rt name fileSize d ig iis ct s k v Hs Hl ->.
    rewrite structuredExif_closed in Hs.
    destruct (timestamp_of rt ct d) as [e|ts]; cbn [bind ret] in Hs;
      [discriminate|].
    injection Hs as <-. rewrite lookup_cleanup in Hl. unfold kept in Hl.
    destruct (lookup k _) as [[| | | | | |[|p r]]|]; discriminate.
Qed.

Lemma cleanup_drops_empty_objects_witness :
  lookup "camera"
    (cleanup [("camera", VObj []); ("gps", VNull); ("list", VArr [])]) = None
  /\ lookup "gps"
       (cleanup [("camera", VObj []); ("gps", VNull); ("list", VArr [])])
     = Some VNull
  /\ lookup "list"
       (cleanup [("camera", VObj []); ("gps", VNull); ("list", VArr [])])
     = Some (VArr []).
Proof.
  destruct cleanup_drops_empty_objects as [H _].
  rewrite !H. repeat split.
Defined.

(** ** Image size *)

(** X3.  Whatever the tags, the record has imageSize: the width and
    height the decoder reported when image sizes are included and the
    decoder reported a size, null otherwise. *)
Theorem image_size_flag rt name fileSize d includeGps includeImageSize
  convertTimestamps s :
  structuredExif rt name fileSize d includeGps includeImageSize convertTimestamps
  = inr s ->
  (forall sz, includeImageSize = true -> imageSize d = Some sz ->
              lookup "imageSize" s
              = Some (VObj [("width", VNum (width sz));
                            ("height", VNum (height sz))]))
  /\ (includeImageSize = false \/ imageSize d = None ->
      lookup "imageSize" s = Some VNull).
Proof.
  intros Hs.
  destruct (structuredExif_lookup _ _ _ _ _ _ _ _ Hs)
    as (ts & _ & _ & Himg & _).
  rewrite Himg. unfold imageSize_value. split.
  - intros sz -> ->. reflexivity.
  - intros [->| ->]; [destruct (imageSize d)|]; reflexivity.
Qed.

Lemma image_size_flag_witness :
  (exists s,
      structuredExif Reference.runtime "photo.jpg" 4%float
        (exif_of gear_tags) true true true = inr s
      /\ lookup "imageSize" s = Some VNull)
  /\ (exists s,
         structuredExif Reference.runtime "photo.jpg" 4%float bare_exif
           true false true = inr s
         /\ lookup "imageSize" s = Some VNull)
  /\ (exists s,
         structuredExif Reference.runtime "photo.jpg" 4%float bare_exif
           true true true = inr s
         /\ lookup "imageSize" s
            = Some (VObj [("width", VNum 4000%float);
                          ("height", VNum 3000%float)])).
Proof.
  split; [|split].
  - destruct (structuredExif Reference.runtime "photo.jpg" 4%float
                (exif_of gear_tags) true true true) as [e|s] eqn:E;
      [vm_compute in E; discriminate|].
    exists s. split; [reflexivity|].
    apply (proj2 (image_size_flag _ _ _ _ _ _ _ _ E)). right. reflexivity.
  - destruct (structuredExif Reference.runtime "photo.jpg" 4%float bare_exif
                true false true) as [e|s] eqn:E;
      [vm_compute in E; discriminate|].
    exists s. split; [reflexivity|].
    apply (proj2 (image_size_flag _ _ _ _ _ _ _ _ E)). left. reflexivity.
  - destruct (structuredExif Reference.runtime "photo.jpg" 4%float bare_exif
                true true true) as [e|s] eqn:E;
      [vm_compute in E; discriminate|].
    exists s. split; [reflexivity|].
    exact (proj1 (image_size_flag _ _ _ _ _ _ _ _ E)
             {| width := 4000%float; height := 3000%float |} eq_refl eq_refl).
Defined.

(** ** The camera, lens and exposure groups *)

Lemma lookup_if_str_same k (tag : option string) (f : string -> value) c :
  lookup k (if_str tag (fun v => set k (f v)) c)
  = match tag with
    | Some v => if present_str tag then Some (f v) else lookup k c
    | None => lookup k c
    end.
Proof.
  destruct tag as [v|]; cbn [if_str ToBoolean present_str]; auto.
  destruct (negb (String.eqb v EmptyString)); auto using lookup_set_same.
Qed.

Lemma group_absent (c : object) :
  kept (Some (VObj c)) = None <-> forall k, lookup k c = None.
Proof.
  destruct c as [|[k v] r]; cbn; split; auto; try discriminate.
  intros H. specialize (H k). cbn in H. now rewrite String.eqb_refl in H.
Qed.

Lemma group_present (c : object) (g : option value) (c' : object) :
  g = kept (Some (VObj c)) -> g = Some (VObj c') -> c' = c.
Proof.
  intros -> H. destruct c; cbn in H; [discriminate|]. now injection H.
Qed.

Lemma group_cases (c : object) :
  kept (Some (VObj c)) = None \/ kept (Some (VObj c)) = Some (VObj c).
Proof. destruct c; cbn; auto. Qed.

Lemma shown_str_none (o : option string) :
  shown_str o = None <-> present_str o = false.
Proof.
  destruct o as [r|]; cbn; [|tauto].
  destruct (negb (String.eqb r EmptyString)); split; auto; discriminate.
Qed.

Lemma shown_num_none f (o : option Number.number) :
  shown_num f o = None <-> present_num o = false.
Proof.
  destruct o as [x|]; cbn; [|tauto].
  destruct (Number.truthy x); split; auto; discriminate.
Qed.

Lemma camera_lookups (d : ExifData) :
  lookup "make" (camera_of d) = shown_str (tag Make d)
  /\ lookup "model" (camera_of d) = shown_str (tag Model d)
  /\ lookup "software" (camera_of d) = shown_str (tag Software d)
  /\ (forall k, k <> "make" -> k <> "model" -> k <> "software" ->
                lookup k (camera_of d) = None).
Proof.
  unfold camera_of, tag. destruct (tags d) as [t|]; [|repeat split].
  unfold camera_fields, shown_str.
  split; [|split; [|split]].
  - rewrite !lookup_if_str_other by discriminate.
    rewrite lookup_if_str_same.
    destruct (Make t) as [v|]; [destruct (present_str (Some v))|]; reflexivity.
  - rewrite lookup_if_str_other by discriminate.
    rewrite lookup_if_str_same.
    destruct (Model t) as [v|]; [destruct (present_str (Some v))|];
      rewrite ?lookup_if_str_other by discriminate; reflexivity.
  - rewrite lookup_if_str_same.
    destruct (Software t) as [v|]; [destruct (present_str (Some v))|];
      rewrite ?lookup_if_str_other by discriminate; reflexivity.
  - intros k H1 H2 H3. now rewrite !lookup_if_str_other by assumption.
Qed.

(** X4.  The camera group is absent exactly when none of Make, Model
    and Software is present (defined and not empty); otherwise it is an
    object holding make, model and software for the present ones, as they
    are, and nothing else. *)
Theorem camera_group rt name fileSize d includeGps includeImageSize
  convertTimestamps s :
  structuredExif rt name fileSize d includeGps includeImageSize convertTimestamps
  = inr s ->
  (lookup "camera" s = None
   <-> present_str (tag Make d) = false
       /\ present_str (tag Model d) = false
       /\ present_str (tag Software d) = false)
  /\ (lookup "camera" s = None \/ exists c, lookup "camera" s = Some (VObj c))
  /\ (forall c, lookup "camera" s = Some (VObj c) ->
        lookup "make" c = shown_str (tag Make d)
        /\ lookup "model" c = shown_str (tag Model d)
        /\ lookup "software" c = shown_str (tag Software d)
        /\ (forall k, k <> "make" -> k <> "model" -> k <> "software" ->
                      lookup k c = None)).
Proof.
  intros Hs.
  destruct (structuredExif_lookup _ _ _ _ _ _ _ _ Hs)
    as (ts & _ & _ & _ & Hcam & _).
  destruct (camera_lookups d) as (H1 & H2 & H3 & H4).
  split; [|split].
  - rewrite Hcam, group_absent, <- !shown_str_none, <- H1, <- H2, <- H3.
    split; [auto|]. intros (A & B & C) k.
    destruct (string_dec k "make") as [->|N1]; auto.
    destruct (string_dec k "model") as [->|N2]; auto.
    destruct (string_dec k "software") as [->|N3]; auto.
  - rewrite Hcam. destruct (group_cases (camera_of d)); eauto.
  - intros c Hc. rewrite (group_present _ _ _ Hcam Hc). auto.
Qed.

Lemma camera_group_witness :
  exists s c,
    structuredExif Reference.runtime "photo.jpg" 4%float (exif_of gear_tags)
      true true true = inr s
    /\ lookup "camera" s = Some (VObj c)
    /\ lookup "make" c = Some (VStr "Canon")
    /\ lookup "model" c = Some (VStr "EOS R5")
    /\ lookup "software" c = None.
Proof.
  destruct (structuredExif Reference.runtime "photo.jpg" 4%float
              (exif_of gear_tags) true true true) as [e|s] eqn:E;
    [vm_compute in E; discriminate|].
  destruct (camera_group _ _ _ _ _ _ _ _ E) as (Hiff & [Hn|[c Hc]] & Hf).
  - apply Hiff in Hn. destruct Hn as [Hn _]. discriminate Hn.
  - destruct (Hf c Hc) as (H1 & H2 & H3 & _). exists s, c.
    split; [reflexivity|]. split; [exact Hc|].
    split; [exact H1|]. split; [exact H2|exact H3].
Defined.

Lemma lens_lookups (d : ExifData) :
  lookup "model" (lens_of d) = shown_str (tag LensModel d)
  /\ lookup "make" (lens_of d) = shown_str (tag LensMake d)
  /\ lookup "focalLength" (lens_of d)
     = shown_num (fun x => VStr (Number.toString x ++ "mm")) (tag FocalLength d)
  /\ (forall k, k <> "model" -> k <> "make" -> k <> "focalLength" ->
                lookup k (lens_of d) = None).
Proof.
  unfold lens_of, tag. destruct (tags d) as [t|]; [|repeat split].
  unfold lens_fields, shown_str, shown_num.
  split; [|split; [|split]].
  - rewrite lookup_if_num_other, lookup_if_str_other by discriminate.
    rewrite lookup_if_str_same.
    destruct (LensModel t) as [v|]; [destruct (present_str (Some v))|];
      reflexivity.
  - rewrite lookup_if_num_other by discriminate.
    rewrite lookup_if_str_same.
    destruct (LensMake t) as [v|]; [destruct (present_str (Some v))|];
      rewrite ?lookup_if_str_other by discriminate; reflexivity.
  - rewrite lookup_if_num_same.
    destruct (FocalLength t) as [x|]; cbn [present_num];
      [destruct (Number.truthy x)|];
      rewrite ?lookup_if_str_other by discriminate; reflexivity.
  - intros k H1 H2 H3.
    now rewrite lookup_if_num_other, !lookup_if_str_other by assumption.
Qed.

(** X5.  The lens group is absent exactly when none of LensModel,
    LensMake and FocalLength is present; otherwise it holds model and make
    as they are, focalLength as the number printed and followed by mm, and
    nothing else. *)
Theorem lens_group rt name fileSize d includeGps includeImageSize
  convertTimestamps s :
  structuredExif rt name fileSize d includeGps includeImageSize convertTimestamps
  = inr s ->
  (lookup "lens" s = None
   <-> present_str (tag LensModel d) = false
       /\ present_str (tag LensMake d) = false
       /\ present_num (tag FocalLength d) = false)
  /\ (lookup "lens" s = None \/ exists c, lookup "lens" s = Some (VObj c))
  /\ (forall c, lookup "lens" s = Some (VObj c) ->
        lookup "model" c = shown_str (tag LensModel d)
        /\ lookup "make" c = shown_str (tag LensMake d)
        /\ lookup "focalLength" c
           = shown_num (fun x => VStr (Number.toString x ++ "mm"))
               (tag FocalLength d)
        /\ (forall k, k <> "model" -> k <> "make" -> k <> "focalLength" ->
                      lookup k c = None)).
Proof.
  intros Hs.
  destruct (structuredExif_lookup _ _ _ _ _ _ _ _ Hs)
    as (ts & _ & _ & _ & _ & Hlens & _).
  destruct (lens_lookups d) as (H1 & H2 & H3 & H4).
  split; [|split].
  - rewrite Hlens, group_absent, <- !shown_str_none.
    rewrite <- (shown_num_none (fun x => VStr (Number.toString x ++ "mm"))).
    rewrite <- H1, <- H2, <- H3.
    split; [auto|]. intros (A & B & C) k.
    destruct (string_dec k "model") as [->|N1]; auto.
    destruct (string_dec k "make") as [->|N2]; auto.
    destruct (string_dec k "focalLength") as [->|N3]; auto.
  - rewrite Hlens. destruct (group_cases (lens_of d)); eauto.
  - intros c Hc. rewrite (group_present _ _ _ Hlens Hc). auto.
Qed.

Lemma lens_group_witness :
  exists s c,
    structuredExif Reference.runtime "photo.jpg" 4%float (exif_of gear_tags)
      true true true = inr s
    /\ lookup "lens" s = Some (VObj c)
    /\ lookup "model" c = Some (VStr "RF24-70mm F2.8")
    /\ lookup "make" c = None
    /\ lookup "focalLength" c = Some (VStr "50mm").
Proof.
  destruct (structuredExif Reference.runtime "photo.jpg" 4%float
              (exif_of gear_tags) true true true) as [e|s] eqn:E;
    [vm_compute in E; discriminate|].
  destruct (lens_group _ _ _ _ _ _ _ _ E) as (Hiff & [Hn|[c Hc]] & Hf).
  - apply Hiff in Hn. destruct Hn as [Hn _]. discriminate Hn.
  - destruct (Hf c Hc) as (H1 & H2 & H3 & _). exists s, c.
    split; [reflexivity|]. split; [exact Hc|].
    split; [exact H1|]. split; [exact H2|].
    rewrite H3. vm_compute. reflexivity.
Defined.

Lemma eqb_one (x : float) : (x =? 1)%float = true <-> x = 1%float.
Proof.
  rewrite (eqb_finite_iff x 1 4503599627370496 (0 - 52) eq_refl). split.
  - intros H. apply FloatAxioms.Prim2SF_inj. rewrite H. reflexivity.
  - intros ->. reflexivity.
Qed.

Lemma exposure_lookups (d : ExifData) :
  lookup "shutterSpeed" (exposure_of d)
  = shown_num (fun x => VStr (shutterSpeed x)) (tag ExposureTime d)
  /\ lookup "aperture" (exposure_of d)
     = shown_num (fun x => VStr ("f/" ++ Number.toString x)) (tag FNumber d)
  /\ lookup "iso" (exposure_of d) = shown_num VNum (tag ISO d)
  /\ lookup "mode" (exposure_of d)
     = option_map (fun x => VStr (mode x)) (tag ExposureMode d)
  /\ lookup "flash" (exposure_of d)
     = option_map (fun x => VStr (flash x)) (tag Flash d)
  /\ (forall k, k <> "shutterSpeed" -> k <> "aperture" -> k <> "iso" ->
                k <> "mode" -> k <> "flash" ->
                lookup k (exposure_of d) = None).
Proof.
  unfold exposure_of, tag. destruct (tags d) as [t|]; [|repeat split].
  split; [|split; [|split; [|split; [|split]]]].
  - rewrite exposure_shutterSpeed. unfold shown_num, present_num.
    destruct (ExposureTime t); reflexivity.
  - unfold exposure_fields, shown_num.
    rewrite !lookup_if_defined_other, lookup_if_num_other by discriminate.
    rewrite lookup_if_num_same.
    destruct (FNumber t) as [x|]; cbn [present_num];
      [destruct (Number.truthy x)|];
      rewrite ?lookup_if_num_other by discriminate; reflexivity.
  - unfold exposure_fields, shown_num.
    rewrite !lookup_if_defined_other by discriminate.
    rewrite lookup_if_num_same.
    destruct (ISO t) as [x|]; cbn [present_num];
      [destruct (Number.truthy x)|];
      rewrite ?lookup_if_num_other by discriminate; reflexivity.
  - rewrite exposure_mode. destruct (ExposureMode t); reflexivity.
  - unfold exposure_fields. rewrite lookup_if_defined_same.
    destruct (Flash t) as [x|]; [reflexivity|].
    now rewrite lookup_if_defined_other, !lookup_if_num_other by discriminate.
  - intros k H1 H2 H3 H4 H5. unfold exposure_fields.
    now rewrite !lookup_if_defined_other, !lookup_if_num_other by assumption.
Qed.

Lemma option_map_none {A B} (f : A -> B) (o : option A) :
  option_map f o = None <-> o = None.
Proof. destruct o; cbn; split; auto; discriminate. Qed.

(** X6.  The exposure group is absent exactly when ExposureTime,
    FNumber and ISO are not present and ExposureMode and Flash are
    undefined; otherwise it holds aperture as f/ followed by the number
    printed, iso as the number itself, flash as Fired when Flash is 1 and
    as Did not fire for every other defined value, and no key besides
    shutterSpeed, aperture, iso, mode and flash. *)
Theorem exposure_group rt name fileSize d includeGps includeImageSize
  convertTimestamps s :
  structuredExif rt name fileSize d includeGps includeImageSize convertTimestamps
  = inr s ->
  (lookup "exposure" s = None
   <-> present_num (tag ExposureTime d) = false
       /\ present_num (tag FNumber d) = false
       /\ present_num (tag ISO d) = false
       /\ tag ExposureMode d = None
       /\ tag Flash d = None)
  /\ (lookup "exposure" s = None \/ exists c, lookup "exposure" s = Some (VObj c))
  /\ (forall c, lookup "exposure" s = Some (VObj c) ->
        lookup "aperture" c
        = shown_num (fun x => VStr ("f/" ++ Number.toString x)) (tag FNumber d)
        /\ lookup "iso" c = shown_num VNum (tag ISO d)
        /\ (tag Flash d = Some 1%float ->
            lookup "flash" c = Some (VStr "Fired"))
        /\ (forall x, tag Flash d = Some x -> x <> 1%float ->
                      lookup "flash" c = Some (VStr "Did not fire"))
        /\ (tag Flash d = None -> lookup "flash" c = None)
        /\ (forall k, k <> "shutterSpeed" -> k <> "aperture" -> k <> "iso" ->
                      k <> "mode" -> k <> "flash" -> lookup k c = None)).
Proof.
  intros Hs.
  destruct (structuredExif_lookup _ _ _ _ _ _ _ _ Hs)
    as (ts & _ & _ & _ & _ & _ & Hexp & _).
  destruct (exposure_lookups d) as (H1 & H2 & H3 & H4 & H5 & H6).
  split; [|split].
  - rewrite Hexp, group_absent.
    rewrite <- (shown_num_none (fun x => VStr (shutterSpeed x))).
    rewrite <- (shown_num_none (fun x => VStr ("f/" ++ Number.toString x))).
    rewrite <- (shown_num_none VNum).
    rewrite <- (option_map_none (fun x => VStr (mode x)) (tag ExposureMode d)).
    rewrite <- (option_map_none (fun x => VStr (flash x)) (tag Flash d)).
    rewrite <- H1, <- H2, <- H3, <- H4, <- H5.
    split; [intros H; repeat split; apply H|]. intros (A & B & C & D & E) k.
    destruct (string_dec k "shutterSpeed") as [->|N1]; auto.
    destruct (string_dec k "aperture") as [->|N2]; auto.
    destruct (string_dec k "iso") as [->|N3]; auto.
    destruct (string_dec k "mode") as [->|N4]; auto.
    destruct (string_dec k "flash") as [->|N5]; auto.
  - rewrite Hexp. destruct (group_cases (exposure_of d)); eauto.
  - intros c Hc. rewrite (group_present _ _ _ Hexp Hc).
    split; [exact H2|]. split; [exact H3|].
    rewrite H5. split; [|split; [|split]].
    + intros ->. reflexivity.
    + intros x -> Hx. cbn. unfold flash.
      destruct (x =? 1)%float eqn:E; [|reflexivity].
      apply eqb_one in E. contradiction.
    + intros ->. reflexivity.
    + exact H6.
Qed.

Lemma exposure_group_witness :
  exists s c,
    structuredExif Reference.runtime "photo.jpg" 4%float (exif_of gear_tags)
      true true true = inr s
    /\ lookup "exposure" s = Some (VObj c)
    /\ lookup "aperture" c = Some (VStr "f/2.8")
    /\ lookup "iso" c = Some (VNum 100%float)
    /\ lookup "flash" c = Some (VStr "Did not fire")
    /\ lookup "orientation" c = None.
Proof.
  destruct (structuredExif Reference.runtime "photo.jpg" 4%float
              (exif_of gear_tags) true true true) as [e|s] eqn:E;
    [vm_compute in E; discriminate|].
  destruct (exposure_group _ _ _ _ _ _ _ _ E) as (Hiff & [Hn|[c Hc]] & Hf).
  - apply Hiff in Hn. destruct Hn as (_ & Hn & _). vm_compute in Hn.
    discriminate Hn.
  - destruct (Hf c Hc) as (H1 & H2 & _ & H4 & _ & H6). exists s, c.
    split; [reflexivity|]. split; [exact Hc|].
    split; [rewrite H1; vm_compute; reflexivity|].
    split; [rewrite H2; vm_compute; reflexivity|].
    split.
    + apply (H4 9%float eq_refl). intros H9.
      assert (Hb : (9 =? 1)%float = (1 =? 1)%float) by now rewrite H9.
      vm_compute in Hb. discriminate Hb.
    + apply H6; discriminate.
Defined.

(** ** Unrecognized tags *)

Lemma groups_with_others (d : ExifData) (moreTags moreProps : object) :
  camera_of (with_others d moreTags moreProps) = camera_of d
  /\ lens_of (with_others d moreTags moreProps) = lens_of d
  /\ exposure_of (with_others d moreTags moreProps) = exposure_of d
  /\ (forall g, gps_of g (with_others d moreTags moreProps) = gps_of g d)
  /\ (forall rt c, timestamp_of rt c (with_others d moreTags moreProps)
                   = timestamp_of rt c d)
  /\ (forall z, imageSize_value z (with_others d moreTags moreProps)
                = imageSize_value z d).
Proof.
  unfold camera_of, lens_of, exposure_of, gps_of, timestamp_of, imageSize_value,
    with_others.
  cbn [tags imageSize]. destruct (tags d) as [t|]; repeat split.
Qed.

Lemma lookup_frame_raw k fi img cam lens expo gps ts raw raw' :
  k <> "raw" ->
  lookup k (frame fi img cam lens expo gps ts raw)
  = lookup k (frame fi img cam lens expo gps ts raw').
Proof.
  intros Hne. apply String.eqb_neq in Hne. unfold frame. cbn [lookup].
  now rewrite Hne.
Qed.

(** X7.  Tags that are not recognized, and further properties of
    the decoded structure, show in raw only: with others in their place
    the record is built as well and every other group is the same. *)
Theorem unrecognized_only_in_raw rt name fileSize d includeGps includeImageSize
  convertTimestamps moreTags moreProps s :
  structuredExif rt name fileSize d includeGps includeImageSize convertTimestamps
  = inr s ->
  exists s',
    structuredExif rt name fileSize (with_others d moreTags moreProps)
      includeGps includeImageSize convertTimestamps = inr s'
    /\ forall k, k <> "raw" -> lookup k s' = lookup k s.
Proof.
  rewrite !structuredExif_closed.
  destruct (groups_with_others d moreTags moreProps)
    as (-> & -> & -> & Hg & Ht & Hi).
  rewrite Hg, Ht, Hi.
  destruct (timestamp_of rt convertTimestamps d) as [e|ts]; cbn [bind ret];
    [discriminate|].
  intros H. injection H as <-. eexists. split; [reflexivity|].
  intros k Hk. rewrite !lookup_cleanup. f_equal. now apply lookup_frame_raw.
Qed.

Lemma unrecognized_only_in_raw_witness :
  exists s s',
    structuredExif Reference.runtime "photo.jpg" 4%float (exif_of gear_tags)
      true true true = inr s
    /\ structuredExif Reference.runtime "photo.jpg" 4%float
         (with_others (exif_of gear_tags)
            [("Orientation", VNum 6%float)] [("thumbnailOffset", VNum 512%float)])
         true true true = inr s'
    /\ lookup "camera" s' = lookup "camera" s
    /\ lookup "exposure" s' = lookup "exposure" s.
Proof.
  destruct (structuredExif Reference.runtime "photo.jpg" 4%float
              (exif_of gear_tags) true true true) as [e|s] eqn:E;
    [vm_compute in E; discriminate|].
  destruct (unrecognized_only_in_raw _ _ _ _ _ _ _
              [("Orientation", VNum 6%float)]
              [("thumbnailOffset", VNum 512%float)] _ E) as (s' & Hs' & Hsame).
  exists s, s'. split; [reflexivity|]. split; [exact Hs'|].
  split; apply Hsame; discriminate.
Defined.

(** ** When the conversion fails *)

Lemma structuredExif_error rt name fileSize d includeGps includeImageSize
  convertTimestamps e :
  structuredExif rt name fileSize d includeGps includeImageSize convertTimestamps
  = inl e
  <-> timestamp_of rt convertTimestamps d = inl e.
Proof.
  rewrite structuredExif_closed.
  destruct (timestamp_of rt convertTimestamps d) as [e'|ts]; cbn [bind ret];
    split; intros H; try discriminate H; injection H as ->; reflexivity.
Qed.

Lemma timestamp_of_error rt convertTimestamps d e :
  timestamp_of rt convertTimestamps d = inl e
  <-> convertTimestamps = true
      /\ e = EngineError "Invalid time value"
      /\ exists x, first_present (timestamp_tags d) = Some x
                   /\ Date.TimeClip (x * 1000)%float = None.
Proof.
  unfold timestamp_of, timestamp_tags, tag.
  destruct (tags d) as [t|].
  - unfold timestamp_value.
    pose proof (dateTime_first_present t) as H.
    destruct (first_present [DateTimeOriginal t; DateTime t; DateTimeDigitized t])
      as [x|].
    + destruct H as (Hf & Hd & Hb). rewrite Hf, Hb, Hd.
      destruct convertTimestamps; cbn [andb number_of].
      * destruct (Date.TimeClip (x * 1000)%float) as [tv|] eqn:E.
        -- split; [discriminate|]. intros (_ & _ & y & Hy & Hc). congruence.
        -- unfold throw. split.
           ++ intros H. injection H as <-. eauto.
           ++ intros (_ & -> & _). reflexivity.
      * split; [discriminate|]. intros (Hc & _). discriminate.
    + rewrite H. split; [discriminate|]. intros (_ & _ & y & Hy & _).
      discriminate.
  - split; [discriminate|]. intros (_ & _ & y & Hy & _). discriminate.
Qed.

(** X8.  Building the structured record fails exactly when
    timestamps are converted and the first present timestamp tag, times
    1000, is no valid time value; the error then has no context.  With
    conversion off the record is always built. *)
Theorem conversion_failure rt name fileSize d includeGps includeImageSize
  convertTimestamps :
  ((exists e,
       structuredExif rt name fileSize d includeGps includeImageSize
         convertTimestamps = inl e)
   <-> convertTimestamps = true
       /\ exists x, first_present (timestamp_tags d) = Some x
                    /\ Date.TimeClip (x * 1000)%float = None)
  /\ (forall e,
         structuredExif rt name fileSize d includeGps includeImageSize
           convertTimestamps = inl e -> context e = None).
Proof.
  split; [split|].
  - intros [e He]. apply structuredExif_error, timestamp_of_error in He. tauto.
  - intros (Hc & Hx). exists (EngineError "Invalid time value").
    apply structuredExif_error, timestamp_of_error. auto.
  - intros e He. apply structuredExif_error, timestamp_of_error in He.
    destruct He as (_ & -> & _). reflexivity.
Qed.

Lemma conversion_failure_witness :
  (exists e,
      structuredExif Reference.runtime "photo.jpg" 4%float
        (exif_of (date_tags None (Some 10000000000000%float) None))
        true true true = inl e)
  /\ (exists s,
         structuredExif Reference.runtime "photo.jpg" 4%float
           (exif_of (date_tags None (Some 10000000000000%float) None))
           true true false = inr s).
Proof.
  split.
  - apply (proj1 (conversion_failure _ _ _ _ _ _ _)). split; [reflexivity|].
    exists 10000000000000%float. split; vm_compute; reflexivity.
  - destruct (structuredExif Reference.runtime "photo.jpg" 4%float
                (exif_of (date_tags None (Some 10000000000000%float) None))
                true true false) as [e|s] eqn:E; [|eauto].
    assert (He : exists e',
               structuredExif Reference.runtime "photo.jpg" 4%float
                 (exif_of (date_tags None (Some 10000000000000%float) None))
                 true true false = inl e') by eauto.
    apply (proj1 (conversion_failure _ _ _ _ _ _ _)) in He.
    destruct He as [Hc _]. discriminate Hc.
Defined.

(** ** The raw group keeps the GPS tags *)

Lemma lookup_field_other {A} k k' (f : A -> value) (o : option A) rest :
  k <> k' -> lookup k (field k' f o ++ rest)%list = lookup k rest.
Proof.
  intros Hne. apply String.eqb_neq in Hne.
  destruct o; cbn; [now rewrite Hne|reflexivity].
Qed.

Lemma lookup_field_same {A} k (f : A -> value) (o : option A) rest :
  lookup k (field k f o ++ rest)%list
  = match o with
    | Some a => Some (f a)
    | None => lookup k rest
    end.
Proof. destruct o; cbn; [now rewrite String.eqb_refl|reflexivity]. Qed.

(** X9.  The raw group keeps the GPS tags whatever includeGps is:
    with tags decoded, raw.tags holds GPSLatitude, GPSLongitude,
    GPSAltitude and the two references as decoded, also when includeGps is
    false and the gps group is null. *)
Theorem raw_keeps_gps_tags rt name fileSize d t includeGps includeImageSize
  convertTimestamps s :
  structuredExif rt name fileSize d includeGps includeImageSize convertTimestamps
  = inr s ->
  tags d = Some t ->
  (includeGps = false -> lookup "gps" s = Some VNull)
  /\ exists raw tg,
      lookup "raw" s = Some (VObj raw)
      /\ lookup "tags" raw = Some (VObj tg)
      /\ (forall x, GPSLatitude t = Some x ->
                    lookup "GPSLatitude" tg = Some (VNum x))
      /\ (forall x, GPSLongitude t = Some x ->
                    lookup "GPSLongitude" tg = Some (VNum x))
      /\ (forall x, GPSAltitude t = Some x ->
                    lookup "GPSAltitude" tg = Some (VNum x))
      /\ (forall r, GPSLatitudeRef t = Some r ->
                    lookup "GPSLatitudeRef" tg = Some (VStr r))
      /\ (forall r, GPSLongitudeRef t = Some r ->
                    lookup "GPSLongitudeRef" tg = Some (VStr r)).
Proof.
  intros Hs Ht.
  destruct (structuredExif_lookup _ _ _ _ _ _ _ _ Hs)
    as (ts & _ & _ & _ & _ & _ & _ & Hgps & _ & Hraw).
  split.
  - intros ->. rewrite Hgps. unfold gps_of. rewrite Ht. reflexivity.
  - unfold value_of_ExifData in Hraw. rewrite Ht in Hraw.
    cbn [field] in Hraw.
    assert (Hk : forall a b c, kept (Some (VObj (a ++ b :: c)%list))
                               = Some (VObj (a ++ b :: c)%list)).
    { intros a b c. destruct a; reflexivity. }
    change ([("tags", value_of_Tags t)] ++ otherProps d)%list
      with (("tags", value_of_Tags t) :: otherProps d) in Hraw.
    rewrite Hk in Hraw. clear Hk.
    eexists. eexists. split; [exact Hraw|].
    split.
    { rewrite lookup_field_other by discriminate. cbn [lookup].
      rewrite String.eqb_refl. unfold value_of_Tags. reflexivity. }
    repeat split; intros x Hx;
      rewrite !lookup_field_other by discriminate;
      rewrite lookup_field_same, Hx; reflexivity.
Qed.

Lemma raw_keeps_gps_tags_witness :
  exists s raw tg,
    structuredExif Reference.runtime "photo.jpg" 4%float
      (exif_of (gps_tags (Some 48.8584%float) (Some 2.2945%float) None
                  (Some "N") (Some "E")))
      false true true = inr s
    /\ lookup "gps" s = Some VNull
    /\ lookup "raw" s = Some (VObj raw)
    /\ lookup "tags" raw = Some (VObj tg)
    /\ lookup "GPSLatitude" tg = Some (VNum 48.8584%float)
    /\ lookup "GPSLongitude" tg = Some (VNum 2.2945%float).
Proof.
  destruct (structuredExif Reference.runtime "photo.jpg" 4%float
              (exif_of (gps_tags (Some 48.8584%float) (Some 2.2945%float) None
                          (Some "N") (Some "E")))
              false true true) as [e|s] eqn:E; [vm_compute in E; discriminate|].
  destruct (raw_keeps_gps_tags _ _ _ _ _ _ _ _ _ E eq_refl)
    as (Hg & raw & tg & Hr & Ht & Hla & Hlo & _).
  exists s, raw, tg. split; [reflexivity|]. split; [exact (Hg eq_refl)|].
  split; [exact Hr|]. split; [exact Ht|].
  split; [exact (Hla _ eq_refl)|exact (Hlo _ eq_refl)].
Defined.

(** * Further properties of the items *)

Lemma sample_settings items d flags continue itemIndex :
  settings_read (sample_host items d flags continue) itemIndex
    "binaryData" "exif" flags flags flags.
Proof. repeat split. Qed.

Lemma url_settings items url response d itemIndex :
  settings_read (url_host items url response d) itemIndex
    "url" "exif" true true true.
Proof. repeat split. Qed.

Lemma or_string_first (a b : string) :
  or_string a b = first_nonempty [a] b.
Proof.
  unfold or_string. cbn. destruct (String.eqb a EmptyString); reflexivity.
Qed.

(** [process_item] with the parameters read. *)
Lemma process_item_binary rt h item itemIndex key g z c p :
  settings_read h itemIndex "binaryData" key g z c ->
  getNodeParameter_string h "binaryProperty" itemIndex = inr p ->
  process_item rt h item itemIndex
  = match binary_of item p with
    | None =>
        throw (NodeOperationError h
                 ("No binary data found in property " ++ quote ++ p ++ quote)
                 itemIndex)
    | Some found =>
        buffer <- getBinaryDataBuffer h itemIndex p;;
        finish rt h item key g z c buffer (entry_name found)
    end.
Proof.
  intros (Hs & Hk & Hg & Hz & Hc) Hp. unfold process_item, finish.
  rewrite Hs, Hk, Hg, Hz, Hc. cbn [bind]. rewrite String.eqb_refl.
  rewrite Hp. cbn [bind].
  destruct (binary_of item p) as [found|]; [|reflexivity].
  destruct (getBinaryDataBuffer h itemIndex p) as [e|buffer]; cbn [bind];
    [reflexivity|].
  destruct (ExifParser_parse h buffer) as [e|d]; cbn [bind ret]; [reflexivity|].
  destruct found as [b|]; [|reflexivity]. cbn [entry_name].
  replace (or_string match fileName b with Some n => n | None => EmptyString end
             (or_string (data b) "unknown"))
    with (first_nonempty
            match fileName b with Some n => [n; data b] | None => [data b] end
            "unknown"); [reflexivity|].
  unfold or_string. cbn [ToBoolean].
  destruct (fileName b) as [n|]; cbn [first_nonempty];
    [destruct (String.eqb n EmptyString)|]; cbn [negb];
    destruct (String.eqb (data b) EmptyString); reflexivity.
Qed.

(** What [item.binary?.[p]] finds. *)
Lemma binary_of_cases (item : INodeExecutionData) (p : string) :
  match binary_of item p with
  | None =>
      binary item = None
      \/ exists b, binary item = Some b /\ assoc p b = None
                   /\ ~ In p inherited_names
  | Some (own_entry e) => exists b, binary item = Some b /\ assoc p b = Some e
  | Some inherited_value =>
      exists b, binary item = Some b /\ assoc p b = None
                /\ In p inherited_names
  end.
Proof.
  unfold binary_of. destruct (binary item) as [b|]; [|auto].
  destruct (assoc p b) as [e|] eqn:E; [eauto|].
  destruct (existsb (String.eqb p) inherited_names) eqn:Ei.
  - apply existsb_exists in Ei. destruct Ei as (n & Hn & He).
    apply String.eqb_eq in He. subst n. eauto.
  - right. exists b. repeat split; auto. intros Hin.
    assert (Ht : existsb (String.eqb p) inherited_names = true).
    { apply existsb_exists. exists p. split; [exact Hin|apply String.eqb_refl]. }
    congruence.
Qed.

Lemma binary_of_missing (item : INodeExecutionData) (p : string) :
  binary item = None
  \/ (exists b, binary item = Some b /\ assoc p b = None
                /\ ~ In p inherited_names) ->
  binary_of item p = None.
Proof.
  pose proof (binary_of_cases item p) as H.
  intros [Hn|(b & Hb & Ha & Hi)];
    destruct (binary_of item p) as [[e|]|]; auto.
  - destruct H as (b & Hb & _). congruence.
  - destruct H as (b & Hb & _). congruence.
  - destruct H as (b' & Hb' & Ha'). congruence.
  - destruct H as (b' & _ & _ & Hin). contradiction.
Qed.

Lemma binary_of_inherited (item : INodeExecutionData) (p : string) b :
  binary item = Some b -> assoc p b = None -> In p inherited_names ->
  binary_of item p = Some inherited_value.
Proof.
  intros Hb Ha Hi. pose proof (binary_of_cases item p) as H.
  destruct (binary_of item p) as [[e|]|]; auto.
  - destruct H as (b' & Hb' & Ha'). congruence.
  - destruct H as [H|(b' & _ & _ & Hn)]; [congruence|contradiction].
Qed.

Lemma process_item_url rt h item itemIndex src key g z c url :
  settings_read h itemIndex src key g z c ->
  src <> "binaryData" ->
  getNodeParameter_string h "imageUrl" itemIndex = inr url ->
  process_item rt h item itemIndex
  = if String.eqb url EmptyString
    then throw (NodeOperationError h
                  "Image URL is required when using URL input source" itemIndex)
    else
      buffer <- httpRequest h url;;
      finish rt h item key g z c buffer
        (first_nonempty [last_segment url EmptyString] "downloaded_image").
Proof.
  intros (Hs & Hk & Hg & Hz & Hc) Hne Hu. unfold process_item, finish.
  apply String.eqb_neq in Hne.
  rewrite Hs, Hk, Hg, Hz, Hc. cbn [bind]. rewrite Hne.
  rewrite Hu. cbn [bind ToBoolean].
  destruct (String.eqb url EmptyString); cbn [negb]; [reflexivity|].
  destruct (httpRequest h url) as [e|buffer]; cbn [bind]; [reflexivity|].
  destruct (ExifParser_parse h buffer) as [e|d]; cbn [bind ret]; [reflexivity|].
  now rewrite or_string_first.
Qed.

(** ** Rejected inputs *)

(** X10.  With the binaryData input source, an item whose binary data is
    missing, or holds no entry under the configured property while the
    property is not a name every plain object inherits (toString,
    constructor, ...), is rejected before any helper or the decoder is
    called: the error is the NodeOperationError made of the message that no
    binary data was found in that property, and of the item's index.  Its
    message is what the constructor makes of that message, and its context
    holds the index.  Under an inherited name without an entry the item is
    not rejected: the buffer helper is called, and the file name is
    unknown. *)
Theorem missing_binary_rejected rt h item itemIndex key g z c p :
  settings_read h itemIndex "binaryData" key g z c ->
  getNodeParameter_string h "binaryProperty" itemIndex = inr p ->
  (binary item = None
   \/ (exists b, binary item = Some b /\ assoc p b = None
                 /\ ~ In p inherited_names) ->
   exists e,
     process_item rt h item itemIndex = inl e
     /\ e = NodeOperationError h
              ("No binary data found in property " ++ quote ++ p ++ quote)
              itemIndex
     /\ message e
        = NodeOperationError_message h
            ("No binary data found in property " ++ quote ++ p ++ quote)
     /\ exists ctx,
         context e = Some ctx
         /\ lookup "itemIndex" ctx
            = Some (VNum (Number.of_Z (Z.of_nat itemIndex))))
  /\ (forall b,
         binary item = Some b -> assoc p b = None -> In p inherited_names ->
         process_item rt h item itemIndex
         = (buffer <- getBinaryDataBuffer h itemIndex p;;
            finish rt h item key g z c buffer "unknown")).
Proof.
  intros Hs Hp. rewrite (process_item_binary _ _ _ _ _ _ _ _ _ Hs Hp). split.
  - intros Hm. rewrite (binary_of_missing _ _ Hm). eexists.
    split; [reflexivity|]. split; [reflexivity|]. split; [reflexivity|].
    eexists. split; [reflexivity|]. apply lookup_set_same.
  - intros b Hb Ha Hi. now rewrite (binary_of_inherited _ _ _ Hb Ha Hi).
Qed.

Lemma missing_binary_rejected_witness :
  (exists e,
      process_item Reference.runtime
        (property_host "data" [thumb_item] (ret bare_exif)) thumb_item 0
      = inl e
      /\ message e
         = "No binary data found in property " ++ quote ++ "data" ++ quote
      /\ exists ctx, context e = Some ctx
                     /\ lookup "itemIndex" ctx = Some (VNum 0%float))
  /\ (exists e,
         process_item Reference.runtime
           (property_host "enoent" [plain_item] (ret bare_exif)) plain_item 0
         = inl e
         /\ message e = "The file or directory does not exist")
  /\ (exists out s fi,
         process_item Reference.runtime
           (property_host "toString" [thumb_item] (ret bare_exif)) thumb_item 0
         = inr out
         /\ lookup "exif" (json out) = Some (VObj s)
         /\ lookup "fileInfo" s = Some (VObj fi)
         /\ lookup "fileName" fi = Some (VStr "unknown")).
Proof.
  split; [|split].
  - destruct (missing_binary_rejected Reference.runtime
                (property_host "data" [thumb_item] (ret bare_exif))
                thumb_item 0 "exif" true true true "data"
                ltac:(repeat split) eq_refl) as [Hm _].
    destruct Hm as (e & He & _ & Hmsg & ctx & Hctx & Hidx).
    { right. exists [("thumb", sample_binary)].
      split; [reflexivity|]. split; [reflexivity|].
      cbn. intuition discriminate. }
    exists e. split; [exact He|].
    split; [rewrite Hmsg; vm_compute; reflexivity|]. eauto.
  - destruct (missing_binary_rejected Reference.runtime
                (property_host "enoent" [plain_item] (ret bare_exif))
                plain_item 0 "exif" true true true "enoent"
                ltac:(repeat split) eq_refl) as [Hm _].
    destruct (Hm (or_introl eq_refl)) as (e & He & _ & Hmsg & _).
    exists e. split; [exact He|]. rewrite Hmsg. vm_compute. reflexivity.
  - destruct (missing_binary_rejected Reference.runtime
                (property_host "toString" [thumb_item] (ret bare_exif))
                thumb_item 0 "exif" true true true "toString"
                ltac:(repeat split) eq_refl) as [_ Hi].
    specialize (Hi [("thumb", sample_binary)] eq_refl eq_refl).
    rewrite Hi by (cbn; auto 10).
    eexists. eexists. eexists.
    split; [vm_compute; reflexivity|]. repeat split.
Defined.

(** X11.  With any input source other than binaryData, an empty image URL
    is rejected with the NodeOperationError that says the image URL is
    required, carrying the item's index; no request is made. *)
Theorem empty_url_rejected rt h item itemIndex src key g z c :
  settings_read h itemIndex src key g z c ->
  src <> "binaryData" ->
  getNodeParameter_string h "imageUrl" itemIndex = inr EmptyString ->
  process_item rt h item itemIndex
  = inl (NodeOperationError h
           "Image URL is required when using URL input source" itemIndex).
Proof.
  intros Hs Hne Hu. now rewrite (process_item_url _ _ _ _ _ _ _ _ _ _ Hs Hne Hu).
Qed.

Lemma empty_url_rejected_witness :
  exists e ctx,
    process_item Reference.runtime
      (url_host [plain_item] EmptyString (ret sample_buffer) (ret bare_exif))
      plain_item 0 = inl e
    /\ message e = "Image URL is required when using URL input source"
    /\ context e = Some ctx
    /\ lookup "itemIndex" ctx = Some (VNum 0%float).
Proof.
  eexists. eexists. split.
  - apply (empty_url_rejected Reference.runtime
             (url_host [plain_item] EmptyString (ret sample_buffer)
                (ret bare_exif))
             plain_item 0 "url" "exif" true true true);
      [apply url_settings|discriminate|reflexivity].
  - split; [vm_compute; reflexivity|]. split; reflexivity.
Defined.

(** ** The two sources are exclusive *)

(** X12.  With an input source other than binaryData, what the try
    block does with an item depends on the json of the item only: its
    binary data is never read. *)
Theorem url_mode_ignores_binary rt h item item' itemIndex src :
  getNodeParameter_string h "inputSource" itemIndex = inr src ->
  src <> "binaryData" ->
  json item' = json item ->
  process_item rt h item' itemIndex = process_item rt h item itemIndex.
Proof.
  intros Hs Hne Hj. apply String.eqb_neq in Hne. unfold process_item.
  rewrite Hs. cbn [bind]. rewrite Hne, Hj. reflexivity.
Qed.

Lemma url_mode_ignores_binary_witness :
  process_item Reference.runtime
    (url_host [sample_item] "https://example.com/a/photo.jpg"
       (ret sample_buffer) (ret bare_exif)) sample_item 0
  = process_item Reference.runtime
      (url_host [sample_item] "https://example.com/a/photo.jpg"
         (ret sample_buffer) (ret bare_exif)) plain_item 0.
Proof.
  apply (url_mode_ignores_binary Reference.runtime
           (url_host [sample_item] "https://example.com/a/photo.jpg"
              (ret sample_buffer) (ret bare_exif))
           plain_item sample_item 0 "url");
    [reflexivity|discriminate|reflexivity].
Defined.

(** X13.  With the binaryData input source the HTTP helper
    plays no part: replacing it by any other one changes nothing. *)
Theorem binary_mode_makes_no_request rt h item itemIndex request :
  getNodeParameter_string h "inputSource" itemIndex = inr "binaryData" ->
  process_item rt (with_httpRequest h request) item itemIndex
  = process_item rt h item itemIndex.
Proof.
  intros Hs. unfold process_item.
  cbn [with_httpRequest getNodeParameter_string getNodeParameter_boolean
         getBinaryDataBuffer ExifParser_parse].
  rewrite Hs. cbn [bind]. rewrite String.eqb_refl. reflexivity.
Qed.

Lemma binary_mode_makes_no_request_witness :
  process_item Reference.runtime
    (with_httpRequest (sample_host [sample_item] (ret bare_exif) true false)
       (fun _ => ret []))
    sample_item 0
  = process_item Reference.runtime
      (sample_host [sample_item] (ret bare_exif) true false) sample_item 0.
Proof.
  apply (binary_mode_makes_no_request Reference.runtime
           (sample_host [sample_item] (ret bare_exif) true false)
           sample_item 0 (fun _ => ret [])).
  reflexivity.
Defined.

(** ** Where a failure comes from *)

(** X14.  When the processing of an item fails, the error is one of: the
    error of reading one of the seven parameters; the NodeOperationError
    for a missing binary entry or for an empty URL; the error the buffer
    helper, the HTTP helper or the decoder threw, unchanged; or an error
    without context, for a timestamp whose conversion is on and whose time
    is no valid time value. *)
Theorem failure_causes rt h item itemIndex e :
  process_item rt h item itemIndex = inl e ->
  (exists name,
      In name ["inputSource"; "outputProperty"; "binaryProperty"; "imageUrl"]
      /\ getNodeParameter_string h name itemIndex = inl e)
  \/ (exists name,
         In name ["includeGps"; "includeImageSize"; "convertTimestamps"]
         /\ getNodeParameter_boolean h name itemIndex = inl e)
  \/ (exists p,
         getNodeParameter_string h "binaryProperty" itemIndex = inr p
         /\ binary_of item p = None
         /\ e = NodeOperationError h
                  ("No binary data found in property " ++ quote ++ p ++ quote)
                  itemIndex)
  \/ (getNodeParameter_string h "imageUrl" itemIndex = inr EmptyString
      /\ e = NodeOperationError h
               "Image URL is required when using URL input source" itemIndex)
  \/ (exists p,
         getNodeParameter_string h "binaryProperty" itemIndex = inr p
         /\ getBinaryDataBuffer h itemIndex p = inl e)
  \/ (exists url,
         getNodeParameter_string h "imageUrl" itemIndex = inr url
         /\ httpRequest h url = inl e)
  \/ (exists buffer, ExifParser_parse h buffer = inl e)
  \/ (exists buffer d x,
         ExifParser_parse h buffer = inr d
         /\ getNodeParameter_boolean h "convertTimestamps" itemIndex = inr true
         /\ first_present (timestamp_tags d) = Some x
         /\ Date.TimeClip (x * 1000)%float = None
         /\ context e = None).
Proof.
  intros H.
  destruct (getNodeParameter_string h "inputSource" itemIndex) as [e0|src] eqn:Es.
  { unfold process_item in H. rewrite Es in H. cbn [bind] in H.
    injection H as <-. left. exists "inputSource". cbn. auto 10. }
  destruct (getNodeParameter_string h "outputProperty" itemIndex) as [e0|key] eqn:Ek.
  { unfold process_item in H. rewrite Es, Ek in H. cbn [bind] in H.
    injection H as <-. left. exists "outputProperty". cbn. auto 10. }
  destruct (getNodeParameter_boolean h "includeGps" itemIndex) as [e0|g] eqn:Eg.
  { unfold process_item in H. rewrite Es, Ek, Eg in H. cbn [bind] in H.
    injection H as <-. right. left. exists "includeGps". cbn. auto 10. }
  destruct (getNodeParameter_boolean h "includeImageSize" itemIndex) as [e0|z] eqn:Ez.
  { unfold process_item in H. rewrite Es, Ek, Eg, Ez in H. cbn [bind] in H.
    injection H as <-. right. left. exists "includeImageSize". cbn. auto 10. }
  destruct (getNodeParameter_boolean h "convertTimestamps" itemIndex) as [e0|c] eqn:Ec.
  { unfold process_item in H. rewrite Es, Ek, Eg, Ez, Ec in H. cbn [bind] in H.
    injection H as <-. right. left. exists "convertTimestamps". cbn. auto 10. }
  assert (Hr : settings_read h itemIndex src key g z c) by (repeat split; assumption).
  assert (Hfin : forall buffer name,
             finish rt h item key g z c buffer name = inl e ->
             (exists buffer, ExifParser_parse h buffer = inl e)
             \/ (exists buffer d x,
                    ExifParser_parse h buffer = inr d
                    /\ c = true
                    /\ first_present (timestamp_tags d) = Some x
                    /\ Date.TimeClip (x * 1000)%float = None
                    /\ context e = None)).
  { intros buffer name Hf. unfold finish in Hf.
    destruct (ExifParser_parse h buffer) as [e0|d] eqn:Ed; cbn [bind] in Hf.
    - injection Hf as <-. eauto.
    - destruct (structuredExif rt name _ d g z c) as [e0|s] eqn:E;
        cbn [bind ret] in Hf; [|discriminate].
      injection Hf as <-. right.
      apply structuredExif_error, timestamp_of_error in E.
      destruct E as (-> & -> & x & Hp & Hx). exists buffer, d, x. auto. }
  destruct (string_dec src "binaryData") as [->|Hne].
  - destruct (getNodeParameter_string h "binaryProperty" itemIndex) as [e0|p] eqn:Ep.
    { unfold process_item in H. rewrite Es, Ek, Eg, Ez, Ec in H. cbn [bind] in H.
      rewrite String.eqb_refl, Ep in H. cbn [bind] in H.
      injection H as <-. left. exists "binaryProperty". cbn. auto 10. }
    rewrite (process_item_binary _ _ _ _ _ _ _ _ _ Hr Ep) in H.
    destruct (binary_of item p) as [b|] eqn:Eb.
    + destruct (getBinaryDataBuffer h itemIndex p) as [e0|buffer] eqn:Ebuf;
        cbn [bind] in H.
      * injection H as <-. do 4 right. left. eauto.
      * do 6 right. destruct (Hfin _ _ H) as [A|(b' & d & x & A & -> & B)];
          [left; exact A|right; eauto 10].
    + injection H as <-. do 2 right. left. eauto.
  - destruct (getNodeParameter_string h "imageUrl" itemIndex) as [e0|url] eqn:Eu.
    { unfold process_item in H. rewrite Es, Ek, Eg, Ez, Ec in H. cbn [bind] in H.
      apply String.eqb_neq in Hne. rewrite Hne, Eu in H. cbn [bind] in H.
      injection H as <-. left. exists "imageUrl". cbn. auto 10. }
    rewrite (process_item_url _ _ _ _ _ _ _ _ _ _ Hr Hne Eu) in H.
    destruct (String.eqb url EmptyString) eqn:E0.
    + apply String.eqb_eq in E0. subst url. injection H as <-.
      do 3 right. left. auto.
    + destruct (httpRequest h url) as [e0|buffer] eqn:Ebuf; cbn [bind] in H.
      * injection H as <-. do 5 right. left. eauto.
      * do 6 right. destruct (Hfin _ _ H) as [A|(b' & d & x & A & -> & B)];
          [left; exact A|right; eauto 10].
Qed.

Lemma failure_causes_witness :
  exists e buffer,
    process_item Reference.runtime
      (sample_host [sample_item] (throw (EngineError "Invalid JPEG section"))
         true false) sample_item 0 = inl e
    /\ ExifParser_parse
         (sample_host [sample_item] (throw (EngineError "Invalid JPEG section"))
            true false) buffer = inl e.
Proof.
  destruct (process_item Reference.runtime
              (sample_host [sample_item]
                 (throw (EngineError "Invalid JPEG section")) true false)
              sample_item 0) as [e|out] eqn:E; [|vm_compute in E; discriminate].
  exists e.
  pose proof (failure_causes _ _ _ _ _ E) as H.
  vm_compute in E. injection E as <-.
  destruct H as [(n & _ & H)|[(n & _ & H)|[(p & Hp & Hb & _)|[(_ & H)
                |[(p & _ & H)|[(u & _ & H)|[(b & H)|(b & d & x & H & _)]]]]]]];
    try discriminate H.
  - exfalso. injection Hp as <-. discriminate Hb.
  - exists b. split; [reflexivity|exact H].
Defined.

Lemma append_nil_r (s : string) : s ++ EmptyString = s.
Proof. induction s as [|c r IH]; cbn; [reflexivity|now rewrite IH]. Qed.

Lemma append_assoc (a b c : string) : (a ++ b) ++ c = a ++ (b ++ c).
Proof. induction a as [|x r IH]; cbn; [reflexivity|now rewrite IH]. Qed.

Lemma no_slash_app (a b : string) :
  no_slash (a ++ b) = no_slash a && no_slash b.
Proof.
  induction a as [|x r IH]; cbn; [reflexivity|].
  rewrite IH. now rewrite andb_assoc.
Qed.

(** [last_segment url acc], for an [acc] without a slash, is the part of
    [acc ++ url] after its last slash. *)
Lemma last_segment_spec (s acc : string) :
  no_slash acc = true ->
  no_slash (last_segment s acc) = true
  /\ exists pre,
      acc ++ s = pre ++ last_segment s acc
      /\ (pre = EmptyString \/ exists q, pre = q ++ "/").
Proof.
  revert acc. induction s as [|c r IH]; intros acc Ha; cbn [last_segment].
  - split; [exact Ha|]. exists EmptyString. cbn. rewrite append_nil_r. auto.
  - destruct (Ascii.eqb c "/") eqn:E.
    + apply Ascii.eqb_eq in E. subst c.
      destruct (IH EmptyString eq_refl) as (Hn & pre & Hp & Hq).
      split; [exact Hn|]. cbn in Hp.
      exists (acc ++ "/" ++ pre). split.
      * rewrite !append_assoc. cbn. now rewrite <- Hp.
      * right. destruct Hq as [->|[q ->]].
        -- exists acc. reflexivity.
        -- exists (acc ++ "/" ++ q). now rewrite !append_assoc.
    + destruct (IH (acc ++ String c EmptyString)) as (Hn & pre & Hp & Hq).
      { rewrite no_slash_app, Ha. cbn. now rewrite E. }
      split; [exact Hn|]. exists pre. split; [|exact Hq].
      rewrite <- Hp. now rewrite append_assoc.
Qed.

Lemma first_nonempty_nonempty (l : list string) (fallback : string) :
  fallback <> EmptyString -> first_nonempty l fallback <> EmptyString.
Proof.
  intros Hf. induction l as [|a r IH]; cbn; auto.
  destruct (String.eqb a EmptyString) eqn:E; auto. now apply String.eqb_neq in E.
Qed.

Lemma lookup_fileInfo rt name fileSize :
  exists fi,
    fileInfo_value rt name fileSize = VObj fi
    /\ lookup "fileName" fi = Some (VStr name)
    /\ lookup "fileSizeBytes" fi = Some (VNum fileSize)
    /\ lookup "fileSizeFormatted" fi = Some (VStr (formatFileSize rt fileSize)).
Proof. eexists. repeat split. Qed.

(** A successful [finish] decoded the buffer and stored the record. *)
Lemma finish_inv rt h item key g z c buffer name out :
  finish rt h item key g z c buffer name = inr out ->
  exists s fi,
    lookup key (json out) = Some (VObj s)
    /\ lookup "fileInfo" s = Some (VObj fi)
    /\ lookup "fileName" fi = Some (VStr name)
    /\ lookup "fileSizeBytes" fi
       = Some (VNum (Number.of_Z (Z.of_nat (List.length buffer))))
    /\ lookup "fileSizeFormatted" fi
       = Some (VStr (formatFileSize rt
                       (Number.of_Z (Z.of_nat (List.length buffer))))).
Proof.
  unfold finish.
  destruct (ExifParser_parse h buffer) as [e|d]; cbn [bind]; [discriminate|].
  destruct (structuredExif rt name _ d g z c) as [e|s] eqn:E; cbn [bind ret];
    [discriminate|].
  intros H. injection H as <-. cbn [json].
  destruct (structuredExif_lookup _ _ _ _ _ _ _ _ E) as (ts & _ & Hfi & _).
  destruct (lookup_fileInfo rt name
              (Number.of_Z (Z.of_nat (List.length buffer))))
    as (fi & Efi & H1 & H2 & H3).
  exists s, fi. rewrite lookup_set_same, Hfi, Efi. auto.
Qed.

(** ** The file information *)

(** X15.  For an item processed from binary data, the buffer is the one
    the helper returned for the configured property; fileInfo.fileName is
    the file name of the entry when it has a non-empty one, else its data
    when that is not empty, else unknown; fileSizeBytes is the length of
    the buffer and fileSizeFormatted its formatFileSize. *)
Theorem file_info_from_binary rt h item itemIndex key g z c p b out :
  settings_read h itemIndex "binaryData" key g z c ->
  getNodeParameter_string h "binaryProperty" itemIndex = inr p ->
  binary_of item p = Some (own_entry b) ->
  process_item rt h item itemIndex = inr out ->
  exists buffer s fi,
    getBinaryDataBuffer h itemIndex p = inr buffer
    /\ lookup key (json out) = Some (VObj s)
    /\ lookup "fileInfo" s = Some (VObj fi)
    /\ lookup "fileName" fi
       = Some (VStr (first_nonempty
                       (match fileName b with
                        | Some n => [n; data b]
                        | None => [data b]
                        end) "unknown"))
    /\ lookup "fileSizeBytes" fi
       = Some (VNum (Number.of_Z (Z.of_nat (List.length buffer))))
    /\ lookup "fileSizeFormatted" fi
       = Some (VStr (formatFileSize rt
                       (Number.of_Z (Z.of_nat (List.length buffer))))).
Proof.
  intros Hs Hp Hb H.
  rewrite (process_item_binary _ _ _ _ _ _ _ _ _ Hs Hp), Hb in H.
  destruct (getBinaryDataBuffer h itemIndex p) as [e|buffer]; cbn [bind] in H;
    [discriminate|].
  destruct (finish_inv _ _ _ _ _ _ _ _ _ _ H) as (s & fi & Hfin).
  exists buffer, s, fi. auto.
Qed.

Lemma file_info_from_binary_witness :
  exists out s fi,
    process_item Reference.runtime
      (sample_host [sample_item] (ret bare_exif) true false) sample_item 0
    = inr out
    /\ lookup "exif" (json out) = Some (VObj s)
    /\ lookup "fileInfo" s = Some (VObj fi)
    /\ lookup "fileName" fi = Some (VStr "photo.jpg")
    /\ lookup "fileSizeBytes" fi = Some (VNum 4%float).
Proof.
  destruct (process_item Reference.runtime
              (sample_host [sample_item] (ret bare_exif) true false)
              sample_item 0) as [e|out] eqn:E; [vm_compute in E; discriminate|].
  destruct (file_info_from_binary Reference.runtime
              (sample_host [sample_item] (ret bare_exif) true false)
              sample_item 0 "exif" true true true "data" sample_binary out
              (sample_settings _ _ _ _ _) eq_refl eq_refl E)
    as (buffer & s & fi & Hb & H1 & H2 & H3 & H4 & _).
  cbn in Hb. injection Hb as <-.
  exists out, s, fi. split; [reflexivity|]. auto.
Defined.

(** X16.  For an item processed from a URL, the buffer is the response
    to the request for that URL, fileSizeBytes is its length, and
    fileInfo.fileName holds no slash: it is what follows the last slash of
    the URL (the whole URL when it has none), or downloaded_image when the
    URL ends in a slash. *)
Theorem file_info_from_url rt h item itemIndex src key g z c url out :
  settings_read h itemIndex src key g z c ->
  src <> "binaryData" ->
  getNodeParameter_string h "imageUrl" itemIndex = inr url ->
  process_item rt h item itemIndex = inr out ->
  exists buffer s fi name,
    httpRequest h url = inr buffer
    /\ lookup key (json out) = Some (VObj s)
    /\ lookup "fileInfo" s = Some (VObj fi)
    /\ lookup "fileName" fi = Some (VStr name)
    /\ lookup "fileSizeBytes" fi
       = Some (VNum (Number.of_Z (Z.of_nat (List.length buffer))))
    /\ no_slash name = true
    /\ ((name <> EmptyString /\ exists pre,
            url = pre ++ name /\ (pre = EmptyString \/ exists q, pre = q ++ "/"))
        \/ (name = "downloaded_image" /\ exists q, url = q ++ "/")).
Proof.
  intros Hs Hne Hu H.
  rewrite (process_item_url _ _ _ _ _ _ _ _ _ _ Hs Hne Hu) in H.
  destruct (String.eqb url EmptyString) eqn:E0; [discriminate|].
  apply String.eqb_neq in E0.
  destruct (httpRequest h url) as [e|buffer]; cbn [bind] in H; [discriminate|].
  destruct (finish_inv _ _ _ _ _ _ _ _ _ _ H) as (s & fi & H1 & H2 & H3 & H4 & _).
  exists buffer, s, fi. eexists.
  split; [reflexivity|]. split; [exact H1|]. split; [exact H2|].
  split; [exact H3|]. split; [exact H4|].
  destruct (last_segment_spec url EmptyString eq_refl) as (Hn & pre & Hp & Hq).
  cbn in Hp. cbn [first_nonempty].
  destruct (String.eqb (last_segment url EmptyString) EmptyString) eqn:E.
  - apply String.eqb_eq in E. split; [reflexivity|]. right.
    split; [reflexivity|]. rewrite E, append_nil_r in Hp.
    destruct Hq as [->|[q ->]]; [contradiction|]. eauto.
  - apply String.eqb_neq in E. split; [exact Hn|]. left. eauto.
Qed.

Lemma file_info_from_url_witness :
  (exists out s fi,
      process_item Reference.runtime
        (url_host [plain_item] "https://example.com/a/photo.jpg?size=2"
           (ret sample_buffer) (ret bare_exif)) plain_item 0 = inr out
      /\ lookup "exif" (json out) = Some (VObj s)
      /\ lookup "fileInfo" s = Some (VObj fi)
      /\ lookup "fileName" fi = Some (VStr "photo.jpg?size=2"))
  /\ (exists out s fi,
         process_item Reference.runtime
           (url_host [plain_item] "https://example.com/a/"
              (ret sample_buffer) (ret bare_exif)) plain_item 0 = inr out
         /\ lookup "exif" (json out) = Some (VObj s)
         /\ lookup "fileInfo" s = Some (VObj fi)
         /\ lookup "fileName" fi = Some (VStr "downloaded_image")).
Proof.
  split.
  - destruct (process_item Reference.runtime
                (url_host [plain_item] "https://example.com/a/photo.jpg?size=2"
                   (ret sample_buffer) (ret bare_exif)) plain_item 0)
      as [e|out] eqn:E; [vm_compute in E; discriminate|].
    destruct (file_info_from_url Reference.runtime
                (url_host [plain_item] "https://example.com/a/photo.jpg?size=2"
                   (ret sample_buffer) (ret bare_exif))
                plain_item 0 "url" "exif" true true true
                "https://example.com/a/photo.jpg?size=2" out
                (url_settings _ _ _ _ _) ltac:(discriminate) eq_refl E)
      as (buffer & s & fi & name & _ & H1 & H2 & H3 & _).
    exists out, s, fi. split; [reflexivity|]. split; [exact H1|].
    split; [exact H2|].
    vm_compute in E. injection E as <-.
    vm_compute in H1. injection H1 as <-.
    vm_compute in H2. injection H2 as <-.
    reflexivity.
  - destruct (process_item Reference.runtime
                (url_host [plain_item] "https://example.com/a/"
                   (ret sample_buffer) (ret bare_exif)) plain_item 0)
      as [e|out] eqn:E; [vm_compute in E; discriminate|].
    destruct (file_info_from_url Reference.runtime
                (url_host [plain_item] "https://example.com/a/"
                   (ret sample_buffer) (ret bare_exif))
                plain_item 0 "url" "exif" true true true
                "https://example.com/a/" out
                (url_settings _ _ _ _ _) ltac:(discriminate) eq_refl E)
      as (buffer & s & fi & name & _ & H1 & H2 & H3 & _).
    exists out, s, fi. split; [reflexivity|]. split; [exact H1|].
    split; [exact H2|].
    vm_compute in E. injection E as <-.
    vm_compute in H1. injection H1 as <-.
    vm_compute in H2. injection H2 as <-.
    reflexivity.
Defined.

(** X17.  For every successfully processed item, fileInfo.fileName is a
    non-empty string. *)
Theorem file_name_never_empty rt h item itemIndex out :
  process_item rt h item itemIndex = inr out ->
  exists key s fi name,
    getNodeParameter_string h "outputProperty" itemIndex = inr key
    /\ lookup key (json out) = Some (VObj s)
    /\ lookup "fileInfo" s = Some (VObj fi)
    /\ lookup "fileName" fi = Some (VStr name)
    /\ name <> EmptyString.
Proof.
  intros H.
  destruct (getNodeParameter_string h "inputSource" itemIndex) as [e0|src] eqn:Es;
    [unfold process_item in H; rewrite Es in H; discriminate|].
  destruct (process_item_inv _ _ _ _ _ H)
    as (key & g & z & c & _ & _ & _ & _ & Hk & Hg & Hz & Hc & _).
  assert (Hr : settings_read h itemIndex src key g z c) by (repeat split; assumption).
  destruct (string_dec src "binaryData") as [->|Hne].
  - destruct (getNodeParameter_string h "binaryProperty" itemIndex) as [e0|p] eqn:Ep.
    { unfold process_item in H. rewrite Es, Hk, Hg, Hz, Hc in H. cbn [bind] in H.
      rewrite String.eqb_refl, Ep in H. discriminate. }
    rewrite (process_item_binary _ _ _ _ _ _ _ _ _ Hr Ep) in H.
    destruct (binary_of item p) as [b|]; [|discriminate].
    destruct (getBinaryDataBuffer h itemIndex p) as [e|buffer]; cbn [bind] in H;
      [discriminate|].
    destruct (finish_inv _ _ _ _ _ _ _ _ _ _ H) as (s & fi & H1 & H2 & H3 & _).
    exists key, s, fi. eexists. repeat (split; [eassumption|]).
    destruct b as [b|]; cbn [entry_name];
      [apply first_nonempty_nonempty|]; discriminate.
  - destruct (getNodeParameter_string h "imageUrl" itemIndex) as [e0|url] eqn:Eu.
    { unfold process_item in H. rewrite Es, Hk, Hg, Hz, Hc in H. cbn [bind] in H.
      apply String.eqb_neq in Hne. rewrite Hne, Eu in H. discriminate. }
    rewrite (process_item_url _ _ _ _ _ _ _ _ _ _ Hr Hne Eu) in H.
    destruct (String.eqb url EmptyString); [discriminate|].
    destruct (httpRequest h url) as [e|buffer]; cbn [bind] in H; [discriminate|].
    destruct (finish_inv _ _ _ _ _ _ _ _ _ _ H) as (s & fi & H1 & H2 & H3 & _).
    exists key, s, fi. eexists. repeat (split; [eassumption|]).
    apply first_nonempty_nonempty. discriminate.
Qed.

Lemma file_name_never_empty_witness :
  exists out s fi,
    process_item Reference.runtime
      (sample_host [] (ret bare_exif) true false)
      {| json := [];
         binary := Some [("data", {| data := EmptyString;
                                     mimeType := "image/jpeg";
                                     fileName := None |})];
         pairedItem := None |} 0 = inr out
    /\ lookup "exif" (json out) = Some (VObj s)
    /\ lookup "fileInfo" s = Some (VObj fi)
    /\ lookup "fileName" fi = Some (VStr "unknown").
Proof.
  destruct (process_item Reference.runtime
              (sample_host [] (ret bare_exif) true false)
              {| json := [];
                 binary := Some [("data", {| data := EmptyString;
                                             mimeType := "image/jpeg";
                                             fileName := None |})];
                 pairedItem := None |} 0) as [e|out] eqn:E;
    [vm_compute in E; discriminate|].
  destruct (file_name_never_empty _ _ _ _ _ E)
    as (key & s & fi & name & Hk & H1 & H2 & H3 & Hne).
  cbn in Hk. injection Hk as <-.
  exists out, s, fi. split; [reflexivity|]. split; [exact H1|].
  split; [exact H2|].
  vm_compute in E. injection E as <-.
  vm_compute in H1. injection H1 as <-.
  vm_compute in H2. injection H2 as <-.
  reflexivity.
Defined.

(** ** The list [execute] returns *)

(** X18.  In continue-on-fail mode [execute] always returns.  Whenever
    it returns, it returns one list with exactly one item per input item,
    in the input order: at each position the output of that item, or its
    error item. *)
Theorem one_output_per_item rt h :
  (continueOnFail h = true -> exists outs, execute rt h = inr [outs])
  /\ (forall r, execute rt h = inr r ->
        exists outs,
          r = [outs]
          /\ List.length outs = List.length (getInputData h)
          /\ forall k item,
              nth_error (getInputData h) k = Some item ->
              nth_error outs k = Some (returned rt h item k)).
Proof.
  split.
  - intros Hc. unfold execute.
    rewrite (execute_from_continue _ _ _ _ _ Hc). cbn [bind ret]. eauto.
  - intros r Hr. unfold execute in Hr.
    destruct (execute_from rt h (getInputData h) 0 []) as [e|outs] eqn:E;
      cbn [bind ret] in Hr; [discriminate|].
    injection Hr as <-. exists outs. split; [reflexivity|].
    destruct (execute_from_inr _ _ _ _ _ _ E) as [-> _]. cbn [app].
    split; [apply returned_from_length|].
    intros k item Hk. now rewrite (nth_error_returned_from _ _ _ _ _ _ Hk).
Qed.

Lemma one_output_per_item_witness :
  exists outs,
    execute Reference.runtime
      (sample_host [sample_item; thumb_item; sample_item] (ret bare_exif)
         true true) = inr [outs]
    /\ List.length outs = 3%nat
    /\ nth_error outs 1
       = Some (returned Reference.runtime
                 (sample_host [sample_item; thumb_item; sample_item]
                    (ret bare_exif) true true) thumb_item 1).
Proof.
  destruct (one_output_per_item Reference.runtime
              (sample_host [sample_item; thumb_item; sample_item] (ret bare_exif)
                 true true)) as [Hret Hall].
  destruct (Hret eq_refl) as [outs Hex].
  destruct (Hall _ Hex) as (outs' & Heq & Hlen & Hnth).
  injection Heq as <-.
  exists outs. split; [exact Hex|]. split; [exact Hlen|].
  apply Hnth. reflexivity.
Defined.

(** X19.  In what [execute] returns, the item at each position
    has no pairedItem when the input item was processed, and has the
    position as pairedItem when it is an error item. *)
Theorem paired_item_only_on_error rt h outs k item :
  execute rt h = inr [outs] ->
  nth_error (getInputData h) k = Some item ->
  exists out,
    nth_error outs k = Some out
    /\ match process_item rt h item k with
       | inr _ => pairedItem out = None
       | inl _ => pairedItem out = Some k
       end.
Proof.
  intros Hex Hk. unfold execute in Hex.
  destruct (execute_from rt h (getInputData h) 0 []) as [e|outs'] eqn:E;
    [discriminate|].
  cbn in Hex. injection Hex as <-.
  destruct (execute_from_inr _ _ _ _ _ _ E) as [-> _].
  cbn [app]. rewrite (nth_error_returned_from _ _ _ _ _ _ Hk).
  cbn [Nat.add]. eexists. split; [reflexivity|].
  unfold returned.
  destruct (process_item rt h item k) as [e|out] eqn:Ep; [reflexivity|].
  destruct (process_item_inv _ _ _ _ _ Ep)
    as (key & ig & iis & ct & buffer & d & name & s & _ & _ & _ & _ & _ & _ & ->).
  reflexivity.
Qed.

Lemma paired_item_only_on_error_witness :
  exists outs o0 o1,
    execute Reference.runtime
      (sample_host [sample_item; thumb_item] (ret bare_exif) true true)
    = inr [outs]
    /\ nth_error outs 0 = Some o0 /\ pairedItem o0 = None
    /\ nth_error outs 1 = Some o1 /\ pairedItem o1 = Some 1%nat.
Proof.
  destruct (execute Reference.runtime
              (sample_host [sample_item; thumb_item] (ret bare_exif) true true))
    as [e|[|outs [|? ?]]] eqn:E; try (vm_compute in E; discriminate).
  destruct (paired_item_only_on_error _ _ outs 0%nat sample_item E eq_refl)
    as (o0 & H0 & P0).
  destruct (paired_item_only_on_error _ _ outs 1%nat thumb_item E eq_refl)
    as (o1 & H1 & P1).
  exists outs, o0, o1. split; [reflexivity|]. split; [exact H0|].
  split.
  - destruct (process_item Reference.runtime
                (sample_host [sample_item; thumb_item] (ret bare_exif) true true)
                sample_item 0) as [e|out] eqn:Ep;
      [vm_compute in Ep; discriminate|exact P0].
  - split; [exact H1|].
    destruct (process_item Reference.runtime
                (sample_host [sample_item; thumb_item] (ret bare_exif) true true)
                thumb_item 1) as [e|out] eqn:Ep;
      [exact P1|vm_compute in Ep; discriminate].
Defined.

Lemma all_succeed_cons rt h item rest itemIndex out :
  process_item rt h item itemIndex = inr out ->
  all_succeed rt h rest (S itemIndex) ->
  all_succeed rt h (item :: rest) itemIndex.
Proof.
  intros Ho Hall k it Hk. destruct k as [|k]; cbn in Hk.
  - injection Hk as <-. rewrite Nat.add_0_r. eauto.
  - rewrite Nat.add_succ_r. apply (Hall k it Hk).
Qed.

Lemma execute_from_all_succeed rt h items itemIndex returnData :
  all_succeed rt h items itemIndex ->
  execute_from rt h items itemIndex returnData
  = inr (returnData ++ returned_from rt h items itemIndex)%list.
Proof.
  revert itemIndex returnData.
  induction items as [|item rest IH]; intros itemIndex returnData Hall; cbn.
  - now rewrite app_nil_r.
  - apply all_succeed_tail in Hall. destruct Hall as [[out Ho] Hall].
    unfold returned. rewrite Ho, (IH _ _ Hall), <- app_assoc. reflexivity.
Qed.

(** A loop that throws met a first failing item, in abort mode. *)
Lemma execute_from_inl rt h items itemIndex returnData e' :
  execute_from rt h items itemIndex returnData = inl e' ->
  continueOnFail h = false
  /\ exists pre item post e,
      items = (pre ++ item :: post)%list
      /\ all_succeed rt h pre itemIndex
      /\ process_item rt h item (itemIndex + List.length pre) = inl e
      /\ e' = rethrow h (itemIndex + List.length pre) e.
Proof.
  revert itemIndex returnData.
  induction items as [|item rest IH]; intros itemIndex returnData; cbn;
    [discriminate|].
  destruct (process_item rt h item itemIndex) as [e|out] eqn:E.
  - destruct (continueOnFail h) eqn:Hc.
    + intros H. apply IH in H. destruct H as [H _]. discriminate.
    + intros H. injection H as <-. split; [reflexivity|].
      exists [], item, rest, e. cbn. rewrite Nat.add_0_r.
      repeat split; auto. intros k it Hk. destruct k; discriminate.
  - intros H. apply IH in H.
    destruct H as (Hc & pre & it & post & e & -> & Hall & He & ->).
    split; [exact Hc|]. exists (item :: pre), it, post, e. cbn [List.length].
    rewrite Nat.add_succ_r in *. repeat split; auto.
    now apply (all_succeed_cons _ _ _ _ _ out).
Qed.

(** ** What [execute] throws *)

(** X20.  When [execute] throws, continue-on-fail is off and the
    error comes from the first item that fails.  When the error of that
    item has a context, the thrown error has its message; when it has
    none, the thrown error is the NodeOperationError made of its message,
    whose message is what the constructor makes of it.  The context of the
    thrown error holds the position of the item as itemIndex and keeps the
    other entries of the original context, if there was one. *)
Theorem thrown_error_origin rt h e' :
  execute rt h = inl e' ->
  continueOnFail h = false
  /\ exists pre item post e,
      getInputData h = (pre ++ item :: post)%list
      /\ all_succeed rt h pre 0
      /\ process_item rt h item (List.length pre) = inl e
      /\ (forall ctx0, context e = Some ctx0 -> message e' = message e)
      /\ (context e = None ->
          e' = NodeOperationError h (message e) (List.length pre)
          /\ message e' = NodeOperationError_message h (message e))
      /\ exists ctx,
          context e' = Some ctx
          /\ lookup "itemIndex" ctx
             = Some (VNum (Number.of_Z (Z.of_nat (List.length pre))))
          /\ forall ctx0 k,
              context e = Some ctx0 -> k <> "itemIndex" ->
              lookup k ctx = lookup k ctx0.
Proof.
  unfold execute. intros H.
  destruct (execute_from rt h (getInputData h) 0 []) as [e0|outs] eqn:E;
    cbn [bind ret] in H; [|discriminate].
  injection H as <-. apply execute_from_inl in E.
  destruct E as (Hc & pre & item & post & e & Hi & Hall & He & ->).
  cbn [Nat.add] in *. split; [exact Hc|].
  exists pre, item, post, e. repeat (split; [assumption|]).
  unfold rethrow. destruct (context e) as [ctx0|].
  - split; [reflexivity|]. split; [discriminate|].
    eexists. split; [reflexivity|].
    split; [apply lookup_set_same|].
    intros c0 k Hctx Hk. injection Hctx as <-. now apply lookup_set_other.
  - split; [discriminate|]. split; [split; reflexivity|].
    eexists. split; [reflexivity|].
    split; [apply lookup_set_same|]. intros c0 k Hctx. discriminate.
Qed.

Lemma thrown_error_origin_witness :
  (exists e',
      execute Reference.runtime
        (sample_host [sample_item; thumb_item; sample_item] (ret bare_exif)
           true false) = inl e'
      /\ exists ctx,
          context e' = Some ctx
          /\ lookup "itemIndex" ctx = Some (VNum 1%float))
  /\ (exists e',
         execute Reference.runtime
           (url_host [plain_item] "http://127.0.0.1/a.jpg"
              (throw (EngineError "connect ECONNREFUSED 127.0.0.1:80"))
              (ret bare_exif)) = inl e'
         /\ message e'
            = "The service refused the connection - perhaps it is offline").
Proof.
  split.
  - destruct (execute Reference.runtime
                (sample_host [sample_item; thumb_item; sample_item]
                   (ret bare_exif) true false)) as [e'|r] eqn:E;
      [|vm_compute in E; discriminate].
    destruct (thrown_error_origin _ _ _ E)
      as (_ & pre & item & post & e & Hi & Hall & He & _ & _
          & ctx & Hc & Hidx & _).
    exists e'. split; [reflexivity|]. exists ctx. split; [exact Hc|].
    rewrite Hidx. cbn [getInputData sample_host] in Hi.
    destruct pre as [|p0 [|p1 pre]].
    + exfalso. injection Hi as <- _. vm_compute in He. discriminate He.
    + reflexivity.
    + exfalso. injection Hi as <- <- Hi.
      destruct (Hall 1%nat thumb_item eq_refl) as [out Ho].
      vm_compute in Ho. discriminate Ho.
  - destruct (execute Reference.runtime
                (url_host [plain_item] "http://127.0.0.1/a.jpg"
                   (throw (EngineError "connect ECONNREFUSED 127.0.0.1:80"))
                   (ret bare_exif))) as [e'|r] eqn:E;
      [|vm_compute in E; discriminate].
    destruct (thrown_error_origin _ _ _ E)
      as (_ & pre & item & post & e & Hi & _ & He & _ & Hnew & _).
    exists e'. split; [reflexivity|].
    cbn [getInputData url_host] in Hi.
    destruct pre as [|p0 pre];
      [|destruct pre; discriminate Hi].
    injection Hi as <- _. vm_compute in He. injection He as <-.
    destruct (Hnew eq_refl) as [_ Hm]. rewrite Hm. vm_compute. reflexivity.
Defined.

(** X21.  Without continue-on-fail, [execute] returns exactly when
    every item is processed without an exception. *)
Theorem returns_iff_all_succeed rt h :
  continueOnFail h = false ->
  (exists r, execute rt h = inr r) <-> all_succeed rt h (getInputData h) 0.
Proof.
  intros Hc. unfold execute. split.
  - intros [r Hr].
    destruct (execute_from rt h (getInputData h) 0 []) as [e|outs] eqn:E;
      cbn [bind ret] in Hr; [discriminate|].
    now apply (execute_from_inr _ _ _ _ _ _ E).
  - intros Hall. rewrite (execute_from_all_succeed _ _ _ _ _ Hall).
    cbn [bind ret]. eauto.
Qed.

Lemma returns_iff_all_succeed_witness :
  (exists r,
      execute Reference.runtime
        (sample_host [sample_item; sample_item] (ret bare_exif) true false)
      = inr r)
  /\ ~ all_succeed Reference.runtime
         (sample_host [sample_item; thumb_item] (ret bare_exif) true false)
         [sample_item; thumb_item] 0.
Proof.
  split.
  - apply (returns_iff_all_succeed Reference.runtime
             (sample_host [sample_item; sample_item] (ret bare_exif) true false)
             eq_refl).
    intros k item Hk. destruct k as [|[|k]]; cbn in Hk.
    + injection Hk as <-. eexists. vm_compute. reflexivity.
    + injection Hk as <-. eexists. vm_compute. reflexivity.
    + destruct k; discriminate.
  - intros Hall.
    apply (returns_iff_all_succeed Reference.runtime
             (sample_host [sample_item; thumb_item] (ret bare_exif) true false)
             eq_refl) in Hall.
    destruct Hall as [r Hr]. vm_compute in Hr. discriminate Hr.
Defined.


(** ** The parameters that are read *)

(** X22.  For an item whose input source is one of the two declared
    options, [process_item] reads only parameters the node description
    declares, each with its declared type, and [binaryProperty] and
    [imageUrl] only when their displayOptions show them for that input
    source: refusing every other read changes nothing. *)
Theorem parameters_as_declared rt h item itemIndex src :
  getNodeParameter_string h "inputSource" itemIndex = inr src ->
  In src ["binaryData"; "url"] ->
  process_item rt (declared_only h) item itemIndex
  = process_item rt h item itemIndex.
Proof.
  intros Hs Hin.
  assert (R1 : readable h true "inputSource" itemIndex = true) by reflexivity.
  assert (R2 : readable h true "outputProperty" itemIndex = true) by reflexivity.
  assert (R3 : readable h false "includeGps" itemIndex = true) by reflexivity.
  assert (R4 : readable h false "includeImageSize" itemIndex = true)
    by reflexivity.
  assert (R5 : readable h false "convertTimestamps" itemIndex = true)
    by reflexivity.
  assert (R6 : readable h true "binaryProperty" itemIndex
               = String.eqb src "binaryData").
  { unfold readable, displayed. cbn. rewrite Hs. cbn. apply orb_false_r. }
  assert (R7 : readable h true "imageUrl" itemIndex = String.eqb src "url").
  { unfold readable, displayed. cbn. rewrite Hs. cbn. apply orb_false_r. }
  unfold process_item.
  cbn [declared_only getNodeParameter_string getNodeParameter_boolean
         getBinaryDataBuffer httpRequest ExifParser_parse].
  rewrite R1, R2, R3, R4, R5, R6, R7, Hs. cbn [bind].
  destruct Hin as [<-|[<-|[]]]; reflexivity.
Qed.

Lemma parameters_as_declared_witness :
  process_item Reference.runtime
    (declared_only (sample_host [sample_item] (ret bare_exif) true false))
    sample_item 0
  = process_item Reference.runtime
      (sample_host [sample_item] (ret bare_exif) true false) sample_item 0
  /\ process_item Reference.runtime
       (declared_only
          (url_host [plain_item] "https://example.com/a/photo.jpg"
             (ret sample_buffer) (ret bare_exif))) plain_item 0
     = process_item Reference.runtime
         (url_host [plain_item] "https://example.com/a/photo.jpg"
            (ret sample_buffer) (ret bare_exif)) plain_item 0.
Proof.
  split.
  - apply (parameters_as_declared Reference.runtime
             (sample_host [sample_item] (ret bare_exif) true false)
             sample_item 0 "binaryData"); [reflexivity|cbn; auto].
  - apply (parameters_as_declared Reference.runtime
             (url_host [plain_item] "https://example.com/a/photo.jpg"
                (ret sample_buffer) (ret bare_exif))
             plain_item 0 "url"); [reflexivity|cbn; auto].
Defined.

(** * The number formatFileSize prints *)

Lemma read_digits_app (a r : string) (acc cnt : Z) :
  all_digits a = true ->
  Number.read_digits (a ++ r) acc cnt
  = Number.read_digits r (digits_value a acc) (cnt + Z.of_nat (String.length a)).
Proof.
  revert acc cnt. induction a as [|c a IH]; intros acc cnt Ha.
  - cbn. now rewrite Z.add_0_r.
  - cbn [all_digits] in Ha. cbn [append Number.read_digits digits_value].
    destruct (Number.digit_of c) as [d|]; [|discriminate].
    rewrite IH by exact Ha. cbn [String.length]. f_equal. lia.
Qed.

Lemma all_digits_app (a b : string) :
  all_digits (a ++ b) = all_digits a && all_digits b.
Proof.
  induction a as [|c a IH]; cbn; [reflexivity|].
  destruct (Number.digit_of c); auto.
Qed.

Lemma digits_value_app (a b : string) (acc : Z) :
  all_digits a = true ->
  digits_value (a ++ b) acc = digits_value b (digits_value a acc).
Proof.
  revert acc. induction a as [|c a IH]; intros acc Ha; cbn in *; auto.
  destruct (Number.digit_of c); [auto|discriminate].
Qed.

Ltac digit_step :=
  match goal with
  | |- context [Number.digit_of ?c] =>
      let v := eval vm_compute in (Number.digit_of c) in
      change (Number.digit_of c) with v; cbv beta iota
  end.

Lemma uint_digits (u : Decimal.uint) :
  all_digits (NilEmpty.string_of_uint u) = true
  /\ (forall a, digits_value (NilEmpty.string_of_uint u) (Zpos a)
                = Zpos (Pos.of_uint_acc u a))
  /\ digits_value (NilEmpty.string_of_uint u) 0 = Z.of_N (Pos.of_uint u).
Proof.
  assert (B : forall v a, digits_value (NilEmpty.string_of_uint v) (Zpos a)
                          = Zpos (Pos.of_uint_acc v a)).
  { clear u. induction v; intros a;
      cbn [NilEmpty.string_of_uint Pos.of_uint_acc digits_value];
      [reflexivity|..];
      digit_step; rewrite <- IHv; f_equal; lia. }
  split; [induction u; cbn; auto|]. split; [apply B|].
  induction u; cbn [NilEmpty.string_of_uint Pos.of_uint digits_value];
    [reflexivity|..]; digit_step;
    [exact IHu|..]; cbn [Z.of_N]; rewrite <- B; f_equal.
Qed.

Lemma of_Z_digits (n : Z) :
  0 <= n ->
  all_digits (Digits.of_Z n) = true /\ digits_value (Digits.of_Z n) 0 = n.
Proof.
  intros Hn. unfold Digits.of_Z.
  pose proof (DecimalN.Unsigned.of_to (Z.to_N n)) as Hr.
  unfold N.of_uint in Hr.
  destruct (uint_digits (N.to_uint (Z.to_N n))) as (A & _ & C).
  rewrite Hr, Z2N.id in C by exact Hn.
  unfold NilZero.string_of_uint.
  destruct (N.to_uint (Z.to_N n)); auto.
Qed.

Lemma repeat0_digits (k : nat) :
  all_digits (Digits.repeat0 k) = true
  /\ digits_value (Digits.repeat0 k) 0 = 0.
Proof. induction k as [|k [A B]]; cbn; auto. Qed.

Lemma length_append (a b : string) :
  String.length (a ++ b) = (String.length a + String.length b)%nat.
Proof. induction a as [|c a IH]; cbn; auto. Qed.

Lemma repeat0_length (k : nat) : String.length (Digits.repeat0 k) = k.
Proof. induction k; cbn; auto. Qed.

Lemma pad_digits (w : nat) (n : Z) :
  0 <= n ->
  all_digits (Digits.pad w n) = true
  /\ digits_value (Digits.pad w n) 0 = n
  /\ (w <= String.length (Digits.pad w n))%nat.
Proof.
  intros Hn. unfold Digits.pad.
  destruct (of_Z_digits n Hn) as [A B].
  destruct (repeat0_digits (w - String.length (Digits.of_Z n))) as [C D].
  split; [|split].
  - now rewrite all_digits_app, A, C.
  - now rewrite digits_value_app, D by exact C.
  - rewrite length_append, repeat0_length. lia.
Qed.

Lemma take_drop (j : nat) (s : string) :
  (j <= String.length s)%nat ->
  s = Digits.take j s ++ Digits.drop j s
  /\ String.length (Digits.take j s) = j.
Proof.
  unfold Digits.take, Digits.drop. revert j.
  induction s as [|c s IH]; intros j Hj.
  - cbn in Hj. assert (j = 0)%nat by lia. subst j. split; reflexivity.
  - destruct j as [|j].
    + cbn [substring append String.length]. rewrite Nat.sub_0_r.
      split; [|reflexivity]. f_equal.
      clear. induction s as [|c s IH]; cbn; [reflexivity|].
      now rewrite <- IH.
    + cbn [String.length] in Hj.
      destruct (IH j ltac:(lia)) as [E L].
      cbn [substring String.length Nat.sub append]. split.
      * f_equal. exact E.
      * now rewrite L.
Qed.

Lemma digit_char (c : ascii) (d : Z) (r : string) :
  Number.digit_of c = Some d ->
  Number.skip_space (String c r) = String c r
  /\ Number.read_sign (String c r) = (false, String c r)
  /\ String.prefix "Infinity" (String c r) = false.
Proof.
  destruct c as [[] [] [] [] [] [] [] []]; cbn; intros H;
    try discriminate H; repeat split.
Qed.

Lemma read_digits_point (b : string) (acc cnt : Z) :
  Number.read_digits (String "." b) acc cnt = (acc, cnt, String "." b).
Proof. reflexivity. Qed.

(** Parsing the two-decimal print of [n] hundredths gives the float
    nearest to [n / 100]. *)
Lemma parseFloat_fixed_digits (n : Z) :
  0 <= n ->
  Number.parseFloat (Number.fixed_digits 2 n) = Number.of_Q n 100.
Proof.
  intros Hn. unfold Number.fixed_digits.
  destruct (pad_digits 3 n Hn) as (Hall & Hval & Hlen).
  remember (Digits.pad 3 n) as ds eqn:Eds. clear Eds.
  destruct (take_drop (String.length ds - 2) ds ltac:(lia)) as [Hsplit Hla].
  remember (Digits.take (String.length ds - 2) ds) as a eqn:Ea0.
  remember (Digits.drop (String.length ds - 2) ds) as b eqn:Eb0.
  clear Ea0 Eb0.
  assert (Hlb : String.length b = 2%nat).
  { pose proof (f_equal String.length Hsplit) as H.
    rewrite length_append in H. lia. }
  assert (Hab : all_digits a = true /\ all_digits b = true).
  { rewrite Hsplit, all_digits_app in Hall. now apply andb_prop in Hall. }
  destruct Hab as [Ha Hb].
  assert (Hv : digits_value b (digits_value a 0) = n).
  { rewrite <- digits_value_app by exact Ha. now rewrite <- Hsplit. }
  destruct a as [|c a']; [cbn in Hla; lia|].
  cbn [all_digits] in Ha.
  destruct (Number.digit_of c) as [d|] eqn:Ed; [|discriminate].
  destruct (digit_char c d (a' ++ "." ++ b) Ed) as (Hsp & Hsg & Hpre).
  assert (Ha' : all_digits (String c a') = true) by (cbn; now rewrite Ed).
  unfold Number.parseFloat.
  change (String c a' ++ "." ++ b) with (String c (a' ++ "." ++ b)).
  rewrite Hsp, Hsg, Hpre.
  change (String c (a' ++ "." ++ b)) with (String c a' ++ String "." b).
  rewrite (read_digits_app _ _ _ _ Ha'), read_digits_point.
  rewrite <- (append_nil_r b) at 1.
  rewrite (read_digits_app _ _ _ _ Hb), Hv, Hlb, Hla.
  cbn [Number.read_digits].
  replace (0 + Z.of_nat (String.length ds - 2) =? 0) with false
    by (symmetry; apply Z.eqb_neq; lia).
  reflexivity.
Qed.

Lemma scaled_round_nonneg (m : positive) (e : Z) (f : nat) :
  0 <= Number.scaled_round m e f.
Proof.
  unfold Number.scaled_round.
  assert (0 < 10 ^ Z.of_nat f) by (apply Z.pow_pos_nonneg; lia).
  destruct (Z.leb_spec 0 e).
  - assert (0 < 2 ^ e) by (apply Z.pow_pos_nonneg; lia). nia.
  - assert (0 < 2 ^ (- e)) by (apply Z.pow_pos_nonneg; lia).
    assert (0 < 2 ^ (1 - e)) by (apply Z.pow_pos_nonneg; lia).
    apply Z.div_pos; nia.
Qed.

(** X23.  For a non-zero byte count whose unit index is 0 to 4 and whose
    size in that unit is a positive finite number below [10^21], the
    result is Number::toString of the float nearest to [n / 100], a space
    and the unit, where [n] is the integer nearest to a hundred times the
    size in that unit (the larger one on a tie): parsing the [toFixed(2)]
    print gives back exactly that float. *)
Theorem formatFileSize_value rt bytes i unit m e :
  (bytes =? 0)%float = false ->
  Number.Math_floor (Math_log rt bytes / Math_log rt 1024)%float
  = Number.of_Z (Z.of_nat i) ->
  nth_error sizes i = Some unit ->
  Number.shape_of (bytes / Math_pow rt 1024 (Number.of_Z (Z.of_nat i)))%float
  = Number.Fin false m e ->
  Number.cmp_bin_dec (Zpos m) e 1 21 = Lt ->
  exists n,
    formatFileSize rt bytes
    = Number.toString (Number.of_Q n 100) ++ " " ++ unit
    /\ 0 <= n
    /\ (2 * n - 1) * 2 ^ Z.max (- e) 0 <= 200 * Zpos m * 2 ^ Z.max e 0
    /\ 200 * Zpos m * 2 ^ Z.max e 0 < (2 * n + 1) * 2 ^ Z.max (- e) 0.
Proof.
  intros Hz Hi Hu Hx Hlt. exists (Number.scaled_round m e 2).
  split; [|split; [apply scaled_round_nonneg|apply scaled_round_nearest]].
  unfold formatFileSize. rewrite Hz, Hi, (array_get_sizes _ _ Hu).
  cbv zeta. unfold Number.toFixed. rewrite Hx, Hlt.
  change (EmptyString ++ Number.fixed_digits 2 (Number.scaled_round m e 2))
    with (Number.fixed_digits 2 (Number.scaled_round m e 2)).
  now rewrite parseFloat_fixed_digits by apply scaled_round_nonneg.
Qed.

Lemma formatFileSize_value_witness :
  exists n,
    formatFileSize Reference.runtime 123456789%float
    = Number.toString (Number.of_Q n 100) ++ " MB"
    /\ n = 11774
    /\ Number.toString (Number.of_Q n 100) = "117.74".
Proof.
  edestruct (formatFileSize_value Reference.runtime 123456789%float 2 "MB")
    as (n & Hf & Hn & Hlo & Hhi);
    [reflexivity|vm_compute; reflexivity|reflexivity|vm_compute; reflexivity
    |vm_compute; reflexivity|].
  assert (En : n = 11774).
  { change (Z.max (- (-46)) 0) with 46 in Hlo, Hhi.
    change (Z.max (-46) 0) with 0 in Hlo, Hhi.
    change (2 ^ 46) with 70368744177664 in Hlo, Hhi.
    change (2 ^ 0) with 1 in Hlo, Hhi. lia. }
  exists n. split; [exact Hf|]. split; [exact En|].
  rewrite En. vm_compute. reflexivity.
Defined.
